(** * run_claude_with_zen.py: the process lifecycle of one session

    A shallow embedding of [src/run_claude_with_zen.py].  The script is
    sequential Python that threads two module-level process handles, the
    process environment and a temporary file through its functions, leaves
    early through [sys.exit] and exceptions, and is torn down by an [atexit]
    hook and a signal handler.  It is modelled in a state-and-exception monad
    over an explicit [state]; everything the outside world decides (which
    executables answer, what the client returns, when a signal arrives) is
    read from a [world] record. *)

From Stdlib Require Import ZArith Lia.
From stdpp Require Import base strings pretty gmap list.

Local Open Scope string_scope.
Local Open Scope list_scope.
Local Open Scope stdpp_scope.

(** ** Data model *)

(** A child process handle ([subprocess.Popen] object), identified by pid. *)
Definition proc := nat.

(** The exceptions the script raises or meets.  [SystemExit] is what
    [sys.exit] raises; it is a [BaseException] and not an [Exception]. *)
Inductive exn :=
| SystemExit (code : Z)
| TimeoutExpired
| CalledProcessError
| FileNotFoundError
| OSError.

Definition is_Exception (e : exn) : bool :=
  match e with SystemExit _ => false | _ => true end.

Definition is_TimeoutExpired (e : exn) : bool :=
  match e with TimeoutExpired => true | _ => false end.

(** [except (subprocess.CalledProcessError, FileNotFoundError)] *)
Definition is_probe_failure (e : exn) : bool :=
  match e with CalledProcessError | FileNotFoundError => true | _ => false end.

(** [str(e)] in the message of [start_redis]. *)
Definition str_exn (e : exn) : string :=
  match e with
  | SystemExit _ => "SystemExit"
  | TimeoutExpired => "TimeoutExpired"
  | CalledProcessError => "CalledProcessError"
  | FileNotFoundError => "FileNotFoundError"
  | OSError => "OSError"
  end.

(** Outcome of [subprocess.run(cmd, capture_output=True, check=True)]. *)
Inductive run_result :=
| RunOk           (* exit status 0 *)
| RunFailed       (* non-zero exit status: CalledProcessError *)
| RunNotFound.    (* no such executable: FileNotFoundError *)

(** Outcome of the attempt itself: the command was run, with one of the
    outcomes above, or the executable is there and cannot be executed, and
    [subprocess.run] raises another [OSError] ([PermissionError]), which
    [except (subprocess.CalledProcessError, FileNotFoundError)] does not
    catch. *)
Inductive run_attempt :=
| Ran (r : run_result)
| RunDenied.

(** Outcome of [subprocess.run(cmd, cwd=working_dir)] for the client. *)
Inductive client_result :=
| ClientExit (returncode : Z)
| ClientSpawnError.   (* the client could not be started *)

(** One entry of the ["mcpServers"] dictionary written by
    [create_mcp_config]; [env] keeps the order of the dict literal. *)
Record server_entry := ServerEntry {
  command : string;
  args : list string;
  env : list (string * string) }.

Definition mcp_config := list (string * server_entry).

(** What the script does to the outside, in order. *)
Inductive event :=
| EvPrint (line : string)
| EvRun (cmd : list string)                  (* subprocess.run of a probe or of pip *)
| EvPopen (cmd : list string) (p : proc)     (* subprocess.Popen succeeded *)
| EvSleep (secs : nat)
| EvLaunch (cmd : list string) (cwd : option string)  (* subprocess.run called for the client *)
| EvLaunchDone (rc : option Z)               (* that call is over: the client exited with rc, or
                                                (None) did not start or was killed by subprocess.run *)
| EvTerminate (p : proc)
| EvWait (p : proc) (timeout : nat)
| EvKill (p : proc)
| EvCreate (path : string) (content : mcp_config)
| EvUnlink (path : string)
| EvSignal                                   (* a SIGINT or SIGTERM was delivered *)
| EvCleanup (mcp redis : option proc).       (* ghost: the body of cleanup() was entered,
                                                with these values of the two globals *)

(** The mutable state of the interpreter process. *)
Record state := State {
  mcp_process : option proc;        (* global, line 23 *)
  redis_process : option proc;      (* global, line 24 *)
  environ : gmap string string;     (* os.environ *)
  files : gmap string mcp_config;   (* temporary files written by the script *)
  exited : list proc;               (* children that have exited or were killed *)
  pending : option nat;             (* checkpoints left before a signal is delivered *)
  trace : list event }.

(** The part of an execution that the script does not decide. *)
Record world := World {
  argv : list string;               (* sys.argv, script name first *)
  getcwd : string;                  (* os.getcwd() *)
  home : string;                    (* os.path.expanduser("~") *)
  environ0 : gmap string string;    (* the environment at start *)
  script_dir : string;              (* Path(__file__).parent *)
  sys_executable : string;
  probe : string -> run_attempt;    (* [cmd, "--version"] *)
  requirements_exists : bool;
  pip_install : run_result;         (* pip under sys.executable, which can be executed *)
  ping1 : run_result;               (* first redis-cli ping; redis-cli is taken to be
                                       executable when it is there *)
  popen_redis : option proc;        (* None: Popen raises *)
  ping2 : run_result;               (* redis-cli ping after the wait *)
  tmp_name : string;                (* name chosen by NamedTemporaryFile *)
  client : client_result;
  graceful : proc -> bool;          (* the child exits within the wait after SIGTERM *)
  interrupt : option nat }.         (* a SIGINT/SIGTERM arrives at this checkpoint *)

(** ** The monad: state, exceptions and [sys.exit] *)

Inductive result (A : Type) :=
| Ret (a : A)
| Raise (e : exn).
Arguments Ret {A} a.
Arguments Raise {A} e.

Definition M (A : Type) := state -> result A * state.

Definition ret {A} (a : A) : M A := fun s => (Ret a, s).

Definition bind {A B} (m : M A) (k : A -> M B) : M B := fun s =>
  match m s with
  | (Ret a, s') => k a s'
  | (Raise e, s') => (Raise e, s')
  end.

Definition raise {A} (e : exn) : M A := fun s => (Raise e, s).

Declare Scope py_scope.
Delimit Scope py_scope with py.
Notation "x <- c1 ;; c2" := (bind c1 (fun x => c2))
  (at level 100, c1 at next level, right associativity) : py_scope.
Notation "c1 ;; c2" := (bind c1 (fun _ => c2))
  (at level 100, right associativity) : py_scope.
Local Open Scope py_scope.

(** [try: body except <catches> as e: handler e] *)
Definition try_except {A} (body : M A) (catches : exn -> bool)
    (handler : exn -> M A) : M A := fun s =>
  match body s with
  | (Raise e, s') => if catches e then handler e s' else (Raise e, s')
  | r => r
  end.

(** [try: body finally: fin]; an exception of [fin] replaces the outcome
    of [body]. *)
Definition try_finally {A} (body : M A) (fin : M unit) : M A := fun s =>
  match body s with
  | (r, s') =>
      match fin s' with
      | (Ret _, s'') => (r, s'')
      | (Raise e, s'') => (Raise e, s'')
      end
  end.

Definition gets {A} (f : state -> A) : M A := fun s => (Ret (f s), s).
Definition modify (f : state -> state) : M unit := fun s => (Ret tt, f s).

(** ** State updates *)

Definition log (e : event) (s : state) : state :=
  State (mcp_process s) (redis_process s) (environ s) (files s) (exited s)
        (pending s) (trace s ++ [e]).

Definition set_redis_process (p : option proc) (s : state) : state :=
  State (mcp_process s) p (environ s) (files s) (exited s) (pending s) (trace s).

Definition set_environ (m : gmap string string) (s : state) : state :=
  State (mcp_process s) (redis_process s) m (files s) (exited s) (pending s) (trace s).

Definition set_files (m : gmap string mcp_config) (s : state) : state :=
  State (mcp_process s) (redis_process s) (environ s) m (exited s) (pending s) (trace s).

Definition mark_exited (p : proc) (s : state) : state :=
  State (mcp_process s) (redis_process s) (environ s) (files s) (p :: exited s)
        (pending s) (trace s).

Definition set_pending (n : option nat) (s : state) : state :=
  State (mcp_process s) (redis_process s) (environ s) (files s) (exited s) n (trace s).

(** Several events, logged one after the other. *)
Definition logs (l : list event) (s : state) : state :=
  fold_left (fun s e => log e s) l s.

Definition has_exited (p : proc) (s : state) : bool :=
  existsb (Nat.eqb p) (exited s).

Definition emit (e : event) : M unit := modify (log e).
Definition print (line : string) : M unit := emit (EvPrint line).
Definition sys_exit {A} (code : Z) : M A := raise (SystemExit code).

(** Character constants that a string literal cannot hold here. *)
Definition nl : string := String (Ascii.ascii_of_nat 10) "".
Definition dq : string := String (Ascii.ascii_of_nat 34) "".

(** [sep.join(l)] *)
Fixpoint join (sep : string) (l : list string) : string :=
  match l with
  | [] => ""
  | [x] => x
  | x :: l' => x +:+ sep +:+ join sep l'
  end.

(** Python truthiness of an optional string: [None] and [""] are false. *)
Definition truthy (o : option string) : bool :=
  match o with
  | Some (String _ _) => true
  | _ => false
  end.

(** ** The script *)

Section Script.

Context (w : world).

(** *** Process handles: terminate(), wait(timeout), kill() *)

Definition proc_terminate (p : proc) : M unit := emit (EvTerminate p).

(** How [p.wait(timeout=t)] ends when no signal interrupts it: it returns
    when the child has exited, and raises [TimeoutExpired] otherwise. *)
Definition wait_result (p : proc) : M unit := fun s =>
  if has_exited p s || graceful w p
  then (Ret tt, mark_exited p s)
  else (Raise TimeoutExpired, s).

(** [p.wait(timeout=t)].  The call blocks for up to [t] seconds, so a
    signal can be delivered during it; [deliver] is that delivery point. *)
Definition proc_wait (deliver : M unit) (p : proc) (timeout : nat) : M unit :=
  emit (EvWait p timeout) ;;
  deliver ;;
  wait_result p.

Definition proc_kill (p : proc) : M unit :=
  emit (EvKill p) ;; modify (mark_exited p).

(** Lines 31-36 and 39-44: the treatment of one handle. *)
Definition stop_process (deliver : M unit) (msg : string) (p : proc) : M unit :=
  print msg ;;
  proc_terminate p ;;
  try_except (proc_wait deliver p 5) is_TimeoutExpired (fun _ => proc_kill p).

(** Lines 26-44, the body of [cleanup()], with the delivery point of its
    waits as a parameter.  A [Popen] object is always true, so
    [if mcp_process:] tests the handle against [None].  The first three
    lines are not in the source: they record in the trace that the body was
    entered, and with which values of the two globals. *)
Definition cleanup_body (deliver : M unit) : M unit :=
  mp0 <- gets mcp_process ;;
  rp0 <- gets redis_process ;;
  emit (EvCleanup mp0 rp0) ;;
  mp <- gets mcp_process ;;
  match mp with
  | Some p => stop_process deliver "Stopping MCP server..." p
  | None => ret tt
  end ;;
  rp <- gets redis_process ;;
  match rp with
  | Some p => stop_process deliver "Stopping Redis..." p
  | None => ret tt
  end.

(** One signal per session is modelled: while the handler runs, the one
    signal has been delivered and no other arrives. *)
Definition no_delivery : M unit := ret tt.

(** Lines 49-53; the call of [cleanup()] is one in which no further
    signal is delivered. *)
Definition signal_handler : M unit :=
  print (nl +:+ "Received interrupt signal, cleaning up...") ;;
  cleanup_body no_delivery ;;
  sys_exit 0.

(** A point of the execution at which a pending SIGINT or SIGTERM can be
    delivered: the handler runs there and its [SystemExit] surfaces in the
    interrupted statement.  The delivery points are the blocking calls
    ([subprocess.run], [time.sleep], [Popen.wait]) and three statement
    boundaries at which a delivery changes what the script leaves behind:
    after [Popen] has returned and before its result is stored, before the
    [try] statement of [main], and at the head of its [finally] clause. *)
Definition checkpoint : M unit := fun s =>
  match pending s with
  | None => (Ret tt, s)
  | Some O => signal_handler (log EvSignal (set_pending None s))
  | Some (S n) => (Ret tt, set_pending (Some n) s)
  end.

(** [cleanup()] as the exit hook calls it: a signal that has not arrived
    yet can be delivered during its waits. *)
Definition cleanup : M unit := cleanup_body checkpoint.

(** *** Blocking calls; a signal can arrive during each of them *)

(** [subprocess.run(cmd, capture_output=True, check=True)] *)
Definition subprocess_run (cmd : list string) (a : run_attempt) : M unit :=
  emit (EvRun cmd) ;;
  checkpoint ;;
  match a with
  | Ran RunOk => ret tt
  | Ran RunFailed => raise CalledProcessError
  | Ran RunNotFound => raise FileNotFoundError
  | RunDenied => raise OSError
  end.

Definition sleep (secs : nat) : M unit := emit (EvSleep secs) ;; checkpoint.

(** [subprocess.Popen(cmd, stdout=PIPE, stderr=PIPE)] for the service. *)
Definition popen (cmd : list string) : M proc :=
  match popen_redis w with
  | Some p => emit (EvPopen cmd p) ;; ret p
  | None => raise OSError
  end.

(** [subprocess.run(cmd, cwd=working_dir)] for the client: it waits for
    the child, and on any exception during the wait kills the child
    before the exception goes on. *)
Definition subprocess_run_client (cmd : list string) (cwd : option string) : M Z :=
  emit (EvLaunch cmd cwd) ;;
  match client w with
  | ClientSpawnError => emit (EvLaunchDone None) ;; raise FileNotFoundError
  | ClientExit rc =>
      try_except checkpoint (fun _ => true)
                 (fun e => emit (EvLaunchDone None) ;; raise e) ;;
      emit (EvLaunchDone (Some rc)) ;;
      ret rc
  end.

(** *** Environment *)

Definition getenv (k : string) : M (option string) :=
  gets (fun s => environ s !! k).

Definition getenv_default (k d : string) : M string :=
  gets (fun s => default d (environ s !! k)).

Definition setenv (k v : string) : M unit :=
  modify (fun s => set_environ (<[k := v]> (environ s)) s).

(** *** check_dependencies, lines 59-77 *)

Definition required : list (string * string) :=
  [ ("claude", "Claude Code CLI (npm install -g @anthropic-ai/claude-code)");
    ("redis-server", "Redis server (apt-get install redis-server or brew install redis)");
    ("python3", "Python 3.10+") ].

Fixpoint probe_required (l : list (string * string)) (missing : list string)
    : M (list string) :=
  match l with
  | [] => ret missing
  | (cmd, desc) :: l' =>
      ok <- try_except (subprocess_run [cmd; "--version"] (probe w cmd) ;; ret true)
                       is_probe_failure (fun _ => ret false) ;;
      probe_required l' (if ok then missing else missing ++ ["- " +:+ desc])
  end.

Definition check_dependencies : M unit :=
  missing <- probe_required required [] ;;
  match missing with
  | [] => ret tt
  | _ =>
      print "Missing dependencies:" ;;
      print (join nl missing) ;;
      sys_exit 1
  end.

(** *** setup_environment, lines 79-108 *)

Definition setup_environment : M (list (string * option string)) :=
  anthropic_key <- getenv "ANTHROPIC_API_KEY" ;;
  (if truthy anthropic_key then ret tt
   else
     print "ERROR: ANTHROPIC_API_KEY environment variable not set" ;;
     print "Please set: export ANTHROPIC_API_KEY=your-key-here" ;;
     sys_exit 1) ;;
  gemini_key <- getenv "GEMINI_API_KEY" ;;
  openai_key <- getenv "OPENAI_API_KEY" ;;
  openrouter_key <- getenv "OPENROUTER_API_KEY" ;;
  (if truthy gemini_key || truthy openai_key || truthy openrouter_key then ret tt
   else
     print "WARNING: No AI provider API keys found for Zen MCP" ;;
     print "Set at least one of: GEMINI_API_KEY, OPENAI_API_KEY, or OPENROUTER_API_KEY" ;;
     print "The MCP server will start but won't be able to use AI tools") ;;
  workspace_root <- getenv_default "WORKSPACE_ROOT" (home w) ;;
  setenv "WORKSPACE_ROOT" workspace_root ;;
  ret [ ("anthropic", anthropic_key); ("gemini", gemini_key);
        ("openai", openai_key); ("openrouter", openrouter_key);
        ("workspace", Some workspace_root) ].

(** *** start_redis, lines 110-138 *)

Definition start_redis : M unit :=
  running <- try_except
               (subprocess_run ["redis-cli"; "ping"] (Ran (ping1 w)) ;;
                print "Redis is already running" ;;
                ret true)
               is_probe_failure (fun _ => ret false) ;;
  if running : bool then ret tt
  else
    print "Starting Redis server..." ;;
    try_except
      (p <- popen ["redis-server"; "--port"; "6379"] ;;
       (* [Popen] has returned; the assignment of line 124 is still to come *)
       checkpoint ;;
       modify (set_redis_process (Some p)) ;;
       sleep 2 ;;
       subprocess_run ["redis-cli"; "ping"] (Ran (ping2 w)) ;;
       print "Redis started successfully")
      is_Exception
      (fun e =>
         print ("Failed to start Redis: " +:+ str_exn e) ;;
         print "Some features may not work properly without Redis").

(** *** install_dependencies, lines 140-151 *)

Definition install_dependencies : M unit :=
  print "Installing Python dependencies..." ;;
  let requirements_file := script_dir w +:+ "/requirements.txt" in
  if requirements_exists w
  then subprocess_run [sys_executable w; "-m"; "pip"; "install"; "-r"; requirements_file]
                      (Ran (pip_install w))
  else print "WARNING: requirements.txt not found, skipping dependency installation".

(** *** create_mcp_config, lines 153-175 *)

Definition create_mcp_config (zen_server_path : string) : M string :=
  gemini <- getenv_default "GEMINI_API_KEY" "" ;;
  openai <- getenv_default "OPENAI_API_KEY" "" ;;
  openrouter <- getenv_default "OPENROUTER_API_KEY" "" ;;
  workspace <- getenv_default "WORKSPACE_ROOT" "" ;;
  let config : mcp_config :=
    [ ("zen",
       ServerEntry (sys_executable w)
                   [zen_server_path +:+ "/server.py"]
                   [ ("GEMINI_API_KEY", gemini);
                     ("OPENAI_API_KEY", openai);
                     ("OPENROUTER_API_KEY", openrouter);
                     ("WORKSPACE_ROOT", workspace);
                     ("REDIS_HOST", "localhost");
                     ("REDIS_PORT", "6379") ]) ] in
  modify (fun s => set_files (<[tmp_name w := config]> (files s)) s) ;;
  emit (EvCreate (tmp_name w) config) ;;
  ret (tmp_name w).

(** *** run_claude_code, lines 177-194 *)

Definition allowed_tools : string :=
  "mcp__zen__chat,mcp__zen__thinkdeep,mcp__zen__codereview,mcp__zen__precommit,mcp__zen__debug,mcp__zen__analyze".

(** The argument vector built on lines 179-186. *)
Definition claude_cmd (prompt mcp_config_path : string)
    (working_dir : option string) : list string :=
  [ "claude"; "-p"; prompt;
    "--mcp-config"; mcp_config_path;
    "--allowedTools"; allowed_tools ]
  ++ (if truthy working_dir then ["--cwd"; default "" working_dir] else []).

Definition run_claude_code (prompt mcp_config_path : string)
    (working_dir : option string) : M Z :=
  let cmd := claude_cmd prompt mcp_config_path working_dir in
  print "Running Claude Code with command:" ;;
  print (join " " cmd) ;;
  print "" ;;
  subprocess_run_client cmd working_dir.

(** *** main, lines 196-250 *)

(** [if os.path.exists(p): os.unlink(p)] *)
Definition unlink_if_exists (path : string) : M unit := fun s =>
  match files s !! path with
  | Some _ => (Ret tt, log (EvUnlink path) (set_files (delete path (files s)) s))
  | None => (Ret tt, s)
  end.

(** Lines 245-248, the [finally] clause; a signal can be delivered at its
    head, before the file is looked at. *)
Definition remove_config (path : string) : M unit :=
  checkpoint ;;
  unlink_if_exists path.

Definition usage : M unit :=
  print "Usage: python run_claude_with_zen.py <prompt> [working_directory]" ;;
  print "" ;;
  print "Examples:" ;;
  print ("  python run_claude_with_zen.py " +:+ dq
         +:+ "Review this code with zen chat tool" +:+ dq) ;;
  print ("  python run_claude_with_zen.py " +:+ dq
         +:+ "Analyze main.py with zen analyze tool" +:+ dq +:+ " /path/to/project").

Definition banner : string :=
  nl +:+ "==================================================" +:+ nl.

(** Lines 234-243, the body of the [try]. *)
Definition main_try_body (prompt working_dir mcp_config_path : string) : M unit :=
  print (nl +:+ "Running Claude Code in: " +:+ working_dir) ;;
  print ("Prompt: " +:+ prompt) ;;
  print banner ;;
  exit_code <- run_claude_code prompt mcp_config_path (Some working_dir) ;;
  if (exit_code =? 0)%Z then ret tt
  else
    print (nl +:+ "Claude Code exited with code: " +:+ pretty exit_code) ;;
    sys_exit exit_code.

(** Lines 233-248, the [try ... finally] around the client launch. *)
Definition main_launch (prompt working_dir mcp_config_path : string) : M unit :=
  try_finally
    (main_try_body prompt working_dir mcp_config_path)
    (remove_config mcp_config_path).

(** Lines 212-231: everything between the argument check and the [try];
    it returns the path of the configuration file it created. *)
Definition main_setup : M string :=
  print "=== Claude Code with Zen MCP Server ===" ;;
  print "" ;;
  print "Checking dependencies..." ;;
  check_dependencies ;;
  print "Setting up environment..." ;;
  _ <- setup_environment ;;
  install_dependencies ;;
  start_redis ;;
  let zen_server_path := script_dir w in
  print "Creating MCP configuration..." ;;
  mcp_config_path <- create_mcp_config zen_server_path ;;
  (* the statement boundary between line 231 and the [try] of line 233 *)
  checkpoint ;;
  ret mcp_config_path.

Definition main : M unit :=
  match argv w with
  | _ :: prompt :: rest =>
      let working_dir := match rest with d :: _ => d | [] => getcwd w end in
      mcp_config_path <- main_setup ;;
      main_launch prompt working_dir mcp_config_path
  | _ => usage ;; sys_exit 1
  end.

(** *** One run of the interpreter *)

Definition init : state :=
  State None None (environ0 w) ∅ [] (interrupt w) [].

(** The script body, then the [atexit] hook of line 47, which runs on
    every way out of the interpreter.  The exit status is decided by the
    way the script body ended: an exception that leaves the exit hook does
    not change it. *)
Definition session : result unit * state :=
  match main init with
  | (r, s) => (r, snd (cleanup s))
  end.

End Script.

(** The exit code the interpreter ends with: 0 after a normal return, the
    argument of [sys.exit], 1 after an uncaught exception. *)
Definition exit_code {A} (r : result A) : Z :=
  match r with
  | Ret _ => 0
  | Raise (SystemExit c) => c
  | Raise _ => 1
  end.

(** The status the parent of the interpreter observes (one byte). *)
Definition process_status {A} (r : result A) : Z := Z.land (exit_code r) 255.

(** * Vocabulary of the specification and of the proofs *)

(** ** Reading the trace *)

(** Runs of the body of [cleanup], signals delivered, removals of a file. *)
Definition count_cleanup (tr : list event) : nat :=
  length (List.filter (fun e => match e with EvCleanup _ _ => true | _ => false end) tr).

Definition count_signal (tr : list event) : nat :=
  length (List.filter (fun e => match e with EvSignal => true | _ => false end) tr).

Definition count_unlink (path : string) (tr : list event) : nat :=
  length (List.filter (fun e => match e with
                           | EvUnlink p => String.eqb p path
                           | _ => false
                           end) tr).

(** Child processes the script creates for its own use: the service
    ([Popen]) and the client; the [--version] and [ping] probes and pip are
    [EvRun] events. *)
Definition is_spawn (e : event) : bool :=
  match e with
  | EvPopen _ _ | EvLaunch _ _ => true
  | _ => false
  end.

Definition is_version_probe (cmd : list string) : bool :=
  match cmd with
  | [c; flag] => existsb (String.eqb c) (map fst required) && String.eqb flag "--version"
  | _ => false
  end.

(** Events that can occur before the service is looked at: output, the
    version probes of [check_dependencies], and the teardown of a session
    that owns nothing. *)
Definition before_any_spawn (e : event) : bool :=
  match e with
  | EvPrint _ => true
  | EvRun cmd => is_version_probe cmd
  | EvCleanup None None => true
  | _ => false
  end.

(** Whether the client is running at the end of a trace. *)
Fixpoint client_running (running : bool) (tr : list event) : bool :=
  match tr with
  | [] => running
  | EvLaunch _ _ :: tr' => client_running true tr'
  | EvLaunchDone _ :: tr' => client_running false tr'
  | _ :: tr' => client_running running tr'
  end.

(** The service endpoint a configuration file hands to the zen server. *)
Definition assoc (k : string) (l : list (string * string)) : option string :=
  snd <$> List.find (fun kv => String.eqb (fst kv) k) l.

Definition config_endpoint (c : mcp_config) : option (string * string) :=
  match List.find (fun kv => String.eqb (fst kv) "zen") c with
  | Some (_, entry) =>
      match assoc "REDIS_HOST" (env entry), assoc "REDIS_PORT" (env entry) with
      | Some h, Some p => Some (h, p)
      | _, _ => None
      end
  | None => None
  end.

(** The allow-list argument of a client command line: the argument that
    follows the [--allowedTools] flag at its place in the vector. *)
Definition allow_list_of (cmd : list string) : option string :=
  match cmd !! 5%nat with
  | Some "--allowedTools" => cmd !! 6%nat
  | _ => None
  end.

(** ** The functions of the script in closed form *)

(** The exception a failed probe raises. *)
Definition run_outcome (r : run_result) : result unit :=
  match r with
  | RunOk => Ret tt
  | RunFailed => Raise CalledProcessError
  | RunNotFound => Raise FileNotFoundError
  end.

(** The way [subprocess.run] ends for an attempt. *)
Definition attempt_outcome (a : run_attempt) : result unit :=
  match a with
  | Ran r => run_outcome r
  | RunDenied => Raise OSError
  end.

(** Whether an executable answers its [--version] probe. *)
Definition probe_ok (w : world) (cmd : string) : bool :=
  match probe w cmd with Ran RunOk => true | _ => false end.

(** The probes [check_dependencies] runs. *)
Definition version_probes (l : list (string * string)) : list event :=
  map (fun cd => EvRun [fst cd; "--version"]) l.

(** The loop of [check_dependencies] when no signal arrives: the list it
    collects and the probes it runs; a probe that cannot be executed ends
    the loop with its exception. *)
Fixpoint probe_run (w : world) (l : list (string * string)) (missing : list string)
    : result (list string) * list event :=
  match l with
  | [] => (Ret missing, [])
  | (cmd, desc) :: l' =>
      match probe w cmd with
      | RunDenied => (Raise OSError, [EvRun [cmd; "--version"]])
      | Ran r =>
          let rest := probe_run w l' (match r with
                                      | RunOk => missing
                                      | _ => missing ++ ["- " +:+ desc]
                                      end) in
          (fst rest, EvRun [cmd; "--version"] :: snd rest)
      end
  end.

(** The warning of [setup_environment] about the optional keys. *)
Definition optional_keys_warning (m : gmap string string) : list event :=
  if truthy (m !! "GEMINI_API_KEY") || truthy (m !! "OPENAI_API_KEY")
     || truthy (m !! "OPENROUTER_API_KEY")
  then []
  else [ EvPrint "WARNING: No AI provider API keys found for Zen MCP";
         EvPrint "Set at least one of: GEMINI_API_KEY, OPENAI_API_KEY, or OPENROUTER_API_KEY";
         EvPrint "The MCP server will start but won't be able to use AI tools" ].

(** The command line of [install_dependencies]. *)
Definition pip_cmd (w : world) : list string :=
  [sys_executable w; "-m"; "pip"; "install"; "-r"; script_dir w +:+ "/requirements.txt"].

(** What [install_dependencies] does. *)
Definition install_events (w : world) : list event :=
  EvPrint "Installing Python dependencies..."
  :: (if requirements_exists w
      then [EvRun (pip_cmd w)]
      else [EvPrint "WARNING: requirements.txt not found, skipping dependency installation"]).

(** The exception behind the message of a failed service start. *)
Definition exn_of (r : run_result) : exn :=
  match r with RunNotFound => FileNotFoundError | _ => CalledProcessError end.

(** The last line of the [except] clause of [start_redis]. *)
Definition degraded_warning : string :=
  "Some features may not work properly without Redis".

(** The two command lines of [start_redis]. *)
Definition redis_server_cmd : list string := ["redis-server"; "--port"; "6379"].
Definition redis_ping_cmd : list string := ["redis-cli"; "ping"].

(** Whether [p.wait(timeout=5)] raises [TimeoutExpired] in state [s]. *)
Definition wait_times_out (w : world) (p : proc) (s : state) : bool :=
  negb (has_exited p s || graceful w p).

(** What teardown does to one handle: SIGTERM, a wait of at most 5
    seconds, and SIGKILL when the wait ran out. *)
Definition graceful_then_forced (p : proc) (timed_out : bool) : list event :=
  [EvTerminate p; EvWait p 5] ++ (if timed_out then [EvKill p] else []).

(** Lines 30-36 and 38-44 for a handle that may be [None]. *)
Definition stop_handle (w : world) (deliver : M unit) (msg : string) (h : option proc)
    : M unit :=
  match h with
  | Some p => stop_process w deliver msg p
  | None => ret tt
  end.

(** Teardown of a session that never owned the MCP server, when no
    signal is delivered during it. *)
Definition redis_teardown (w : world) (s : state) : list event :=
  EvCleanup None (redis_process s)
  :: match redis_process s with
     | Some p => EvPrint "Stopping Redis..."
                 :: graceful_then_forced p (wait_times_out w p s)
     | None => []
     end.

(** ** A Hoare logic for the monad

    [hoare P m Q]: from a state in [P], [m] ends (by returning or by
    raising) in a state and with an outcome related by [Q].  [keeps I m]
    is the special case of an invariant that holds on every way out. *)

Definition hoare {A} (P : state -> Prop) (m : M A)
    (Q : result A -> state -> Prop) : Prop :=
  forall s, P s -> Q (fst (m s)) (snd (m s)).

Definition keeps {A} (I : state -> Prop) (m : M A) : Prop :=
  hoare I m (fun _ s => I s).

(** ** The session invariant

    [ok] is a property every event of the trace has; the rest ties the
    process handles to the one process the script can spawn and counts the
    runs of the teardown body against the signals delivered. *)

(** Events that are neither a signal nor a run of the teardown body. *)
Definition plain (e : event) : Prop :=
  match e with
  | EvSignal | EvCleanup _ _ => False
  | _ => True
  end.

(** A handle is the process the service was spawned as, or [None]. *)
Definition owned_by (w : world) (h : option proc) : Prop :=
  forall p, h = Some p -> popen_redis w = Some p.

(** [Inv w ok d]: the MCP handle is unset, the service handle is owned,
    every event is [ok], the teardown body has run [d] times more often
    than signals were delivered, and without an interruption in the world
    none is pending or delivered. *)
Record Inv (w : world) (ok : event -> Prop) (d : Z) (s : state) : Prop := {
  inv_mcp : mcp_process s = None;
  inv_redis : owned_by w (redis_process s);
  inv_trace : Forall ok (trace s);
  inv_balance :
    Z.of_nat (count_cleanup (trace s)) = (Z.of_nat (count_signal (trace s)) + d)%Z;
  inv_quiet : interrupt w = None -> pending s = None /\ count_signal (trace s) = 0 }.

(** What [start_redis] does when no signal arrives. *)
Definition start_redis_events (w : world) : list event :=
  match ping1 w with
  | RunOk => [EvRun redis_ping_cmd; EvPrint "Redis is already running"]
  | _ =>
      EvRun redis_ping_cmd :: EvPrint "Starting Redis server..."
      :: match popen_redis w with
         | None => [ EvPrint ("Failed to start Redis: " +:+ str_exn OSError);
                     EvPrint degraded_warning ]
         | Some p =>
             EvPopen redis_server_cmd p :: EvSleep 2 :: EvRun redis_ping_cmd
             :: match ping2 w with
                | RunOk => [EvPrint "Redis started successfully"]
                | r => [ EvPrint ("Failed to start Redis: " +:+ str_exn (exn_of r));
                         EvPrint degraded_warning ]
                end
         end
  end.

(** The handle [start_redis] leaves in [redis_process]. *)
Definition start_redis_handle (w : world) (h : option proc) : option proc :=
  match ping1 w with
  | RunOk => h
  | _ => match popen_redis w with Some p => Some p | None => h end
  end.

(** The configuration [create_mcp_config] writes in state [s]. *)
Definition config_of (w : world) (zen_server_path : string) (s : state) : mcp_config :=
  [ ("zen",
     ServerEntry (sys_executable w)
                 [zen_server_path +:+ "/server.py"]
                 [ ("GEMINI_API_KEY", default "" (environ s !! "GEMINI_API_KEY"));
                   ("OPENAI_API_KEY", default "" (environ s !! "OPENAI_API_KEY"));
                   ("OPENROUTER_API_KEY", default "" (environ s !! "OPENROUTER_API_KEY"));
                   ("WORKSPACE_ROOT", default "" (environ s !! "WORKSPACE_ROOT"));
                   ("REDIS_HOST", "localhost");
                   ("REDIS_PORT", "6379") ]) ].

(** The events of [main_setup] up to the service, when nothing fails. *)
Definition setup_prefix (w : world) (m : gmap string string) : list event :=
  [ EvPrint "=== Claude Code with Zen MCP Server ==="; EvPrint "";
    EvPrint "Checking dependencies..." ]
  ++ version_probes required
  ++ [EvPrint "Setting up environment..."]
  ++ optional_keys_warning m
  ++ install_events w.

(** Nothing is missing for [check_dependencies]. *)
Definition dependencies_present (w : world) : Prop :=
  probe_run w required [] = (Ret [], version_probes required).

(** [ANTHROPIC_API_KEY] is set and not empty. *)
Definition credential_present (m : gmap string string) : Prop :=
  truthy (m !! "ANTHROPIC_API_KEY") = true.

(** pip, when it is run, exits with status 0. *)
Definition install_succeeds (w : world) : Prop :=
  requirements_exists w = true -> pip_install w = RunOk.

(** What an interruption adds to the trace: the delivery, the message of
    the handler and one run of the teardown body. *)
Definition interrupted_events (w : world) (s : state) : list event :=
  EvSignal
  :: EvPrint (nl +:+ "Received interrupt signal, cleaning up...")
  :: redis_teardown w s.

(** The output of the [try] body up to and with the launch. *)
Definition launch_prints (prompt working_dir path : string) : list event :=
  [ EvPrint (nl +:+ "Running Claude Code in: " +:+ working_dir);
    EvPrint ("Prompt: " +:+ prompt);
    EvPrint banner;
    EvPrint "Running Claude Code with command:";
    EvPrint (join " " (claude_cmd prompt path (Some working_dir)));
    EvPrint "";
    EvLaunch (claude_cmd prompt path (Some working_dir)) (Some working_dir) ].

(** The way out of the [try] body when no signal arrives. *)
Definition launch_outcome (w : world) : result unit :=
  match client w with
  | ClientExit rc => if (rc =? 0)%Z then Ret tt else Raise (SystemExit rc)
  | ClientSpawnError => Raise FileNotFoundError
  end.

(** The events after the launch when no signal arrives. *)
Definition launch_end (w : world) : list event :=
  match client w with
  | ClientExit rc =>
      EvLaunchDone (Some rc)
      :: (if (rc =? 0)%Z then []
          else [EvPrint (nl +:+ "Claude Code exited with code: " +:+ pretty rc)])
  | ClientSpawnError => [EvLaunchDone None]
  end.

(** The state after [os.unlink(path)]. *)
Definition unlinked (path : string) (s : state) : state :=
  log (EvUnlink path) (set_files (delete path (files s)) s).

(** ** Sample worlds *)

(** A world with the arguments ["Review this code"] and [/proj], all three
    executables present, no requirements file, and the remaining answers
    given. *)
Definition sample_world (env0 : gmap string string) (ping_first : run_result)
    (spawned : option proc) (ping_second : run_result) (cl : client_result)
    (grace : bool) (sig : option nat) : world :=
  World ["run_claude_with_zen.py"; "Review this code"; "/proj"]
        "/home/user/work" "/home/user" env0 "/opt/zen" "/usr/bin/python3"
        (fun _ => Ran RunOk) false RunOk
        ping_first spawned ping_second
        "/tmp/tmpk3x9.json" cl (fun _ => grace) sig.

(** An environment with the mandatory credential only. *)
Definition env_with_key : gmap string string :=
  <["ANTHROPIC_API_KEY" := "sk-test"]> ∅.

(** Service already live, client returns 3. *)
Definition world_live : world :=
  sample_world env_with_key RunOk None RunOk (ClientExit 3) true None.

(** No service; it is spawned as process 42 and answers; client returns 0. *)
Definition world_spawn : world :=
  sample_world env_with_key RunFailed (Some 42) RunOk (ClientExit 0) true None.

(** The delivery points of such a session, in order: the three version
    probes (0, 1, 2), the first ping (3), the return of [Popen] (4), the
    wait of two seconds (5), the second ping (6), the boundary before the
    [try] statement (7), the wait for the client (8), the head of the
    [finally] clause (9) and the wait of the exit hook (10). *)



(** The same, with a signal at the head of the [finally] clause. *)
Definition world_signal_in_finally : world :=
  sample_world env_with_key RunFailed (Some 42) RunOk (ClientExit 0) true (Some 9).

(** A client that returns 3, and a signal during the wait of the exit
    hook. *)
Definition world_signal_in_exit_hook : world :=
  sample_world env_with_key RunFailed (Some 42) RunOk (ClientExit 3) true (Some 10).

(** A signal when [Popen] has just returned. *)
Definition world_signal_after_popen : world :=
  sample_world env_with_key RunFailed (Some 42) RunOk (ClientExit 0) true (Some 4).

(** The service cannot be started. *)
Definition world_no_service : world :=
  sample_world env_with_key RunNotFound (Some 42) RunFailed (ClientExit 0) false None.

(** The mandatory credential is not set. *)
Definition world_no_key : world :=
  sample_world ∅ RunOk None RunOk (ClientExit 0) true None.

(** The environment names another endpoint. *)
Definition env_other_endpoint : gmap string string :=
  <["REDIS_HOST" := "10.0.0.5"]> (<["REDIS_PORT" := "6380"]> env_with_key).

(** Such a world; the service is not running and gets spawned. *)
Definition world_other_endpoint : world :=
  sample_world env_other_endpoint RunFailed (Some 42) RunOk (ClientExit 0) true None.

(** ** Statements about whole sessions *)

(** What every event of every session satisfies. *)
Definition session_ok (w : world) (e : event) : Prop :=
  match e with
  | EvPopen cmd p => cmd = redis_server_cmd /\ popen_redis w = Some p
  | EvTerminate p | EvKill p => popen_redis w = Some p
  | EvWait p t => popen_redis w = Some p /\ t = 5
  | EvCleanup m r => m = None /\ owned_by w r
  | EvCreate path c =>
      path = tmp_name w /\ config_endpoint c = Some ("localhost", "6379")
  | EvLaunch cmd _ => allow_list_of cmd = Some allowed_tools
  | EvRun cmd =>
      (exists c, cmd = [c; "--version"]) \/ cmd = pip_cmd w \/ cmd = redis_ping_cmd
  | _ => True
  end.

(** The claim of C5, for the variables [REDIS_HOST] and [REDIS_PORT]: the
    endpoint named by the environment is the one the service is spawned on
    and the one written to the configuration file. *)
Definition endpoint_follows_environment (w : world) : Prop :=
  forall host port,
    environ0 w !! "REDIS_HOST" = Some host ->
    environ0 w !! "REDIS_PORT" = Some port ->
    (forall cmd p, In (EvPopen cmd p) (trace (snd (session w))) ->
       cmd = ["redis-server"; "--port"; port])
    /\ (forall path c, In (EvCreate path c) (trace (snd (session w))) ->
          config_endpoint c = Some (host, port)).

(** Every required executable answers its [--version] probe. *)
Definition all_dependencies_answer (w : world) : Prop :=
  forall cmd, In cmd (map fst required) -> probe w cmd = Ran RunOk.

(** The second half of the claim of C8: the teardown routine never
    raises an exception to its caller. *)
Definition cleanup_never_raises (w : world) : Prop :=
  forall s, exists s', cleanup w s = (Ret tt, s').


(** ** Further vocabulary: reports, footprint, custody of the service *)

(** The lines [check_dependencies] reports: one for each executable of the
    list that does not answer, in the order of the list. *)
Definition missing_lines (w : world) (l : list (string * string)) : list string :=
  map (fun cd => "- " +:+ snd cd)
      (List.filter (fun cd => negb (probe_ok w (fst cd))) l).

(** The executables of the list up to and with the first one that cannot
    be executed; the whole list when there is none. *)
Fixpoint probed (w : world) (l : list (string * string)) : list (string * string) :=
  match l with
  | [] => []
  | cd :: l' =>
      cd :: match probe w (fst cd) with
            | RunDenied => []
            | Ran _ => probed w l'
            end
  end.

(** Whether one of them cannot be executed. *)
Definition some_denied (w : world) (l : list (string * string)) : bool :=
  existsb (fun cd => match probe w (fst cd) with RunDenied => true | Ran _ => false end) l.

(** The workspace root [setup_environment] settles on. *)
Definition resolved_workspace (w : world) (m : gmap string string) : string :=
  default (home w) (m !! "WORKSPACE_ROOT").

(** The configuration a session writes when it starts in environment [m]. *)
Definition config_from_environment (w : world) (m : gmap string string) : mcp_config :=
  [ ("zen",
     ServerEntry (sys_executable w)
                 [script_dir w +:+ "/server.py"]
                 [ ("GEMINI_API_KEY", default "" (m !! "GEMINI_API_KEY"));
                   ("OPENAI_API_KEY", default "" (m !! "OPENAI_API_KEY"));
                   ("OPENROUTER_API_KEY", default "" (m !! "OPENROUTER_API_KEY"));
                   ("WORKSPACE_ROOT", resolved_workspace w m);
                   ("REDIS_HOST", "localhost");
                   ("REDIS_PORT", "6379") ]) ].

(** The working directory [main] settles on, line 207. *)
Definition working_dir_of (w : world) : string :=
  match argv w with
  | _ :: _ :: d :: _ => d
  | _ => getcwd w
  end.

(** The service a session without a signal has spawned when it ends. *)
Definition spawned_service (w : world) : option proc := start_redis_handle w None.

(** The run of the teardown body at the exit of such a session. *)
Definition exit_teardown (w : world) : list event :=
  EvCleanup None (spawned_service w)
  :: match spawned_service w with
     | Some p => EvPrint "Stopping Redis..."
                 :: graceful_then_forced p (negb (graceful w p))
     | None => []
     end.

(** The trace of a session without a signal whose setup succeeds. *)
Definition quiet_trace (w : world) (prompt : string) : list event :=
  setup_prefix w (environ0 w) ++ start_redis_events w
  ++ [ EvPrint "Creating MCP configuration...";
       EvCreate (tmp_name w) (config_from_environment w (environ0 w)) ]
  ++ launch_prints prompt (working_dir_of w) (tmp_name w)
  ++ launch_end w ++ [EvUnlink (tmp_name w)]
  ++ exit_teardown w.

(** The spawn of the service in a session without a signal, and the
    signals its teardown sends. *)
Definition service_spawn (w : world) : list event :=
  match spawned_service w with
  | Some p => [EvPopen redis_server_cmd p]
  | None => []
  end.

Definition service_stop (w : world) : list event :=
  match spawned_service w with
  | Some p => graceful_then_forced p (negb (graceful w p))
  | None => []
  end.

(** The events of [quiet_trace] that are not output, probes, waits or
    bookkeeping. *)
Definition quiet_skeleton (w : world) (prompt : string) : list event :=
  service_spawn w
  ++ [ EvCreate (tmp_name w) (config_from_environment w (environ0 w));
       EvLaunch (claude_cmd prompt (tmp_name w) (Some (working_dir_of w)))
                (Some (working_dir_of w)) ]
  ++ service_stop w.

(** An event class that holds none of the events left out of the
    skeleton. *)
Definition skips_noise (f : event -> bool) : Prop :=
  forall e,
    match e with
    | EvPrint _ | EvRun _ | EvSleep _ | EvLaunchDone _ | EvUnlink _ | EvCleanup _ _ =>
        f e = false
    | _ => True
    end.

Definition is_create (e : event) : bool :=
  match e with EvCreate _ _ => true | _ => false end.

(** The process an event signals or waits for. *)
Definition signalled (e : event) : option proc :=
  match e with
  | EvTerminate p | EvKill p | EvWait p _ => Some p
  | _ => None
  end.

(** Events that neither spawn the service nor touch a process. *)
Definition harmless (e : event) : Prop :=
  match e with
  | EvPopen _ _ | EvTerminate _ | EvKill _ | EvWait _ _ => False
  | _ => True
  end.

Definition spawned_in (p : proc) (tr : list event) : Prop :=
  In (EvPopen redis_server_cmd p) tr.

(** Every process a trace signals was spawned earlier in that trace. *)
Definition spawn_first (tr : list event) : Prop :=
  forall pre e post p,
    tr = pre ++ e :: post -> signalled e = Some p -> spawned_in p pre.

(** [Custody w s]: the service handle and the trace agree (a process in
    [redis_process] has its [Popen] in the trace, which happens only after
    a failed liveness probe; a process with a [Popen] in the trace is in
    [redis_process] unless a signal was delivered right after that
    [Popen]), processes are signalled only after they were spawned, and
    of the environment and the files only [WORKSPACE_ROOT] and the
    temporary file differ from the start. *)
Record Custody (w : world) (s : state) : Prop := {
  cust_mcp : mcp_process s = None;
  cust_spawned :
    forall cmd p, In (EvPopen cmd p) (trace s) ->
      cmd = redis_server_cmd /\ popen_redis w = Some p /\ ping1 w <> RunOk
      /\ (redis_process s = Some p
          \/ exists pre post, trace s = pre ++ EvPopen cmd p :: EvSignal :: post);
  cust_owned : forall p, redis_process s = Some p -> spawned_in p (trace s);
  cust_first : spawn_first (trace s);
  cust_environ :
    forall k, k <> "WORKSPACE_ROOT" -> environ s !! k = environ0 w !! k;
  cust_files : forall path, path <> tmp_name w -> files s !! path = None }.

(** ** Outcomes

    [calm s]: no signal has been delivered so far.  [outcome_ok w good r s]
    is what holds of every way [r] out of a function of the script that
    was entered in a calm state: a normal return happens in a calm state
    (with a value in [good]); once a signal has been delivered the outcome
    is the [SystemExit(0)] of the handler; and a [SystemExit] carries 0, 1
    or the return code of the client. *)
Definition calm (s : state) : Prop := count_signal (trace s) = 0.

Definition exit_code_allowed (w : world) (c : Z) : Prop :=
  c = 0%Z \/ c = 1%Z \/ client w = ClientExit c.

Definition outcome_ok (w : world) {A} (good : A -> Prop) (r : result A) (s : state)
    : Prop :=
  match r with
  | Ret a => calm s /\ good a
  | Raise e =>
      (calm s \/ e = SystemExit 0)
      /\ forall c, e = SystemExit c -> exit_code_allowed w c
  end.

Definition safe (w : world) {A} (good : A -> Prop) (m : M A) : Prop :=
  hoare calm m (outcome_ok w good).

Definition anything {A} (a : A) : Prop := True.

(** ** More sample worlds *)

(** No prompt on the command line. *)
Definition world_no_prompt : world :=
  World ["run_claude_with_zen.py"]
        "/home/user/work" "/home/user" env_with_key "/opt/zen" "/usr/bin/python3"
        (fun _ => Ran RunOk) false RunOk RunOk None RunOk
        "/tmp/tmpk3x9.json" (ClientExit 0) (fun _ => true) None.

(** A prompt and no directory; [redis-server] is not installed. *)
Definition world_no_redis_server : world :=
  World ["run_claude_with_zen.py"; "Review this code"]
        "/home/user/work" "/home/user" env_with_key "/opt/zen" "/usr/bin/python3"
        (fun cmd => if String.eqb cmd "redis-server" then Ran RunNotFound else Ran RunOk)
        false RunOk RunOk None RunOk
        "/tmp/tmpk3x9.json" (ClientExit 0) (fun _ => true) None.

(** The same arguments; [claude] is on the path and cannot be executed,
    and [redis-server] is not installed. *)
Definition world_claude_denied : world :=
  World ["run_claude_with_zen.py"; "Review this code"]
        "/home/user/work" "/home/user" env_with_key "/opt/zen" "/usr/bin/python3"
        (fun cmd => if String.eqb cmd "claude" then RunDenied
                    else if String.eqb cmd "redis-server" then Ran RunNotFound
                    else Ran RunOk)
        false RunOk RunOk None RunOk
        "/tmp/tmpk3x9.json" (ClientExit 0) (fun _ => true) None.

(** A requirements file that pip fails to install. *)
Definition world_pip_fails : world :=
  World ["run_claude_with_zen.py"; "Review this code"; "/proj"]
        "/home/user/work" "/home/user" env_with_key "/opt/zen" "/usr/bin/python3"
        (fun _ => Ran RunOk) true RunFailed RunFailed (Some 42) RunOk
        "/tmp/tmpk3x9.json" (ClientExit 0) (fun _ => true) None.

(** The client cannot be started; the service is spawned, and only the
    prompt is given. *)
Definition world_client_missing : world :=
  World ["run_claude_with_zen.py"; "Review this code"]
        "/home/user/work" "/home/user" env_with_key "/opt/zen" "/usr/bin/python3"
        (fun _ => Ran RunOk) false RunOk RunFailed (Some 42) RunOk
        "/tmp/tmpk3x9.json" ClientSpawnError (fun _ => true) None.

(** A signal during the wait of two seconds of [start_redis]; the client
    would return 3. *)
Definition world_signal_in_start : world :=
  sample_world env_with_key RunFailed (Some 42) RunOk (ClientExit 3) false (Some 5).

(** * Lemmas and theorems *)

(** ** Basic facts about the state updates *)

Lemma trace_logs (l : list event) (s : state) : trace (logs l s) = trace s ++ l.
Proof.
  revert s; induction l as [|e l IH]; intros s; simpl.
  - by rewrite app_nil_r.
  - rewrite IH. simpl. by rewrite <- app_assoc.
Qed.

Lemma pending_logs l s : pending (logs l s) = pending s.
Proof. revert s; induction l as [|e l IH]; intros s; simpl; [done|by rewrite IH]. Qed.

Lemma redis_process_logs l s : redis_process (logs l s) = redis_process s.
Proof. revert s; induction l as [|e l IH]; intros s; simpl; [done|by rewrite IH]. Qed.

Lemma mcp_process_logs l s : mcp_process (logs l s) = mcp_process s.
Proof. revert s; induction l as [|e l IH]; intros s; simpl; [done|by rewrite IH]. Qed.

Lemma files_logs l s : files (logs l s) = files s.
Proof. revert s; induction l as [|e l IH]; intros s; simpl; [done|by rewrite IH]. Qed.

Lemma environ_logs l s : environ (logs l s) = environ s.
Proof. revert s; induction l as [|e l IH]; intros s; simpl; [done|by rewrite IH]. Qed.

Lemma logs_app l1 l2 s : logs (l1 ++ l2) s = logs l2 (logs l1 s).
Proof. unfold logs. by rewrite fold_left_app. Qed.

Lemma count_cleanup_app l1 l2 :
  count_cleanup (l1 ++ l2) = count_cleanup l1 + count_cleanup l2.
Proof. unfold count_cleanup. by rewrite List.filter_app, length_app. Qed.

Lemma count_signal_app l1 l2 :
  count_signal (l1 ++ l2) = count_signal l1 + count_signal l2.
Proof. unfold count_signal. by rewrite List.filter_app, length_app. Qed.

Lemma count_unlink_app p l1 l2 :
  count_unlink p (l1 ++ l2) = count_unlink p l1 + count_unlink p l2.
Proof. unfold count_unlink. by rewrite List.filter_app, length_app. Qed.

Lemma client_running_app b l1 l2 :
  client_running b (l1 ++ l2) = client_running (client_running b l1) l2.
Proof.
  revert b; induction l1 as [|e l1 IH]; intros b; [done|].
  destruct e; simpl; apply IH.
Qed.

(** ** Runs in which no signal is pending

    With [pending s = None] every checkpoint is a no-op and each function of
    the script is a function of the world and the state; the lemmas of this
    section give them in closed form. *)

Section Quiet.

Context (w : world).

Lemma checkpoint_quiet s : pending s = None -> checkpoint w s = (Ret tt, s).
Proof. unfold checkpoint. by intros ->. Qed.

Lemma subprocess_run_quiet cmd a s :
  pending s = None ->
  subprocess_run w cmd a s = (attempt_outcome a, log (EvRun cmd) s).
Proof.
  intros Hp. unfold subprocess_run, bind, emit, modify.
  rewrite checkpoint_quiet by done. by destruct a as [[]|].
Qed.

Lemma sleep_quiet n s :
  pending s = None -> sleep w n s = (Ret tt, log (EvSleep n) s).
Proof.
  intros Hp. unfold sleep, bind, emit, modify. by rewrite checkpoint_quiet.
Qed.

Lemma probe_required_quiet l missing s :
  pending s = None ->
  probe_required w l missing s
  = (fst (probe_run w l missing), logs (snd (probe_run w l missing)) s).
Proof.
  revert missing s. induction l as [|[cmd desc] l IH]; intros missing s Hp; [done|].
  cbn [probe_required probe_run].
  unfold bind at 1. unfold try_except, bind at 1.
  rewrite subprocess_run_quiet by done.
  destruct (probe w cmd) as [[]|];
    cbn [attempt_outcome run_outcome is_probe_failure ret fst snd logs fold_left];
    try (rewrite IH by done); reflexivity.
Qed.

Lemma check_dependencies_quiet s :
  pending s = None ->
  check_dependencies w s
  = match fst (probe_run w required []) with
    | Ret [] => (Ret tt, logs (snd (probe_run w required [])) s)
    | Ret m => (Raise (SystemExit 1),
                logs [EvPrint "Missing dependencies:"; EvPrint (join nl m)]
                     (logs (snd (probe_run w required [])) s))
    | Raise e => (Raise e, logs (snd (probe_run w required [])) s)
    end.
Proof.
  intros Hp. unfold check_dependencies, bind at 1.
  rewrite probe_required_quiet by done.
  by destruct (fst (probe_run w required [])) as [[|m0 m]|e].
Qed.

Lemma check_dependencies_present s :
  pending s = None ->
  dependencies_present w ->
  check_dependencies w s = (Ret tt, logs (version_probes required) s).
Proof.
  intros Hp Hd. rewrite check_dependencies_quiet by done. by rewrite Hd.
Qed.

Lemma setup_environment_missing_key s :
  truthy (environ s !! "ANTHROPIC_API_KEY") = false ->
  setup_environment w s
  = (Raise (SystemExit 1),
     logs [ EvPrint "ERROR: ANTHROPIC_API_KEY environment variable not set";
            EvPrint "Please set: export ANTHROPIC_API_KEY=your-key-here" ] s).
Proof.
  intros Hk. unfold setup_environment, bind at 1. unfold getenv, gets.
  unfold bind at 1. by rewrite Hk.
Qed.

Lemma setup_environment_ok s :
  truthy (environ s !! "ANTHROPIC_API_KEY") = true ->
  exists bundle,
    setup_environment w s
    = (Ret bundle,
       set_environ (<["WORKSPACE_ROOT" := default (home w) (environ s !! "WORKSPACE_ROOT")]>
                      (environ s))
                   (logs (optional_keys_warning (environ s)) s)).
Proof.
  intros Hk. eexists. unfold setup_environment, bind at 1. unfold getenv, gets.
  unfold bind at 1. rewrite Hk. cbn [ret]. unfold bind at 1, bind at 1, bind at 1.
  unfold bind at 1. unfold optional_keys_warning.
  destruct (truthy (environ s !! "GEMINI_API_KEY") || truthy (environ s !! "OPENAI_API_KEY")
            || truthy (environ s !! "OPENROUTER_API_KEY")); reflexivity.
Qed.

Lemma install_dependencies_quiet s :
  pending s = None ->
  install_dependencies w s
  = ((if requirements_exists w then run_outcome (pip_install w) else Ret tt),
     logs (install_events w) s).
Proof.
  intros Hp. unfold install_dependencies, install_events, bind, print, emit, modify.
  destruct (requirements_exists w); [|done].
  by rewrite subprocess_run_quiet.
Qed.

Lemma start_redis_quiet s :
  pending s = None ->
  start_redis w s =
    match ping1 w with
    | RunOk =>
        (Ret tt, logs [EvRun redis_ping_cmd; EvPrint "Redis is already running"] s)
    | _ =>
        match popen_redis w with
        | None =>
            (Ret tt,
             logs [ EvRun redis_ping_cmd; EvPrint "Starting Redis server...";
                    EvPrint ("Failed to start Redis: " +:+ str_exn OSError);
                    EvPrint degraded_warning ] s)
        | Some p =>
            match ping2 w with
            | RunOk =>
                (Ret tt,
                 logs [ EvPopen redis_server_cmd p; EvSleep 2; EvRun redis_ping_cmd;
                        EvPrint "Redis started successfully" ]
                      (set_redis_process (Some p)
                         (logs [EvRun redis_ping_cmd; EvPrint "Starting Redis server..."] s)))
            | r =>
                (Ret tt,
                 logs [ EvPopen redis_server_cmd p; EvSleep 2; EvRun redis_ping_cmd;
                        EvPrint ("Failed to start Redis: " +:+ str_exn (exn_of r));
                        EvPrint degraded_warning ]
                      (set_redis_process (Some p)
                         (logs [EvRun redis_ping_cmd; EvPrint "Starting Redis server..."] s)))
            end
        end
    end.
Proof.
  destruct s as [m r e f x pd t]; simpl; intros ->.
  unfold start_redis, popen.
  destruct (ping1 w), (popen_redis w), (ping2 w); reflexivity.
Qed.

End Quiet.

(** ** The teardown routine in closed form

    First the body of [cleanup] when no signal is delivered during it, as
    in the signal handler; then [cleanup] as the exit hook runs it. *)

Section Teardown.

Context (w : world).

Lemma stop_process_eq msg p s :
  stop_process w no_delivery msg p s
  = (Ret tt,
     mark_exited p
       (logs (EvPrint msg :: graceful_then_forced p (wait_times_out w p s)) s)).
Proof.
  unfold stop_process, wait_times_out, graceful_then_forced.
  unfold proc_wait, proc_kill, print, proc_terminate, no_delivery, wait_result.
  unfold try_except, bind, emit, modify, ret.
  change (has_exited p (log (EvWait p 5) (log (EvTerminate p) (log (EvPrint msg) s))))
    with (has_exited p s).
  destruct (has_exited p s || graceful w p); reflexivity.
Qed.

Lemma cleanup_eq s :
  cleanup_body w no_delivery s
  = match stop_handle w no_delivery "Stopping MCP server..." (mcp_process s)
            (log (EvCleanup (mcp_process s) (redis_process s)) s) with
    | (_, s1) => stop_handle w no_delivery "Stopping Redis..." (redis_process s) s1
    end.
Proof.
  unfold cleanup_body, stop_handle, bind, gets, emit, modify.
  cbn [mcp_process redis_process log].
  destruct (mcp_process s) as [q|].
  - rewrite !stop_process_eq. cbn [redis_process mark_exited].
    rewrite redis_process_logs. reflexivity.
  - reflexivity.
Qed.

Lemma stop_handle_ret msg h s : exists s', stop_handle w no_delivery msg h s = (Ret tt, s').
Proof.
  destruct h as [p|]; simpl; [rewrite stop_process_eq|]; eauto.
Qed.

(** Without a delivery the body of [cleanup] returns. *)
Lemma cleanup_returns s : exists s', cleanup_body w no_delivery s = (Ret tt, s').
Proof.
  rewrite cleanup_eq.
  destruct (stop_handle_ret "Stopping MCP server..." (mcp_process s)
              (log (EvCleanup (mcp_process s) (redis_process s)) s)) as [s1 ->].
  apply stop_handle_ret.
Qed.

Lemma cleanup_redis_only s :
  mcp_process s = None ->
  exists s', cleanup_body w no_delivery s = (Ret tt, s')
             /\ trace s' = trace s ++ redis_teardown w s
             /\ files s' = files s
             /\ mcp_process s' = None
             /\ redis_process s' = redis_process s
             /\ pending s' = pending s.
Proof.
  intros Hm. rewrite cleanup_eq, Hm. cbn [stop_handle ret].
  unfold redis_teardown. destruct (redis_process s) as [p|] eqn:Hr.
  - cbn [stop_handle]. rewrite stop_process_eq. eexists; split; [reflexivity|].
    cbn [mark_exited trace files mcp_process redis_process pending].
    rewrite trace_logs, files_logs, mcp_process_logs, redis_process_logs, pending_logs.
    cbn [log trace files mcp_process redis_process pending].
    rewrite <- app_assoc. by rewrite Hm, Hr.
  - cbn [stop_handle ret]. eexists; split; [reflexivity|].
    cbn [log trace files mcp_process redis_process pending]. by rewrite Hm, Hr.
Qed.

(** With no signal pending the delivery point of a wait is passed. *)
Lemma stop_process_quiet msg p s :
  pending s = None ->
  stop_process w (checkpoint w) msg p s = stop_process w no_delivery msg p s.
Proof.
  intros Hp. unfold stop_process, proc_wait, print, proc_terminate, no_delivery.
  unfold try_except, bind, emit, modify, ret.
  by rewrite checkpoint_quiet.
Qed.

Lemma cleanup_quiet s :
  pending s = None -> cleanup w s = cleanup_body w no_delivery s.
Proof.
  intros Hp. unfold cleanup, cleanup_body, bind, gets, emit, modify.
  cbn [mcp_process redis_process log].
  destruct (mcp_process s) as [q|].
  - rewrite stop_process_quiet by done. rewrite stop_process_eq.
    cbn [redis_process mark_exited]. rewrite redis_process_logs.
    cbn [redis_process log].
    destruct (redis_process s) as [p|]; [|done].
    apply stop_process_quiet. cbn [pending mark_exited]. by rewrite pending_logs.
  - cbn [ret redis_process log].
    destruct (redis_process s) as [p|]; [|done].
    by apply stop_process_quiet.
Qed.

(** The exit hook of a session in which no signal is pending any more. *)
Lemma cleanup_exit_quiet s :
  mcp_process s = None ->
  pending s = None ->
  exists s', cleanup w s = (Ret tt, s')
             /\ trace s' = trace s ++ redis_teardown w s
             /\ files s' = files s
             /\ mcp_process s' = None
             /\ redis_process s' = redis_process s
             /\ pending s' = None.
Proof.
  intros Hm Hp. rewrite cleanup_quiet by done.
  destruct (cleanup_redis_only s Hm) as (s' & H1 & H2 & H3 & H4 & H5 & H6).
  exists s'. split_and!; try done. congruence.
Qed.

(** [cleanup] with the MCP handle unset. *)
Lemma cleanup_exit_eq s :
  mcp_process s = None ->
  cleanup w s
  = stop_handle w (checkpoint w) "Stopping Redis..." (redis_process s)
      (log (EvCleanup None (redis_process s)) s).
Proof.
  destruct s as [m r e f x pd t]. cbn [mcp_process redis_process]. by intros ->.
Qed.

(** The exit hook of a session that owns nothing. *)
Lemma cleanup_idle s :
  mcp_process s = None ->
  redis_process s = None ->
  cleanup w s = (Ret tt, log (EvCleanup None None) s).
Proof.
  destruct s as [m r e f x pd t]. cbn [mcp_process redis_process].
  by intros -> ->.
Qed.

End Teardown.

(** ** Rules of the Hoare logic *)

Section HoareRules.

Context {A B : Type}.
Implicit Types (P I : state -> Prop).

Lemma hoare_bind P (m : M A) (k : A -> M B) R Q :
  hoare P m R ->
  (forall a, hoare (R (Ret a)) (k a) Q) ->
  (forall e s, R (Raise e) s -> Q (Raise e) s) ->
  hoare P (bind m k) Q.
Proof.
  intros Hm Hk He s Hs. specialize (Hm s Hs). unfold bind.
  destruct (m s) as [[a|e] s1]; simpl in *.
  - by apply Hk.
  - by apply He.
Qed.

Lemma hoare_conseq P P' (m : M A) (Q Q' : result A -> state -> Prop) :
  hoare P' m Q' ->
  (forall s, P s -> P' s) ->
  (forall r s, Q' r s -> Q r s) ->
  hoare P m Q.
Proof. intros Hm HP HQ s Hs. apply HQ, Hm, HP, Hs. Qed.

Lemma keeps_bind I (m : M A) (k : A -> M B) :
  keeps I m -> (forall a, keeps I (k a)) -> keeps I (bind m k).
Proof. intros Hm Hk. eapply hoare_bind; [exact Hm|exact Hk|done]. Qed.

Lemma keeps_ret I (a : A) : keeps I (ret a).
Proof. by intros s Hs. Qed.

Lemma keeps_raise I (e : exn) : keeps I (raise e : M A).
Proof. by intros s Hs. Qed.

Lemma keeps_gets I (f : state -> A) : keeps I (gets f).
Proof. by intros s Hs. Qed.

Lemma keeps_try_except I (body : M A) catches handler :
  keeps I body -> (forall e, keeps I (handler e)) ->
  keeps I (try_except body catches handler).
Proof.
  intros Hb Hh s Hs. specialize (Hb s Hs). unfold try_except.
  destruct (body s) as [[a|e] s1]; simpl in *; [done|].
  destruct (catches e); [by apply Hh|done].
Qed.

Lemma keeps_try_finally I (body : M A) (fin : M unit) :
  keeps I body -> keeps I fin -> keeps I (try_finally body fin).
Proof.
  intros Hb Hf s Hs. specialize (Hb s Hs). unfold try_finally.
  destruct (body s) as [r s1]; simpl in *. specialize (Hf s1 Hb).
  by destruct (fin s1) as [[[]|e] s2].
Qed.

End HoareRules.

Lemma keeps_modify I (f : state -> state) :
  (forall s, I s -> I (f s)) -> keeps I (modify f).
Proof. intros Hf s Hs. by apply Hf. Qed.

(** ** Closure of the session invariant *)

Section Invariant.

Context (w : world) (ok : event -> Prop).

Lemma Inv_log d e s : ok e -> plain e -> Inv w ok d s -> Inv w ok d (log e s).
Proof.
  intros Hok Hpl [H1 H2 H3 H4 H5]. split; cbn [log mcp_process redis_process trace pending].
  - done.
  - done.
  - apply Forall_app; split; [done|]. by constructor.
  - rewrite count_cleanup_app, count_signal_app.
    destruct e; try done; cbn; lia.
  - intros Hi. destruct (H5 Hi) as [? Hc]. split; [done|].
    rewrite count_signal_app, Hc. by destruct e.
Qed.

Lemma Inv_set_environ d m s : Inv w ok d s -> Inv w ok d (set_environ m s).
Proof. by intros []. Qed.

Lemma Inv_set_files d m s : Inv w ok d s -> Inv w ok d (set_files m s).
Proof. by intros []. Qed.

Lemma Inv_mark_exited d p s : Inv w ok d s -> Inv w ok d (mark_exited p s).
Proof. by intros []. Qed.

Lemma Inv_set_redis d p s :
  popen_redis w = Some p -> Inv w ok d s -> Inv w ok d (set_redis_process (Some p) s).
Proof. intros Hp []. split; try done. intros q [= <-]. done. Qed.

Lemma Inv_logs d l s :
  Forall ok l -> Forall plain l -> Inv w ok d s -> Inv w ok d (logs l s).
Proof.
  revert s. induction l as [|e l IH]; intros s Hok Hpl Hs; [done|].
  inversion Hok; inversion Hpl; subst. simpl. apply IH; [done..|]. by apply Inv_log.
Qed.

Lemma keeps_emit d e : ok e -> plain e -> keeps (Inv w ok d) (emit e).
Proof. intros ??. apply keeps_modify. intros s. by apply Inv_log. Qed.

End Invariant.

(** *** The functions of the script keep the invariant *)

Section Policy.

Context (w : world) (ok : event -> Prop).

(** What the event property has to allow; each lemma depends on the
    clauses for the events its function can emit. *)
Hypothesis ok_print : forall l, ok (EvPrint l).
Hypothesis ok_run_version : forall cmd, ok (EvRun [cmd; "--version"]).
Hypothesis ok_run_pip : ok (EvRun (pip_cmd w)).
Hypothesis ok_run_ping : ok (EvRun redis_ping_cmd).
Hypothesis ok_sleep : forall n, ok (EvSleep n).
Hypothesis ok_signal : ok EvSignal.
Hypothesis ok_popen :
  forall p, popen_redis w = Some p -> ok (EvPopen redis_server_cmd p).
Hypothesis ok_terminate : forall p, popen_redis w = Some p -> ok (EvTerminate p).
Hypothesis ok_wait : forall p, popen_redis w = Some p -> ok (EvWait p 5).
Hypothesis ok_kill : forall p, popen_redis w = Some p -> ok (EvKill p).
Hypothesis ok_cleanup : forall h, owned_by w h -> ok (EvCleanup None h).
Hypothesis ok_create :
  forall c, config_endpoint c = Some ("localhost", "6379") -> ok (EvCreate (tmp_name w) c).
Hypothesis ok_launch :
  forall cmd cwd, allow_list_of cmd = Some allowed_tools -> ok (EvLaunch cmd cwd).
Hypothesis ok_launch_done : forall rc, ok (EvLaunchDone rc).
Hypothesis ok_unlink : forall p, ok (EvUnlink p).

Local Abbreviation I := (Inv w ok).

Lemma Inv_extend d s s' l :
  mcp_process s' = None ->
  owned_by w (redis_process s') ->
  trace s' = trace s ++ l ->
  Forall ok l ->
  (interrupt w = None -> pending s' = None /\ count_signal l = 0) ->
  I d s ->
  I (d + Z.of_nat (count_cleanup l) - Z.of_nat (count_signal l))%Z s'.
Proof.
  intros Hm Hr Ht Hok Hq [H1 H2 H3 H4 H5]. split.
  - done.
  - done.
  - rewrite Ht. by apply Forall_app.
  - rewrite Ht, count_cleanup_app, count_signal_app. lia.
  - intros Hi. destruct (Hq Hi) as [? Hc], (H5 Hi) as [_ Hc'].
    split; [done|]. rewrite Ht, count_signal_app. lia.
Qed.

Lemma redis_teardown_ok s :
  owned_by w (redis_process s) -> Forall ok (redis_teardown w s).
Proof using ok_print ok_terminate ok_wait ok_kill ok_cleanup.
  intros Hr. unfold redis_teardown. constructor; [by apply ok_cleanup|].
  destruct (redis_process s) as [p|] eqn:E; [|done].
  specialize (Hr p eq_refl). unfold graceful_then_forced.
  destruct (wait_times_out w p s); repeat constructor; auto.
Qed.

Lemma redis_teardown_counts s :
  count_cleanup (redis_teardown w s) = 1 /\ count_signal (redis_teardown w s) = 0.
Proof.
  unfold redis_teardown, graceful_then_forced.
  destruct (redis_process s) as [p|]; [destruct (wait_times_out w p s)|]; done.
Qed.

(** One more run of the teardown body, in the signal handler. *)
Lemma handler_cleanup_inv d :
  hoare (I d) (cleanup_body w no_delivery) (fun r s => r = Ret tt /\ I (d + 1)%Z s).
Proof using ok_print ok_terminate ok_wait ok_kill ok_cleanup.
  intros s Hs.
  destruct (cleanup_redis_only w s (inv_mcp _ _ _ _ Hs))
    as (s' & -> & Ht & _ & Hm & Hr & Hp).
  split; [done|]. cbn [snd].
  destruct (redis_teardown_counts s) as [Hc Hg].
  replace (d + 1)%Z with (d + Z.of_nat (count_cleanup (redis_teardown w s))
                            - Z.of_nat (count_signal (redis_teardown w s)))%Z
    by (rewrite Hc, Hg; lia).
  apply Inv_extend with (s := s); try done.
  - rewrite Hr. by destruct Hs.
  - apply redis_teardown_ok. by destruct Hs.
  - intros Hi. rewrite Hp. split; [|done]. by apply (inv_quiet _ _ _ _ Hs).
Qed.

(** The handler runs the teardown body once for the signal it answers. *)
Lemma checkpoint_inv d : keeps (I d) (checkpoint w).
Proof using ok_print ok_signal ok_terminate ok_wait ok_kill ok_cleanup.
  intros s Hs. unfold checkpoint.
  destruct (pending s) as [[|n]|] eqn:Hp; cbn [fst snd].
  - unfold signal_handler, bind, print, emit, modify.
    set (s1 := log _ (log EvSignal _)).
    assert (Hs1 : I (d - 1)%Z s1).
    { replace (d - 1)%Z with
        (d + Z.of_nat (count_cleanup [EvSignal; EvPrint (nl +:+ "Received interrupt signal, cleaning up...")])
           - Z.of_nat (count_signal [EvSignal; EvPrint (nl +:+ "Received interrupt signal, cleaning up...")]))%Z
        by (cbn; lia).
      apply Inv_extend with (s := s); try by destruct Hs.
      - subst s1. cbn [log set_pending trace]. by rewrite <- app_assoc.
      - repeat constructor; auto.
      - intros Hi. destruct (inv_quiet _ _ _ _ Hs Hi) as [Hn _]. congruence. }
    destruct (handler_cleanup_inv (d - 1) s1 Hs1) as [Hr Hc].
    destruct (cleanup_body w no_delivery s1) as [r s2]; cbn [fst snd] in *. subst r.
    cbn [fst snd sys_exit raise]. by replace (d - 1 + 1)%Z with d in Hc by lia.
  - destruct Hs as [H1 H2 H3 H4 H5]. split; try done.
    intros Hi. destruct (H5 Hi). congruence.
  - done.
Qed.

Lemma print_inv d l : keeps (I d) (print l).
Proof using ok_print. by apply keeps_emit. Qed.

Lemma subprocess_run_inv d cmd a :
  ok (EvRun cmd) -> keeps (I d) (subprocess_run w cmd a).
Proof using ok_print ok_signal ok_terminate ok_wait ok_kill ok_cleanup.
  intros Hcmd. unfold subprocess_run.
  apply keeps_bind; [by apply keeps_emit|intros _].
  apply keeps_bind; [apply checkpoint_inv|intros _].
  destruct a as [[]|]; [apply keeps_ret|apply keeps_raise..].
Qed.

(** The treatment of an owned handle by the exit hook, during whose wait
    the signal can still arrive. *)
Lemma stop_process_inv d msg p :
  popen_redis w = Some p -> keeps (I d) (stop_process w (checkpoint w) msg p).
Proof using ok_print ok_signal ok_terminate ok_wait ok_kill ok_cleanup.
  intros Hp. unfold stop_process, proc_terminate, proc_wait, proc_kill.
  apply keeps_bind; [by apply keeps_emit|intros _].
  apply keeps_bind; [apply keeps_emit; [by apply ok_terminate|done]|intros _].
  apply keeps_try_except.
  - apply keeps_bind; [apply keeps_emit; [by apply ok_wait|done]|intros _].
    apply keeps_bind; [apply checkpoint_inv|intros _].
    intros s Hs. unfold wait_result.
    destruct (has_exited p s || graceful w p); cbn [fst snd]; [|done].
    by apply Inv_mark_exited.
  - intros e. apply keeps_bind; [apply keeps_emit; [by apply ok_kill|done]|intros _].
    apply keeps_modify. intros s. apply Inv_mark_exited.
Qed.

(** One more run of the teardown body, at the exit of the interpreter;
    it can end by returning or with the [SystemExit] of the handler. *)
Lemma cleanup_inv d : hoare (I d) (cleanup w) (fun _ s => I (d + 1)%Z s).
Proof using ok_print ok_signal ok_terminate ok_wait ok_kill ok_cleanup.
  intros s Hs. rewrite (cleanup_exit_eq w s (inv_mcp _ _ _ _ Hs)).
  set (s1 := log (EvCleanup None (redis_process s)) s).
  assert (Hs1 : I (d + 1)%Z s1).
  { replace (d + 1)%Z with
      (d + Z.of_nat (count_cleanup [EvCleanup None (redis_process s)])
         - Z.of_nat (count_signal [EvCleanup None (redis_process s)]))%Z by (cbn; lia).
    apply Inv_extend with (s := s); try by destruct Hs.
    - repeat constructor. apply ok_cleanup. by destruct Hs.
    - intros Hi. split; [|done]. by apply (inv_quiet _ _ _ _ Hs). }
  destruct (redis_process s) as [p|] eqn:Hr; cbn [stop_handle].
  - apply stop_process_inv; [|exact Hs1]. by apply (inv_redis _ _ _ _ Hs).
  - exact Hs1.
Qed.

Lemma sleep_inv d n : keeps (I d) (sleep w n).
Proof using ok_print ok_sleep ok_signal ok_terminate ok_wait ok_kill ok_cleanup.
  unfold sleep. apply keeps_bind; [by apply keeps_emit|intros _].
  apply checkpoint_inv.
Qed.

Lemma setenv_inv d k v : keeps (I d) (setenv k v).
Proof. apply keeps_modify. intros s. apply Inv_set_environ. Qed.

(** Structural steps shared by the proofs below. *)
Ltac keeps_step :=
  lazymatch goal with
  | |- keeps _ (bind _ _) => apply keeps_bind; [|intros ?]
  | |- keeps _ (ret _) => apply keeps_ret
  | |- keeps _ (raise _) => apply keeps_raise
  | |- keeps _ (gets _) => apply keeps_gets
  | |- keeps _ (print _) => apply print_inv
  | |- keeps _ (subprocess_run _ _ _) =>
      apply subprocess_run_inv;
      first [apply ok_run_version | apply ok_run_pip | apply ok_run_ping]
  | |- keeps _ (sleep _ _) => apply sleep_inv
  | |- keeps _ (checkpoint _) => apply checkpoint_inv
  | |- keeps _ (setenv _ _) => apply setenv_inv
  | |- keeps _ (try_except _ _ _) => apply keeps_try_except; [|intros ?]
  | |- keeps _ (if ?b then _ else _) => destruct b
  | |- keeps _ (match ?x with _ => _ end) => destruct x
  end.

Lemma probe_required_inv d l missing : keeps (I d) (probe_required w l missing).
Proof.
  revert missing. induction l as [|[cmd desc] l IH]; intros missing; simpl.
  - apply keeps_ret.
  - apply keeps_bind; [|intros ?; apply IH]. repeat keeps_step.
Qed.

Lemma check_dependencies_inv d : keeps (I d) (check_dependencies w).
Proof.
  unfold check_dependencies. apply keeps_bind; [apply probe_required_inv|intros m].
  unfold sys_exit. repeat keeps_step.
Qed.

Lemma setup_environment_inv d : keeps (I d) (setup_environment w).
Proof.
  unfold setup_environment, getenv, getenv_default, sys_exit. repeat keeps_step.
Qed.

Lemma install_dependencies_inv d : keeps (I d) (install_dependencies w).
Proof. unfold install_dependencies. repeat keeps_step. Qed.

Lemma popen_inv d :
  hoare (I d) (popen w redis_server_cmd)
        (fun r s => I d s /\ forall p, r = Ret p -> popen_redis w = Some p).
Proof.
  unfold popen.
  assert (G : forall o, o = popen_redis w ->
            hoare (I d)
              (match o with
               | Some p => emit (EvPopen redis_server_cmd p) ;; ret p
               | None => raise OSError
               end)%py
              (fun r s => I d s /\ forall p, r = Ret p -> popen_redis w = Some p)).
  { intros [p|] Ho s Hs; cbn [fst snd]; (split; [|by intros q [= <-]]).
    - apply Inv_log; [by apply ok_popen|done..].
    - done. }
  by apply G.
Qed.

Lemma start_redis_inv d : keeps (I d) (start_redis w).
Proof.
  unfold start_redis. apply keeps_bind; [repeat keeps_step|intros running].
  destruct running; [apply keeps_ret|].
  apply keeps_bind; [apply print_inv|intros _].
  apply keeps_try_except; [|intros e; repeat keeps_step].
  eapply hoare_bind; [apply popen_inv| |by intros e s [? _]].
  intros p s [Hs Hp]. specialize (Hp p eq_refl).
  assert (K : keeps (I d)
                (checkpoint w ;;
                 modify (set_redis_process (Some p)) ;;
                 sleep w 2 ;; subprocess_run w ["redis-cli"; "ping"] (Ran (ping2 w)) ;;
                 print "Redis started successfully")%py).
  { apply keeps_bind; [apply checkpoint_inv|intros _].
    apply keeps_bind; [apply keeps_modify; intros s'; by apply Inv_set_redis|intros _].
    repeat keeps_step. }
  exact (K s Hs).
Qed.

Lemma create_mcp_config_inv d path : keeps (I d) (create_mcp_config w path).
Proof.
  unfold create_mcp_config, getenv_default.
  do 4 (apply keeps_bind; [apply keeps_gets|intros ?]).
  apply keeps_bind; [apply keeps_modify; intros s; apply Inv_set_files|intros _].
  apply keeps_bind; [|intros _; apply keeps_ret].
  apply keeps_emit; [|done]. by apply ok_create.
Qed.

Lemma allow_list_of_claude_cmd prompt path working_dir :
  allow_list_of (claude_cmd prompt path working_dir) = Some allowed_tools.
Proof. reflexivity. Qed.

Lemma run_claude_code_inv d prompt path working_dir :
  keeps (I d) (run_claude_code w prompt path working_dir).
Proof.
  unfold run_claude_code, subprocess_run_client.
  do 3 (apply keeps_bind; [apply print_inv|intros _]).
  apply keeps_bind; [|intros _].
  { apply keeps_emit; [|done]. apply ok_launch, allow_list_of_claude_cmd. }
  destruct (client w).
  - apply keeps_bind; [|intros _].
    + apply keeps_try_except; [apply checkpoint_inv|intros e].
      apply keeps_bind; [by apply keeps_emit|intros _; apply keeps_raise].
    + apply keeps_bind; [by apply keeps_emit|intros _; apply keeps_ret].
  - apply keeps_bind; [by apply keeps_emit|intros _; apply keeps_raise].
Qed.

Lemma remove_config_inv d path : keeps (I d) (remove_config w path).
Proof.
  unfold remove_config. apply keeps_bind; [apply checkpoint_inv|intros _].
  intros s Hs. unfold unlink_if_exists. destruct (files s !! path); [|done].
  cbn [fst snd]. apply Inv_log; [apply ok_unlink|done|]. by apply Inv_set_files.
Qed.

Lemma main_launch_inv d prompt working_dir path :
  keeps (I d) (main_launch w prompt working_dir path).
Proof.
  unfold main_launch, main_try_body. apply keeps_try_finally; [|apply remove_config_inv].
  do 3 (apply keeps_bind; [apply print_inv|intros _]).
  apply keeps_bind; [apply run_claude_code_inv|intros rc].
  unfold sys_exit. repeat keeps_step.
Qed.

Lemma main_setup_inv d : keeps (I d) (main_setup w).
Proof.
  unfold main_setup.
  do 3 (apply keeps_bind; [apply print_inv|intros _]).
  apply keeps_bind; [apply check_dependencies_inv|intros _].
  apply keeps_bind; [apply print_inv|intros _].
  apply keeps_bind; [apply setup_environment_inv|intros _].
  apply keeps_bind; [apply install_dependencies_inv|intros _].
  apply keeps_bind; [apply start_redis_inv|intros _].
  apply keeps_bind; [apply print_inv|intros _].
  apply keeps_bind; [apply create_mcp_config_inv|intros p].
  apply keeps_bind; [apply checkpoint_inv|intros _; apply keeps_ret].
Qed.

Lemma main_inv d : keeps (I d) (main w).
Proof.
  unfold main, usage, sys_exit. destruct (argv w) as [|a [|prompt rest]].
  1,2: repeat keeps_step.
  apply keeps_bind; [apply main_setup_inv|intros p]. apply main_launch_inv.
Qed.

Lemma init_inv : I 0 (init w).
Proof. by split. Qed.

(** The whole run: the script body keeps the balance, the [atexit] hook
    adds one run of the teardown body. *)
Lemma session_inv : I 1 (snd (session w)).
Proof.
  unfold session. pose proof (main_inv 0 (init w) init_inv) as Hm.
  destruct (main w (init w)) as [r s]. cbn [fst snd] in *.
  apply (cleanup_inv 0 s Hm).
Qed.

End Policy.

(** ** Sessions without a signal, step by step *)

Lemma bind_Ret {A B} (m : M A) (k : A -> M B) s a s' :
  m s = (Ret a, s') -> bind m k s = k a s'.
Proof. unfold bind. by intros ->. Qed.

Lemma bind_Raise {A B} (m : M A) (k : A -> M B) s e s' :
  m s = (Raise e, s') -> bind m k s = (Raise e, s').
Proof. unfold bind. by intros ->. Qed.

Lemma bind_print {B} l (k : unit -> M B) s :
  bind (print l) k s = k tt (log (EvPrint l) s).
Proof. reflexivity. Qed.

Lemma bind_assoc {A B C} (m : M A) (k1 : A -> M B) (k2 : B -> M C) s :
  bind (bind m k1) k2 s = bind m (fun a => bind (k1 a) k2) s.
Proof. unfold bind. by destruct (m s) as [[a|e] s']. Qed.

Lemma bind_ret {A B} (a : A) (k : A -> M B) s : bind (ret a) k s = k a s.
Proof. reflexivity. Qed.

Lemma bind_raise {A B} (e : exn) (k : A -> M B) s :
  bind (raise e) k s = (Raise e, s).
Proof. reflexivity. Qed.

Lemma try_except_Ret {A} (body : M A) catches handler s a s' :
  body s = (Ret a, s') -> try_except body catches handler s = (Ret a, s').
Proof. unfold try_except. by intros ->. Qed.

Lemma try_except_Raise {A} (body : M A) catches handler s e s' :
  body s = (Raise e, s') -> catches e = true ->
  try_except body catches handler s = handler e s'.
Proof. unfold try_except. by intros -> ->. Qed.

Lemma bind_emit {B} e (k : unit -> M B) s :
  bind (emit e) k s = k tt (log e s).
Proof. reflexivity. Qed.

(** Projections of a state built by the updates above. *)
Lemma pending_log e s : pending (log e s) = pending s.
Proof. reflexivity. Qed.

Lemma mcp_process_log e s : mcp_process (log e s) = mcp_process s.
Proof. reflexivity. Qed.

Lemma redis_process_log e s : redis_process (log e s) = redis_process s.
Proof. reflexivity. Qed.

Lemma files_log e s : files (log e s) = files s.
Proof. reflexivity. Qed.

Lemma trace_log e s : trace (log e s) = trace s ++ [e].
Proof. reflexivity. Qed.

Lemma environ_log e s : environ (log e s) = environ s.
Proof. reflexivity. Qed.

Lemma pending_set_files m s : pending (set_files m s) = pending s.
Proof. reflexivity. Qed.

Lemma mcp_process_set_files m s : mcp_process (set_files m s) = mcp_process s.
Proof. reflexivity. Qed.

Lemma redis_process_set_files m s : redis_process (set_files m s) = redis_process s.
Proof. reflexivity. Qed.

Lemma files_set_files m s : files (set_files m s) = m.
Proof. reflexivity. Qed.

Lemma trace_set_files m s : trace (set_files m s) = trace s.
Proof. reflexivity. Qed.

Lemma environ_set_files m s : environ (set_files m s) = environ s.
Proof. reflexivity. Qed.

Lemma pending_set_environ m s : pending (set_environ m s) = pending s.
Proof. reflexivity. Qed.

Lemma mcp_process_set_environ m s : mcp_process (set_environ m s) = mcp_process s.
Proof. reflexivity. Qed.

Lemma redis_process_set_environ m s : redis_process (set_environ m s) = redis_process s.
Proof. reflexivity. Qed.

Lemma files_set_environ m s : files (set_environ m s) = files s.
Proof. reflexivity. Qed.

Lemma trace_set_environ m s : trace (set_environ m s) = trace s.
Proof. reflexivity. Qed.

Lemma environ_set_environ m s : environ (set_environ m s) = m.
Proof. reflexivity. Qed.

Lemma pending_set_redis_process h s : pending (set_redis_process h s) = pending s.
Proof. reflexivity. Qed.

Lemma mcp_process_set_redis_process h s : mcp_process (set_redis_process h s) = mcp_process s.
Proof. reflexivity. Qed.

Lemma redis_process_set_redis_process h s : redis_process (set_redis_process h s) = h.
Proof. reflexivity. Qed.

Lemma files_set_redis_process h s : files (set_redis_process h s) = files s.
Proof. reflexivity. Qed.

Lemma trace_set_redis_process h s : trace (set_redis_process h s) = trace s.
Proof. reflexivity. Qed.

Lemma environ_set_redis_process h s : environ (set_redis_process h s) = environ s.
Proof. reflexivity. Qed.

Lemma pending_mark_exited p s : pending (mark_exited p s) = pending s.
Proof. reflexivity. Qed.

Lemma mcp_process_mark_exited p s : mcp_process (mark_exited p s) = mcp_process s.
Proof. reflexivity. Qed.

Lemma redis_process_mark_exited p s : redis_process (mark_exited p s) = redis_process s.
Proof. reflexivity. Qed.

Lemma files_mark_exited p s : files (mark_exited p s) = files s.
Proof. reflexivity. Qed.

Lemma trace_mark_exited p s : trace (mark_exited p s) = trace s.
Proof. reflexivity. Qed.

Lemma environ_mark_exited p s : environ (mark_exited p s) = environ s.
Proof. reflexivity. Qed.

Lemma pending_set_pending n s : pending (set_pending n s) = n.
Proof. reflexivity. Qed.

Lemma mcp_process_set_pending n s : mcp_process (set_pending n s) = mcp_process s.
Proof. reflexivity. Qed.

Lemma redis_process_set_pending n s : redis_process (set_pending n s) = redis_process s.
Proof. reflexivity. Qed.

Lemma files_set_pending n s : files (set_pending n s) = files s.
Proof. reflexivity. Qed.

Lemma trace_set_pending n s : trace (set_pending n s) = trace s.
Proof. reflexivity. Qed.

Lemma environ_set_pending n s : environ (set_pending n s) = environ s.
Proof. reflexivity. Qed.

Ltac state_simp :=
  repeat first
    [ rewrite pending_log
    | rewrite mcp_process_log
    | rewrite redis_process_log
    | rewrite files_log
    | rewrite trace_log
    | rewrite environ_log
    | rewrite pending_set_files
    | rewrite mcp_process_set_files
    | rewrite redis_process_set_files
    | rewrite files_set_files
    | rewrite trace_set_files
    | rewrite environ_set_files
    | rewrite pending_set_environ
    | rewrite mcp_process_set_environ
    | rewrite redis_process_set_environ
    | rewrite files_set_environ
    | rewrite trace_set_environ
    | rewrite environ_set_environ
    | rewrite pending_set_redis_process
    | rewrite mcp_process_set_redis_process
    | rewrite redis_process_set_redis_process
    | rewrite files_set_redis_process
    | rewrite trace_set_redis_process
    | rewrite environ_set_redis_process
    | rewrite pending_mark_exited
    | rewrite mcp_process_mark_exited
    | rewrite redis_process_mark_exited
    | rewrite files_mark_exited
    | rewrite trace_mark_exited
    | rewrite environ_mark_exited
    | rewrite pending_set_pending
    | rewrite mcp_process_set_pending
    | rewrite redis_process_set_pending
    | rewrite files_set_pending
    | rewrite trace_set_pending
    | rewrite environ_set_pending
    | rewrite pending_logs
    | rewrite mcp_process_logs
    | rewrite redis_process_logs
    | rewrite files_logs
    | rewrite environ_logs
    | rewrite trace_logs ].

(** Running the straight-line part of a computation. *)
Ltac run :=
  repeat first [ rewrite bind_assoc | rewrite bind_print | rewrite bind_emit
               | rewrite bind_ret | rewrite bind_raise ].

Section QuietSession.

Context (w : world).

Lemma start_redis_quiet_frame s :
  pending s = None ->
  start_redis w s
  = (Ret tt,
     set_redis_process (start_redis_handle w (redis_process s)) (logs (start_redis_events w) s)).
Proof.
  intros Hp. rewrite start_redis_quiet by done.
  unfold start_redis_events, start_redis_handle.
  destruct s as [m r e f x pd t].
  destruct (ping1 w), (popen_redis w), (ping2 w); reflexivity.
Qed.

Lemma create_mcp_config_eq path s :
  create_mcp_config w path s
  = (Ret (tmp_name w),
     log (EvCreate (tmp_name w) (config_of w path s))
         (set_files (<[tmp_name w := config_of w path s]> (files s)) s)).
Proof. reflexivity. Qed.

(** A [main_setup] in which nothing is missing creates the configuration
    file and returns its path, whatever happens to the service. *)
Lemma main_setup_quiet s :
pending s = None ->
dependencies_present w -> credential_present (environ s) -> install_succeeds w ->
exists s1 c,
  main_setup w s = (Ret (tmp_name w), s1)
  /\ pending s1 = None
  /\ mcp_process s1 = mcp_process s
  /\ files s1 !! tmp_name w = Some c
  /\ trace s1 = trace s ++ setup_prefix w (environ s) ++ start_redis_events w
                ++ [EvPrint "Creating MCP configuration..."; EvCreate (tmp_name w) c].
Proof.
intros Hp Hdeps Hcred Hpip. unfold main_setup.
rewrite !bind_print.
erewrite bind_Ret by (by apply check_dependencies_present).
rewrite bind_print.
set (s2 := log (EvPrint "Setting up environment...") _).
assert (H2 : pending s2 = None /\ mcp_process s2 = mcp_process s /\ environ s2 = environ s
             /\ trace s2 = trace s
                  ++ [ EvPrint "=== Claude Code with Zen MCP Server ==="; EvPrint "";
                       EvPrint "Checking dependencies..." ]
                  ++ version_probes required ++ [EvPrint "Setting up environment..."]).
{ subst s2. state_simp. rewrite <- !app_assoc. done. }
destruct H2 as (Hp2 & Hm2 & He2 & Ht2). clearbody s2.
destruct (setup_environment_ok w s2) as [bundle Hsetup]; [by rewrite He2|].
erewrite bind_Ret by exact Hsetup. clear Hsetup.
set (s3 := set_environ _ _).
assert (H3 : pending s3 = None /\ mcp_process s3 = mcp_process s2
             /\ trace s3 = trace s2 ++ optional_keys_warning (environ s)).
{ subst s3. state_simp. by rewrite He2. }
destruct H3 as (Hp3 & Hm3 & Ht3). clearbody s3.
erewrite bind_Ret; cycle 1.
{ rewrite install_dependencies_quiet by done.
  unfold install_succeeds in Hpip.
  destruct (requirements_exists w); [by rewrite Hpip|done]. }
erewrite bind_Ret; cycle 1.
{ apply start_redis_quiet_frame. by state_simp. }
rewrite bind_print.
set (s5 := log (EvPrint "Creating MCP configuration...") _).
assert (H5 : pending s5 = None /\ mcp_process s5 = mcp_process s3
             /\ trace s5 = trace s3 ++ install_events w ++ start_redis_events w
                           ++ [EvPrint "Creating MCP configuration..."]).
{ subst s5. state_simp. by rewrite <- !app_assoc. }
destruct H5 as (Hp5 & Hm5 & Ht5). clearbody s5.
erewrite bind_Ret by apply create_mcp_config_eq.
erewrite bind_Ret by (apply checkpoint_quiet; by state_simp).
eexists _, (config_of w (script_dir w) s5). split; [reflexivity|].
state_simp. split; [done|]. split; [congruence|].
split; [by rewrite lookup_insert_eq|].
rewrite Ht5, Ht3, Ht2. unfold setup_prefix. by rewrite <- !app_assoc.
Qed.

End QuietSession.

(** ** The protected launch and the exit hook, with or without a signal *)

Section Launch.

Context (w : world).

Lemma checkpoint_spec s :
  mcp_process s = None ->
  exists r s' l,
    checkpoint w s = (r, s')
    /\ trace s' = trace s ++ l
    /\ files s' = files s
    /\ mcp_process s' = None
    /\ redis_process s' = redis_process s
    /\ ((r = Ret tt /\ l = [] /\ pending s <> Some 0 /\ exited s' = exited s
         /\ (pending s = None -> pending s' = None))
        \/ (r = Raise (SystemExit 0) /\ l = interrupted_events w s /\ pending s = Some 0)).
Proof.
  intros Hm. unfold checkpoint. destruct (pending s) as [[|n]|] eqn:Hp.
  - unfold signal_handler. rewrite bind_print.
    set (s1 := log _ (log EvSignal _)).
    destruct (cleanup_redis_only w s1) as (s2 & Hc & Ht & Hf & Hm2 & Hr2 & _); [done|].
    rewrite (bind_Ret _ _ _ _ _ Hc).
    exists (Raise (SystemExit 0)), s2, (interrupted_events w s).
    split; [done|]. rewrite Ht, Hf, Hr2. subst s1. state_simp.
    split; [by rewrite <- !app_assoc|]. split; [done|]. split; [done|].
    split; [done|]. by right.
  - exists (Ret tt), (set_pending (Some n) s), []. state_simp.
    rewrite app_nil_r. repeat split; try done. left. by repeat split.
  - exists (Ret tt), s, []. rewrite app_nil_r. repeat split; try done.
    left. by repeat split.
Qed.

Lemma redis_teardown_neutral path s b :
  count_unlink path (redis_teardown w s) = 0
  /\ client_running b (redis_teardown w s) = b
  /\ (forall cmd cwd, ~ In (EvLaunch cmd cwd) (redis_teardown w s)).
Proof.
  unfold redis_teardown, graceful_then_forced.
  destruct (redis_process s) as [p|]; [destruct (wait_times_out w p s)|];
    (split; [done|split; [done|]]); intros cmd cwd Hin; simpl in Hin;
    repeat (destruct Hin as [Hin|Hin]; [discriminate Hin|]); done.
Qed.

Lemma interrupted_events_neutral path s b :
  count_unlink path (interrupted_events w s) = 0
  /\ client_running b (interrupted_events w s) = b
  /\ (forall cmd cwd, ~ In (EvLaunch cmd cwd) (interrupted_events w s)).
Proof.
  destruct (redis_teardown_neutral path s b) as (Hu & Hr & Hl).
  unfold interrupted_events. split; [exact Hu|]. split; [exact Hr|].
  intros cmd cwd [Hin|[Hin|Hin]]; [discriminate Hin..|]. by apply (Hl cmd cwd).
Qed.

Lemma main_try_body_spec prompt working_dir path s :
  mcp_process s = None ->
  exists r s1 mid,
    main_try_body w prompt working_dir path s = (r, s1)
    /\ trace s1 = trace s ++ launch_prints prompt working_dir path ++ mid
    /\ files s1 = files s
    /\ mcp_process s1 = None
    /\ count_unlink path mid = 0
    /\ client_running true mid = false
    /\ (forall cmd cwd, ~ In (EvLaunch cmd cwd) mid)
    /\ (pending s = None -> r = launch_outcome w /\ mid = launch_end w /\ pending s1 = None).
Proof.
  intros Hm. unfold main_try_body, run_claude_code, subprocess_run_client.
  run.
  set (s0 := log (EvLaunch _ _) _).
  assert (H0 : trace s0 = trace s ++ launch_prints prompt working_dir path
               /\ files s0 = files s /\ mcp_process s0 = None /\ pending s0 = pending s).
  { subst s0. state_simp. unfold launch_prints. by rewrite <- !app_assoc. }
  destruct H0 as (Ht0 & Hf0 & Hm0 & Hp0). clearbody s0.
  unfold launch_outcome, launch_end. destruct (client w) as [rc|].
  - run.
    destruct (checkpoint_spec s0 Hm0) as (r & s1 & l & Hc & Ht1 & Hf1 & Hm1 & _ & Hcase).
    destruct Hcase as [(-> & -> & _ & _ & Hq)|(-> & -> & Hq)].
    + erewrite bind_Ret by (apply try_except_Ret; exact Hc).
      cbv beta. run.
      destruct (rc =? 0)%Z eqn:Hrc.
      * eexists _, _, [EvLaunchDone (Some rc)]. split; [reflexivity|].
        state_simp. rewrite Ht1, Ht0, Hf1, Hf0, app_nil_r, <- app_assoc.
        split_and!; try done.
        -- by intros cmd cwd [Hin|[]].
        -- intros Hn. split_and!; try done. apply Hq. by rewrite Hp0.
      * run.
        eexists _, _, [EvLaunchDone (Some rc); _]. split; [reflexivity|].
        state_simp. rewrite Ht1, Ht0, Hf1, Hf0, app_nil_r, <- !app_assoc.
        split_and!; try done.
        -- by intros cmd cwd [Hin|[Hin|[]]].
        -- intros Hn. split_and!; try done. apply Hq. by rewrite Hp0.
    + erewrite bind_Raise; cycle 1.
      { erewrite try_except_Raise by (exact Hc || done). by rewrite bind_emit. }
      eexists _, _, (interrupted_events w s0 ++ [EvLaunchDone None]).
      split; [reflexivity|]. state_simp.
      rewrite Ht1, Ht0, Hf1, Hf0, <- !app_assoc.
      destruct (interrupted_events_neutral path s0 true) as (Hu & Hr & Hl).
      split_and!; try done.
      * by rewrite count_unlink_app, Hu.
      * by rewrite client_running_app, Hr.
      * intros cmd cwd [Hin|[Hin|[]]]%in_app_or; [by apply (Hl cmd cwd)|done].
      * intros Hn. congruence.
  - run.
    eexists _, _, [EvLaunchDone None]. split; [reflexivity|].
    state_simp. rewrite Ht0, Hf0, <- !app_assoc. split_and!; try done.
    + by intros cmd cwd [Hin|[]].
    + intros Hn. split_and!; try done. by rewrite Hp0.
Qed.

Lemma unlink_present path s c :
  files s !! path = Some c -> unlink_if_exists path s = (Ret tt, unlinked path s).
Proof. unfold unlink_if_exists. by intros ->. Qed.

Lemma remove_config_present path s c :
  pending s = None ->
  files s !! path = Some c -> remove_config w path s = (Ret tt, unlinked path s).
Proof.
  intros Hp Hf. unfold remove_config.
  erewrite bind_Ret by (by apply checkpoint_quiet). by apply (unlink_present path s c).
Qed.

(** The [finally] clause: the file is removed, unless the signal is
    delivered at its head; then the handler runs and the file stays. *)
Lemma remove_config_spec path s c :
  mcp_process s = None ->
  files s !! path = Some c ->
  exists r s' fin,
    remove_config w path s = (r, s')
    /\ trace s' = trace s ++ fin
    /\ mcp_process s' = None
    /\ (forall cmd cwd, ~ In (EvLaunch cmd cwd) fin)
    /\ (pending s <> Some 0 ->
          r = Ret tt /\ fin = [EvUnlink path] /\ files s' !! path = None
          /\ (pending s = None -> pending s' = None))
    /\ (pending s = Some 0 ->
          r = Raise (SystemExit 0) /\ fin = interrupted_events w s
          /\ files s' !! path = Some c).
Proof.
  intros Hm Hf. unfold remove_config.
  destruct (checkpoint_spec s Hm) as (r & s1 & l & Hc & Ht1 & Hf1 & Hm1 & _ & Hcase).
  destruct Hcase as [(-> & -> & Hne & _ & Hq)|(-> & -> & Hq)].
  - rewrite (bind_Ret _ _ _ _ _ Hc).
    rewrite (unlink_present path s1 c) by (by rewrite Hf1).
    exists (Ret tt), (unlinked path s1), [EvUnlink path]. split; [done|].
    unfold unlinked. state_simp. rewrite Ht1, app_nil_r.
    split_and!; try done.
    + by intros cmd cwd [Hin|[]].
    + intros _. split_and!; try done. by rewrite lookup_delete_eq.
  - rewrite (bind_Raise _ _ _ _ _ Hc).
    exists (Raise (SystemExit 0)), s1, (interrupted_events w s). split; [done|].
    destruct (interrupted_events_neutral path s true) as (_ & _ & Hl).
    split_and!; try done. intros _. split_and!; try done. by rewrite Hf1.
Qed.

(** The [try ... finally] of [main]: however the [try] body ends, the
    [finally] clause is entered when the client is gone, and it removes the
    file unless the signal is delivered at its head. *)
Lemma main_launch_spec prompt working_dir path s c :
  mcp_process s = None ->
  files s !! path = Some c ->
  exists rb sb r s2 mid fin,
    main_try_body w prompt working_dir path s = (rb, sb)
    /\ main_launch w prompt working_dir path s = (r, s2)
    /\ trace s2 = trace s ++ launch_prints prompt working_dir path ++ mid ++ fin
    /\ mcp_process s2 = None
    /\ count_unlink path mid = 0
    /\ client_running true mid = false
    /\ (forall cmd cwd, ~ In (EvLaunch cmd cwd) (mid ++ fin))
    /\ (pending sb <> Some 0 ->
          r = rb /\ fin = [EvUnlink path] /\ files s2 !! path = None)
    /\ (pending sb = Some 0 ->
          r = Raise (SystemExit 0) /\ fin = interrupted_events w sb
          /\ files s2 !! path = Some c)
    /\ (pending s = None ->
          rb = launch_outcome w /\ mid = launch_end w /\ pending s2 = None).
Proof.
  intros Hm Hf. unfold main_launch, try_finally.
  destruct (main_try_body_spec prompt working_dir path s Hm)
    as (rb & sb & mid & Hb & Ht & Hf1 & Hm1 & Hu & Hr & Hl & Hq).
  rewrite Hb.
  destruct (remove_config_spec path sb c Hm1) as (rf & s2 & fin & Hfin & Ht2 & Hm2 & Hl2 & Hok & Hsig);
    [by rewrite Hf1|].
  rewrite Hfin.
  assert (Hnl : forall cmd cwd, ~ In (EvLaunch cmd cwd) (mid ++ fin)).
  { intros cmd cwd [Hin|Hin]%in_app_or; [by apply (Hl cmd cwd)|by apply (Hl2 cmd cwd)]. }
  destruct (decide (pending sb = Some 0)) as [Hp|Hp].
  - destruct (Hsig Hp) as (-> & -> & Hf2).
    exists rb, sb, (Raise (SystemExit 0)), s2, mid, (interrupted_events w sb).
    split; [done|]. split; [done|]. rewrite Ht2, Ht, <- !app_assoc.
    split_and!; try done. intros Hn. destruct (Hq Hn) as (_ & _ & Hn'). congruence.
  - destruct (Hok Hp) as (-> & -> & Hf2 & Hn2).
    exists rb, sb, rb, s2, mid, [EvUnlink path].
    split; [done|]. split; [done|]. rewrite Ht2, Ht, <- !app_assoc.
    split_and!; try done. intros Hn. destruct (Hq Hn) as (-> & -> & Hn').
    split_and!; try done. by apply Hn2.
Qed.


End Launch.

(** ** The claims *)

(** *** C6: an already-live service is left alone *)

(** C6.  When the first liveness probe of [start_redis] succeeds (and no
    signal is delivered during it), [start_redis] returns at once: it has
    run the probe and printed one line, it has spawned nothing and the
    handle [redis_process] is what it was. *)
Theorem start_redis_idempotent (w : world) (s : state) :
  pending s <> Some 0 ->
  ping1 w = RunOk ->
  exists s',
    start_redis w s = (Ret tt, s')
    /\ trace s' = trace s ++ [EvRun redis_ping_cmd; EvPrint "Redis is already running"]
    /\ redis_process s' = redis_process s
    /\ List.filter is_spawn (trace s') = List.filter is_spawn (trace s).
Proof.
  intros Hsig Hping. destruct s as [m r e f x pd t]. cbn [pending] in Hsig.
  unfold start_redis. rewrite Hping.
  destruct pd as [[|n]|]; [done| |]; (eexists; split; [reflexivity|]);
    cbn [trace redis_process log set_pending]; rewrite <- app_assoc;
    (split; [done|]); (split; [done|]);
    rewrite List.filter_app; cbn; by rewrite app_nil_r.
Qed.

Lemma start_redis_idempotent_witness :
  exists s',
    start_redis world_live (init world_live) = (Ret tt, s')
    /\ trace s' = trace (init world_live)
                  ++ [EvRun redis_ping_cmd; EvPrint "Redis is already running"]
    /\ redis_process s' = redis_process (init world_live)
    /\ List.filter is_spawn (trace s') = List.filter is_spawn (trace (init world_live)).
Proof.
  apply start_redis_idempotent; [discriminate|reflexivity].
Defined.

(** *** Every event of every session *)

Lemma session_invariant (w : world) : Inv w (session_ok w) 1 (snd (session w)).
Proof.
  apply session_inv; try done.
  - intros cmd. left. by exists cmd.
  - right. by left.
  - right. by right.
Qed.

Lemma session_trace_ok (w : world) : Forall (session_ok w) (trace (snd (session w))).
Proof. apply (inv_trace _ _ _ _ (session_invariant w)). Qed.

Lemma session_event_ok (w : world) (e : event) :
  In e (trace (snd (session w))) -> session_ok w e.
Proof.
  intros Hin. pose proof (session_trace_ok w) as H.
  rewrite Forall_forall in H. apply H. by apply list_elem_of_In.
Qed.

(** *** C9: the allow-list *)

(** C9.  The allow-list handed to the client is the constant
    [allowed_tools]: whatever the prompt, the configuration path and the
    working directory, the argument after [--allowedTools] in the command
    line built by [run_claude_code] is that constant, so two invocations
    with different prompts or directories pass the same list; and in every
    session each launch of the client carries it. *)
Theorem allow_list_is_fixed :
  forall (prompt1 path1 prompt2 path2 : string) (wd1 wd2 : option string),
    allow_list_of (claude_cmd prompt1 path1 wd1) = Some allowed_tools
    /\ allow_list_of (claude_cmd prompt1 path1 wd1)
       = allow_list_of (claude_cmd prompt2 path2 wd2)
    /\ (forall w cmd cwd,
          In (EvLaunch cmd cwd) (trace (snd (session w))) ->
          allow_list_of cmd = Some allowed_tools).
Proof.
  intros. split; [reflexivity|]. split; [reflexivity|].
  intros w cmd cwd Hin. exact (session_event_ok w _ Hin).
Qed.

(** *** C10: the MCP handle is never set *)

(** C10.  [mcp_process] stays [None]: it is [None] when the interpreter
    exits, every entry into the body of [cleanup] finds it [None] (so the
    branch of lines 30-36 is never taken), and every process that is sent
    SIGTERM, waited for or killed is the one [start_redis] got from
    [Popen], which is also the only value [redis_process] ever has. *)
Theorem mcp_process_never_set (w : world) :
  mcp_process (snd (session w)) = None
  /\ (forall m r, In (EvCleanup m r) (trace (snd (session w))) ->
        m = None /\ (forall p, r = Some p -> popen_redis w = Some p))
  /\ (forall p, In (EvTerminate p) (trace (snd (session w)))
                \/ In (EvKill p) (trace (snd (session w)))
                \/ (exists t, In (EvWait p t) (trace (snd (session w)))) ->
        popen_redis w = Some p)
  /\ (forall cmd p, In (EvPopen cmd p) (trace (snd (session w))) ->
        cmd = redis_server_cmd).
Proof.
  split; [apply (inv_mcp _ _ _ _ (session_invariant w))|].
  split; [intros m r Hin; exact (session_event_ok w _ Hin)|].
  split.
  - intros p [Hin|[Hin|[t Hin]]].
    + exact (session_event_ok w _ Hin).
    + exact (session_event_ok w _ Hin).
    + exact (proj1 (session_event_ok w _ Hin)).
  - intros cmd p Hin. exact (proj1 (session_event_ok w _ Hin)).
Qed.

(** *** C1: how often the teardown body runs *)



(** *** C5: the service endpoint *)

(** It fails: [world_other_endpoint] sets the two variables to 10.0.0.5 and
    6380, and the service is still spawned on port 6379. *)
Lemma endpoint_override_ignored : ~ endpoint_follows_environment world_other_endpoint.
Proof.
  intros H. destruct (H "10.0.0.5" "6380") as [Hpopen _]; [reflexivity..|].
  specialize (Hpopen redis_server_cmd 42).
  assert (Hin : In (EvPopen redis_server_cmd 42)
                   (trace (snd (session world_other_endpoint)))).
  { vm_compute. do 14 right. by left. }
  specialize (Hpopen Hin). discriminate Hpopen.
Qed.

(** C5, amended.  The endpoint is not read from the environment: in every
    session, whatever the environment holds, the service is spawned with
    [--port 6379], every configuration file written names the host
    [localhost] and the port [6379], and the only commands run besides are
    the version probes, pip and the liveness probe [redis-cli ping], which
    names no host and no port. *)
Theorem endpoint_is_fixed (w : world) :
  (forall cmd p, In (EvPopen cmd p) (trace (snd (session w))) ->
     cmd = ["redis-server"; "--port"; "6379"])
  /\ (forall path c, In (EvCreate path c) (trace (snd (session w))) ->
        config_endpoint c = Some ("localhost", "6379"))
  /\ (forall cmd, In (EvRun cmd) (trace (snd (session w))) ->
        (exists c, cmd = [c; "--version"])
        \/ cmd = pip_cmd w
        \/ cmd = ["redis-cli"; "ping"]).
Proof.
  split; [|split].
  - intros cmd p Hin. exact (proj1 (session_event_ok w _ Hin)).
  - intros path c Hin. exact (proj2 (session_event_ok w _ Hin)).
  - intros cmd Hin. exact (session_event_ok w _ Hin).
Qed.

(** *** C8: graceful, then forced, termination *)

Lemma kill_not_in_graceful p p' b :
  p <> p' \/ b = false -> ~ In (EvKill p) (graceful_then_forced p' b).
Proof.
  unfold graceful_then_forced. intros Hc Hin. simpl in Hin.
  destruct Hin as [Hin|[Hin|Hin]]; [discriminate..|].
  destruct b; simpl in Hin; [|done].
  destruct Hin as [[= ->]|[]]. by destruct Hc.
Qed.

Lemma has_exited_mark p q s :
  has_exited p (mark_exited q s) = Nat.eqb p q || has_exited p s.
Proof. reflexivity. Qed.

Lemma has_exited_logs p l s : has_exited p (logs l s) = has_exited p s.
Proof.
  unfold has_exited. f_equal.
  revert s; induction l as [|e l IH]; intros s; simpl; [done|by rewrite IH].
Qed.

Lemma wait_times_out_mark w p q s l :
  p <> q ->
  wait_times_out w p (mark_exited q (logs l s)) = wait_times_out w p s.
Proof.
  intros Hne. unfold wait_times_out. rewrite has_exited_mark, has_exited_logs.
  by rewrite (proj2 (Nat.eqb_neq p q) Hne).
Qed.

Lemma wait_times_out_mark_same w p s l :
  wait_times_out w p (mark_exited p (logs l s)) = false.
Proof.
  unfold wait_times_out. rewrite has_exited_mark, Nat.eqb_refl. reflexivity.
Qed.

Lemma bind_gets {A B} (f : state -> A) (k : A -> M B) s : bind (gets f) k s = k (f s) s.
Proof. reflexivity. Qed.

(** The body of [cleanup] delivers no signal when it runs in the handler. *)
Lemma count_signal_cleanup (w : world) (s : state) :
  count_signal (trace (snd (cleanup_body w no_delivery s))) = count_signal (trace s).
Proof.
  rewrite cleanup_eq. unfold stop_handle.
  destruct (mcp_process s) as [q|], (redis_process s) as [p|];
    rewrite ?stop_process_eq; cbn [ret snd]; rewrite ?stop_process_eq; cbn [snd];
    state_simp; rewrite ?count_signal_app; unfold graceful_then_forced;
    repeat match goal with |- context [wait_times_out ?w ?p ?s] =>
             destruct (wait_times_out w p s) end;
    cbn; lia.
Qed.

(** A delivery point is passed, or the handler runs there and ends with
    [sys.exit(0)]. *)
Lemma checkpoint_outcome (w : world) (s : state) :
  (exists s', checkpoint w s = (Ret tt, s')
              /\ trace s' = trace s
              /\ mcp_process s' = mcp_process s
              /\ redis_process s' = redis_process s)
  \/ (exists s', checkpoint w s = (Raise (SystemExit 0), s')
                 /\ count_signal (trace s') = S (count_signal (trace s))).
Proof.
  unfold checkpoint. destruct (pending s) as [[|n]|].
  - right. unfold signal_handler. rewrite bind_print.
    set (s1 := log _ (log EvSignal _)).
    pose proof (count_signal_cleanup w s1) as Hc.
    destruct (cleanup_returns w s1) as [s2 Hs2]. rewrite Hs2 in Hc. cbn [snd] in Hc.
    rewrite (bind_Ret _ _ _ _ _ Hs2). exists s2. split; [done|].
    rewrite Hc. subst s1. state_simp. rewrite !count_signal_app. cbn. lia.
  - left. eexists. split; [reflexivity|]. by state_simp.
  - left. by eexists.
Qed.

(** The treatment of one handle by the exit hook ends by returning, or
    with the [SystemExit] of the handler when the signal arrives during
    its wait. *)
Lemma stop_process_outcome (w : world) msg p s :
  (exists s', stop_process w (checkpoint w) msg p s = (Ret tt, s')
              /\ count_signal (trace s') = count_signal (trace s)
              /\ mcp_process s' = mcp_process s
              /\ redis_process s' = redis_process s)
  \/ (exists s', stop_process w (checkpoint w) msg p s = (Raise (SystemExit 0), s')
                 /\ count_signal (trace s') = S (count_signal (trace s))).
Proof.
  unfold stop_process, proc_terminate, proc_wait. run. unfold try_except. run.
  set (sa := log (EvWait p 5) _).
  assert (Ha : count_signal (trace sa) = count_signal (trace s)
               /\ mcp_process sa = mcp_process s /\ redis_process sa = redis_process s).
  { subst sa. state_simp. rewrite !count_signal_app. cbn. split; [lia|done]. }
  destruct Ha as (Hca & Hma & Hra). clearbody sa.
  destruct (checkpoint_outcome w sa) as [(s1 & Hc & Ht & Hm & Hr)|(s1 & Hc & Hn)].
  - left. rewrite (bind_Ret _ _ _ _ _ Hc). unfold wait_result, proc_kill.
    destruct (has_exited p s1 || graceful w p); cbn [is_TimeoutExpired]; run;
      (eexists; split; [reflexivity|]); state_simp;
      rewrite ?count_signal_app, Ht, Hm, Hr, Hca; cbn; split_and!; try done; lia.
  - right. rewrite (bind_Raise _ _ _ _ _ Hc). cbn [is_TimeoutExpired].
    exists s1. split; [done|]. lia.
Qed.

(** [cleanup] as the exit hook runs it raises nothing of its own. *)
Lemma cleanup_outcome (w : world) (s : state) :
  (fst (cleanup w s) = Ret tt
   /\ count_signal (trace (snd (cleanup w s))) = count_signal (trace s))
  \/ (fst (cleanup w s) = Raise (SystemExit 0)
      /\ count_signal (trace (snd (cleanup w s))) = S (count_signal (trace s))).
Proof.
  unfold cleanup, cleanup_body. rewrite !bind_gets. run. rewrite bind_gets.
  set (s0 := log (EvCleanup _ _) s).
  assert (H0 : count_signal (trace s0) = count_signal (trace s)
               /\ mcp_process s0 = mcp_process s /\ redis_process s0 = redis_process s).
  { subst s0. state_simp. rewrite count_signal_app. cbn. split; [lia|done]. }
  destruct H0 as (Hc0 & Hm0 & Hr0). clearbody s0.
  assert (Hredis : forall s1,
            count_signal (trace s1) = count_signal (trace s) ->
            let m := (rp <- gets redis_process ;;
                      match rp with
                      | Some p => stop_process w (checkpoint w) "Stopping Redis..." p
                      | None => ret tt
                      end)%py in
            (fst (m s1) = Ret tt
             /\ count_signal (trace (snd (m s1))) = count_signal (trace s))
            \/ (fst (m s1) = Raise (SystemExit 0)
                /\ count_signal (trace (snd (m s1))) = S (count_signal (trace s)))).
  { intros s1 Hc1 m. subst m. rewrite bind_gets.
    destruct (redis_process s1) as [p|]; [|left; by split].
    destruct (stop_process_outcome w "Stopping Redis..." p s1)
      as [(s2 & -> & Hc2 & _)|(s2 & -> & Hc2)]; cbn [fst snd]; [left|right];
      split; [done|lia|done|lia]. }
  destruct (mcp_process s0) as [q|].
  - destruct (stop_process_outcome w "Stopping MCP server..." q s0)
      as [(s1 & Hs1 & Hc1 & _)|(s1 & Hs1 & Hc1)].
    + rewrite (bind_Ret _ _ _ _ _ Hs1). apply Hredis. lia.
    + rewrite (bind_Raise _ _ _ _ _ Hs1). right. cbn [fst snd]. split; [done|lia].
  - rewrite bind_ret. by apply Hredis.
Qed.

(** The second half of the claim of C8 fails: in
    [world_signal_in_exit_hook] the signal arrives while the exit hook
    waits for the service it has just sent SIGTERM; the handler runs
    inside [wait], and its [SystemExit] is not a [TimeoutExpired], so it
    leaves [cleanup]. *)
Lemma cleanup_raises_on_signal :
  fst (cleanup world_signal_in_exit_hook
         (snd (main world_signal_in_exit_hook (init world_signal_in_exit_hook))))
  = Raise (SystemExit 0)
  /\ ~ cleanup_never_raises world_signal_in_exit_hook.
Proof.
  assert (H : fst (cleanup world_signal_in_exit_hook
                     (snd (main world_signal_in_exit_hook
                             (init world_signal_in_exit_hook))))
              = Raise (SystemExit 0)) by (vm_compute; reflexivity).
  split; [exact H|]. intros Hnever.
  destruct (Hnever (snd (main world_signal_in_exit_hook (init world_signal_in_exit_hook))))
    as [s' Hs'].
  rewrite Hs' in H. discriminate H.
Qed.

(** A delivery point is passed, with at most the countdown changed, or
    the handler runs there. *)
Lemma checkpoint_deliver (w : world) (s : state) :
  (exists q, checkpoint w s = (Ret tt, set_pending q s))
  \/ fst (checkpoint w s) = Raise (SystemExit 0).
Proof.
  unfold checkpoint. destruct (pending s) as [[|n]|] eqn:Hp.
  - right. unfold signal_handler. rewrite bind_print.
    destruct (cleanup_returns w
                (log (EvPrint (nl +:+ "Received interrupt signal, cleaning up..."))
                   (log EvSignal (set_pending None s)))) as [s2 Hs2].
    by rewrite (bind_Ret _ _ _ _ _ Hs2).
  - left. by exists (Some n).
  - left. exists None. destruct s as [m r e f x pd t]. cbn [pending] in Hp. by subst pd.
Qed.

(** The countdown plays no part in the treatment of a handle. *)
Lemma stop_process_pending (w : world) msg p q s :
  stop_process w no_delivery msg p (set_pending q s)
  = (Ret tt, set_pending q (snd (stop_process w no_delivery msg p s))).
Proof.
  rewrite !stop_process_eq. cbn [snd]. unfold wait_times_out, graceful_then_forced.
  change (has_exited p (set_pending q s)) with (has_exited p s).
  by destruct (has_exited p s || graceful w p).
Qed.

(** The treatment of one handle by the exit hook: when no signal is
    delivered during its wait, it is the treatment the handler gives. *)
Lemma stop_process_deliver (w : world) msg p s :
  (exists q, stop_process w (checkpoint w) msg p s
             = (Ret tt, set_pending q (snd (stop_process w no_delivery msg p s))))
  \/ fst (stop_process w (checkpoint w) msg p s) = Raise (SystemExit 0).
Proof.
  rewrite stop_process_eq. cbn [snd].
  unfold stop_process, proc_terminate, proc_wait. run. unfold try_except. run.
  set (sa := log (EvWait p 5) _).
  destruct (checkpoint_deliver w sa) as [[q Hc]|Hc].
  - left. exists q. rewrite (bind_Ret _ _ _ _ _ Hc).
    unfold wait_result, proc_kill, wait_times_out, graceful_then_forced.
    change (has_exited p (set_pending q sa)) with (has_exited p s).
    by destruct (has_exited p s || graceful w p).
  - right. destruct (checkpoint w sa) as [r s1] eqn:Hck. cbn [fst] in Hc. subst r.
    by rewrite (bind_Raise _ _ _ _ _ Hck).
Qed.

Lemma stop_handle_pending (w : world) msg h q s :
  stop_handle w no_delivery msg h (set_pending q s)
  = (Ret tt, set_pending q (snd (stop_handle w no_delivery msg h s))).
Proof. destruct h as [p|]; cbn [stop_handle]; [apply stop_process_pending|done]. Qed.

Lemma stop_handle_deliver (w : world) msg h s :
  (exists q, stop_handle w (checkpoint w) msg h s
             = (Ret tt, set_pending q (snd (stop_handle w no_delivery msg h s))))
  \/ fst (stop_handle w (checkpoint w) msg h s) = Raise (SystemExit 0).
Proof.
  destruct h as [p|]; cbn [stop_handle]; [apply stop_process_deliver|].
  left. exists (pending s). by destruct s.
Qed.

(** [cleanup] as the exit hook runs it: when no signal is delivered during
    its waits, it does what the body does in the handler. *)
Lemma cleanup_deliver (w : world) (s : state) :
  (exists q, cleanup w s = (Ret tt, set_pending q (snd (cleanup_body w no_delivery s))))
  \/ fst (cleanup w s) = Raise (SystemExit 0).
Proof.
  rewrite cleanup_eq.
  assert (Hc : cleanup w s
               = match stop_handle w (checkpoint w) "Stopping MCP server..." (mcp_process s)
                         (log (EvCleanup (mcp_process s) (redis_process s)) s) with
                 | (Ret _, s1) =>
                     stop_handle w (checkpoint w) "Stopping Redis..." (redis_process s1) s1
                 | (Raise e, s1) => (Raise e, s1)
                 end).
  { unfold cleanup, cleanup_body, stop_handle, bind, gets, emit, modify.
    cbn [mcp_process redis_process log].
    by destruct (mcp_process s). }
  rewrite Hc. clear Hc.
  set (s0 := log (EvCleanup (mcp_process s) (redis_process s)) s).
  destruct (stop_handle_deliver w "Stopping MCP server..." (mcp_process s) s0)
    as [[q Hq]|Hq].
  - rewrite Hq.
    destruct (stop_handle_ret w "Stopping MCP server..." (mcp_process s) s0) as [s1 Hs1].
    assert (Hr1 : redis_process s1 = redis_process s).
    { revert Hs1. destruct (mcp_process s) as [m|]; cbn [stop_handle].
      - rewrite stop_process_eq. intros [= <-]. cbn [redis_process mark_exited].
        by rewrite redis_process_logs.
      - by intros [= <-]. }
    rewrite Hs1. cbn [snd].
    change (redis_process (set_pending q s1)) with (redis_process s1). rewrite Hr1.
    destruct (stop_handle_deliver w "Stopping Redis..." (redis_process s) (set_pending q s1))
      as [[q' Hq']|Hq']; [left|by right].
    exists q'. by rewrite Hq', stop_handle_pending.
  - right. destruct (stop_handle w (checkpoint w) _ _ _) as [r s1].
    cbn [fst] in Hq. by subst r.
Qed.

(** What the body of [cleanup] does to the handles it finds. *)
Lemma cleanup_body_treatment (w : world) (s : state) :
  exists s',
    cleanup_body w no_delivery s = (Ret tt, s')
    /\ forall p,
         mcp_process s = Some p \/ redis_process s = Some p ->
         exists pre post,
           trace s' = trace s ++ pre
                      ++ graceful_then_forced p (wait_times_out w p s) ++ post
           /\ (wait_times_out w p s = false -> ~ In (EvKill p) (pre ++ post)).
Proof.
  rewrite cleanup_eq.
  set (s0 := log (EvCleanup (mcp_process s) (redis_process s)) s).
  assert (Hw0 : forall p, wait_times_out w p s0 = wait_times_out w p s) by done.
  assert (Ht0 : trace s0 = trace s ++ [EvCleanup (mcp_process s) (redis_process s)])
    by done.
  destruct (mcp_process s) as [q|] eqn:Hm; destruct (redis_process s) as [r|] eqn:Hr;
    cbn [stop_handle ret].
  - rewrite !stop_process_eq. eexists; split; [reflexivity|].
    intros p Hp. state_simp. rewrite Ht0, Hw0.
    destruct (decide (p = q)) as [->|Hne].
    + exists [EvCleanup (Some q) (Some r); EvPrint "Stopping MCP server..."].
      eexists. split; [by rewrite <- !app_assoc|].
      intros Hw Hin.
      assert (Hk : ~ In (EvKill q) (graceful_then_forced r
                     (wait_times_out w r (mark_exited q
                        (logs (EvPrint "Stopping MCP server..."
                               :: graceful_then_forced q (wait_times_out w q s0)) s0))))).
      { apply kill_not_in_graceful.
        destruct (decide (q = r)) as [->|Hne]; [right|by left].
        apply wait_times_out_mark_same. }
      rewrite !in_app_iff in Hin. cbn [In] in Hin. rewrite Hw0 in Hk.
      intuition discriminate.
    + assert (p = r) as -> by (destruct Hp as [[=]|[=]]; congruence).
      rewrite wait_times_out_mark by done. rewrite Hw0.
      eexists ([EvCleanup (Some q) (Some r); EvPrint "Stopping MCP server..."]
               ++ graceful_then_forced q (wait_times_out w q s)
               ++ [EvPrint "Stopping Redis..."]), [].
      split; [rewrite app_nil_r; by rewrite <- !app_assoc|].
      intros Hw Hin.
      pose proof (kill_not_in_graceful r q (wait_times_out w q s) (or_introl Hne)) as Hk.
      rewrite !in_app_iff in Hin. cbn [In] in Hin. intuition discriminate.
  - rewrite stop_process_eq. eexists; split; [reflexivity|].
    intros p [[= <-]|[=]]. state_simp. rewrite Ht0, Hw0.
    exists [EvCleanup (Some q) None; EvPrint "Stopping MCP server..."], [].
    split; [rewrite app_nil_r; by rewrite <- !app_assoc|].
    intros Hw Hin. rewrite !in_app_iff in Hin. cbn [In] in Hin. intuition discriminate.
  - rewrite stop_process_eq. eexists; split; [reflexivity|].
    intros p [[=]|[= <-]]. state_simp. rewrite Ht0, Hw0.
    exists [EvCleanup None (Some r); EvPrint "Stopping Redis..."], [].
    split; [rewrite app_nil_r; by rewrite <- !app_assoc|].
    intros Hw Hin. rewrite !in_app_iff in Hin. cbn [In] in Hin. intuition discriminate.
  - eexists; split; [reflexivity|]. by intros p [[=]|[=]].
Qed.

(** C8, amended.  [cleanup] ends in one of two ways.  Either it returns,
    and then no signal was delivered during it and every handle it owned
    when it was called got this treatment: SIGTERM, a wait of up to 5
    seconds, and SIGKILL exactly when that wait ran out
    ([wait_times_out]); a process whose wait did not run out is not killed
    anywhere in the teardown.  Or a signal was delivered during one of
    its waits: the handler runs there and its [SystemExit(0)], which is
    not a [TimeoutExpired], leaves [cleanup].  No other exception leaves
    it, and with no signal pending it returns. *)
Theorem teardown_graceful_then_forced (w : world) (s : state) :
  ((exists s',
      cleanup w s = (Ret tt, s')
      /\ count_signal (trace s') = count_signal (trace s)
      /\ forall p,
           mcp_process s = Some p \/ redis_process s = Some p ->
           exists pre post,
             trace s' = trace s ++ pre
                        ++ graceful_then_forced p (wait_times_out w p s) ++ post
             /\ (wait_times_out w p s = false -> ~ In (EvKill p) (pre ++ post)))
   \/ (fst (cleanup w s) = Raise (SystemExit 0)
       /\ count_signal (trace (snd (cleanup w s))) = S (count_signal (trace s))))
  /\ (pending s = None -> fst (cleanup w s) = Ret tt).
Proof.
  split.
  - destruct (cleanup_outcome w s) as [[Hret Hcount]|Hraise]; [left|by right].
    destruct (cleanup_deliver w s) as [[q Hq]|Hq]; [|congruence].
    destruct (cleanup_body_treatment w s) as (s' & Hs' & Hp).
    rewrite Hq in Hcount. rewrite Hs' in Hq, Hcount. cbn [snd] in Hq, Hcount.
    exists (set_pending q s'). split; [done|]. split; [exact Hcount|exact Hp].
  - intros Hquiet. rewrite cleanup_quiet by done.
    by destruct (cleanup_returns w s) as [s' ->].
Qed.

(** A service that ignores SIGTERM is killed after the wait; one that
    exits in time is not. *)
Example teardown_escalates :
  trace (snd (cleanup world_no_service
                (set_redis_process (Some 42) (init world_no_service))))
  = [ EvCleanup None (Some 42); EvPrint "Stopping Redis...";
      EvTerminate 42; EvWait 42 5; EvKill 42 ].
Proof. reflexivity. Qed.

Example teardown_stays_graceful :
  trace (snd (cleanup world_spawn (set_redis_process (Some 42) (init world_spawn))))
  = [ EvCleanup None (Some 42); EvPrint "Stopping Redis...";
      EvTerminate 42; EvWait 42 5 ].
Proof. reflexivity. Qed.

(** *** Sessions that no signal interrupts *)

Lemma dependencies_present_iff (w : world) :
  dependencies_present w <-> all_dependencies_answer w.
Proof.
  unfold dependencies_present, all_dependencies_answer.
  cbn [probe_run required map fst In version_probes]. split.
  - intros Hm cmd Hin.
    destruct (probe w "claude") as [[]|] eqn:H1,
             (probe w "redis-server") as [[]|] eqn:H2,
             (probe w "python3") as [[]|] eqn:H3; try discriminate Hm.
    destruct Hin as [<-|[<-|[<-|[]]]]; assumption.
  - intros Hall.
    rewrite (Hall "claude"), (Hall "redis-server"), (Hall "python3"); auto.
Qed.

(** The way [main] ends when the setup succeeds and no signal arrives. *)
Lemma main_quiet w script prompt rest :
  interrupt w = None ->
  argv w = script :: prompt :: rest ->
  all_dependencies_answer w ->
  credential_present (environ0 w) ->
  install_succeeds w ->
  exists s2 c,
    main w (init w) = (launch_outcome w, s2)
    /\ mcp_process s2 = None
    /\ pending s2 = None
    /\ trace s2 = setup_prefix w (environ0 w) ++ start_redis_events w
                  ++ [EvPrint "Creating MCP configuration..."; EvCreate (tmp_name w) c]
                  ++ launch_prints prompt (match rest with d :: _ => d | [] => getcwd w end)
                                   (tmp_name w)
                  ++ launch_end w ++ [EvUnlink (tmp_name w)].
Proof.
  intros Hi Ha Hdeps Hcred Hpip. unfold main. rewrite Ha.
  destruct (main_setup_quiet w (init w)) as (s1 & c & Hs & Hp1 & Hm1 & Hf1 & Ht1);
    [done|by apply dependencies_present_iff|done..|].
  rewrite (bind_Ret _ _ _ _ _ Hs).
  destruct (main_launch_spec w prompt (match rest with d :: _ => d | [] => getcwd w end)
              (tmp_name w) s1 c)
    as (rb & sb & r & s2 & mid & fin & Hb & Hl & Ht2 & Hm2 & _ & _ & _ & Hok & _ & Hq);
    [by rewrite Hm1|done|].
  destruct (Hq Hp1) as (-> & -> & Hp2).
  assert (Hpb : pending sb <> Some 0).
  { destruct (main_try_body_spec w prompt (match rest with d :: _ => d | [] => getcwd w end)
                (tmp_name w) s1) as (rb' & sb' & mid' & Hb' & _ & _ & _ & _ & _ & _ & Hq');
      [by rewrite Hm1|].
    destruct (Hq' Hp1) as (_ & _ & Hn). rewrite Hb in Hb'. injection Hb' as _ <-.
    by rewrite Hn. }
  destruct (Hok Hpb) as (-> & -> & _).
  exists s2, c. split; [done|]. split; [done|]. split; [done|].
  rewrite Ht2, Ht1. cbn [init trace app]. by rewrite <- !app_assoc.
Qed.

(** *** C3: the exit code of the client *)

(** C3.  In a session that reaches the client launch (arguments given, all
    executables present, credential set, installation not failing), that no
    signal interrupts and in which the client returns [rc], the interpreter
    ends with exit code [rc]: through [sys.exit(rc)] when [rc] is not 0, by
    returning when it is.  For a code in the range of a process exit status
    the status seen by the parent is [rc] too. *)
Theorem client_exit_code_propagated (w : world) (script prompt : string)
    (rest : list string) (rc : Z) :
  interrupt w = None ->
  argv w = script :: prompt :: rest ->
  all_dependencies_answer w ->
  credential_present (environ0 w) ->
  install_succeeds w ->
  client w = ClientExit rc ->
  exit_code (fst (session w)) = rc
  /\ (fst (session w) = if (rc =? 0)%Z then Ret tt else Raise (SystemExit rc))
  /\ ((0 <= rc < 256)%Z -> process_status (fst (session w)) = rc).
Proof.
  intros Hi Ha Hdeps Hcred Hpip Hc. unfold session.
  destruct (main_quiet w script prompt rest) as (s2 & c & -> & _); [done..|].
  cbn [fst]. unfold process_status, launch_outcome. rewrite Hc.
  assert (He : exit_code (if (rc =? 0)%Z then Ret tt else Raise (SystemExit rc)) = rc).
  { destruct (Z.eqb_spec rc 0) as [->|]; reflexivity. }
  split; [exact He|]. split; [reflexivity|].
  intros Hr. rewrite He. change 255%Z with (Z.ones 8).
  rewrite Z.land_ones by lia. apply Z.mod_small. lia.
Qed.

Lemma client_exit_code_propagated_witness :
  exit_code (fst (session world_live)) = 3%Z
  /\ (fst (session world_live) = Raise (SystemExit 3))
  /\ ((0 <= 3 < 256)%Z -> process_status (fst (session world_live)) = 3%Z).
Proof.
  apply (client_exit_code_propagated world_live "run_claude_with_zen.py"
           "Review this code" ["/proj"] 3).
  - reflexivity.
  - reflexivity.
  - intros cmd _. reflexivity.
  - reflexivity.
  - intros _. reflexivity.
  - reflexivity.
Defined.

(** The scenario of the service already live and a client that returns 3:
    one warning about the optional keys, no service spawned, one
    configuration file created and removed, the teardown body run once, and
    exit code 3. *)
Example session_with_live_service :
  exit_code (fst (session world_live)) = 3%Z
  /\ List.filter is_spawn (trace (snd (session world_live)))
     = [ EvLaunch (claude_cmd "Review this code" "/tmp/tmpk3x9.json" (Some "/proj"))
                  (Some "/proj") ]
  /\ count_unlink "/tmp/tmpk3x9.json" (trace (snd (session world_live))) = 1
  /\ count_cleanup (trace (snd (session world_live))) = 1
  /\ files (snd (session world_live)) = ∅.
Proof. vm_compute. repeat split. Qed.

(** *** C7: a service that does not start *)

Lemma start_redis_events_degraded (w : world) :
  ping1 w <> RunOk ->
  popen_redis w = None \/ ping2 w <> RunOk ->
  exists pre, start_redis_events w = pre ++ [EvPrint degraded_warning].
Proof.
  intros H1 H2. unfold start_redis_events.
  destruct (ping1 w); [done|..]; destruct (popen_redis w) as [p|];
    try (by eexists [_; _; _]);
    (destruct (ping2 w); [by destruct H2|..]; by eexists [_; _; _; _; _; _]).
Qed.

(** C7.  In a session that no signal interrupts and whose setup does not
    fail otherwise, if the first liveness probe fails and then either the
    spawn fails or the probe after the wait still fails, the script prints
    the warning that some features may not work properly without Redis,
    goes on to write the configuration file and to launch the client, and
    ends the way the client launch ends. *)
Theorem service_start_failure_is_not_fatal (w : world) (script prompt : string)
    (rest : list string) :
  interrupt w = None ->
  argv w = script :: prompt :: rest ->
  all_dependencies_answer w ->
  credential_present (environ0 w) ->
  install_succeeds w ->
  ping1 w <> RunOk ->
  popen_redis w = None \/ ping2 w <> RunOk ->
  fst (session w) = launch_outcome w
  /\ exists t1 t2 t3 c cmd cwd,
       trace (snd (session w))
       = t1 ++ EvPrint "Some features may not work properly without Redis"
            :: t2 ++ EvCreate (tmp_name w) c :: t3
       /\ In (EvLaunch cmd cwd) t3.
Proof.
  intros Hi Ha Hdeps Hcred Hpip Hp1 Hp2. unfold session.
  destruct (main_quiet w script prompt rest) as (s2 & c & -> & Hm2 & Hq2 & Ht2); [done..|].
  cbn [fst snd]. split; [done|].
  destruct (cleanup_exit_quiet w s2 Hm2 Hq2) as (s3 & -> & Ht3 & _). cbn [snd].
  destruct (start_redis_events_degraded w Hp1 Hp2) as [pre Hpre].
  rewrite Ht3, Ht2, Hpre.
  exists (setup_prefix w (environ0 w) ++ pre),
         [EvPrint "Creating MCP configuration..."].
  eexists _, c, _, _. split.
  - rewrite <- !app_assoc. cbn [app]. reflexivity.
  - cbn [launch_prints app In]. do 6 right. left. reflexivity.
Qed.

Lemma service_start_failure_is_not_fatal_witness :
  fst (session world_no_service) = launch_outcome world_no_service
  /\ exists t1 t2 t3 c cmd cwd,
       trace (snd (session world_no_service))
       = t1 ++ EvPrint "Some features may not work properly without Redis"
            :: t2 ++ EvCreate (tmp_name world_no_service) c :: t3
       /\ In (EvLaunch cmd cwd) t3.
Proof.
  apply (service_start_failure_is_not_fatal world_no_service "run_claude_with_zen.py"
           "Review this code" ["/proj"]).
  - reflexivity.
  - reflexivity.
  - intros cmd _. reflexivity.
  - reflexivity.
  - intros _. reflexivity.
  - discriminate.
  - right. discriminate.
Defined.

(** *** C2: fatal setup errors *)

Lemma no_spawn_before (tr : list event) :
  forallb before_any_spawn tr = true -> List.filter is_spawn tr = [].
Proof.
  induction tr as [|e tr IH]; [done|]. cbn [forallb List.filter].
  intros [He Htr]%andb_prop. rewrite (IH Htr).
  destruct e as [| | | | | | | | | | | |[?|] [?|]]; try done.
Qed.

(** The probes are version probes, whatever they answer. *)
Lemma probe_run_events (w : world) l missing :
  forallb before_any_spawn (snd (probe_run w l missing)) = true
  \/ ~ (forall cd, In cd l -> In (fst cd) (map fst required)).
Proof.
  revert missing. induction l as [|[cmd desc] l IH]; intros missing; [by left|].
  destruct (decide (In cmd (map fst required))) as [Hin|Hout]; cycle 1.
  { right. intros H. apply Hout. apply (H (cmd, desc)). by left. }
  assert (Hv : is_version_probe [cmd; "--version"] = true).
  { cbn [is_version_probe]. apply andb_true_intro. split; [|done].
    apply existsb_exists. exists cmd. split; [done|apply String.eqb_refl]. }
  cbn [probe_run]. destruct (probe w cmd) as [r|].
  - destruct (IH (match r with RunOk => missing | _ => missing ++ ["- " +:+ desc] end))
      as [Hok|Hno].
    + left. cbn [snd forallb before_any_spawn]. by rewrite Hv, Hok.
    + right. intros H. apply Hno. intros cd Hcd. apply H. by right.
  - left. cbn [snd forallb before_any_spawn]. by rewrite Hv.
Qed.

Lemma probe_run_required_events (w : world) :
  forallb before_any_spawn (snd (probe_run w required [])) = true.
Proof.
  destruct (probe_run_events w required []) as [H|H]; [done|].
  exfalso. apply H. intros cd Hcd. by apply in_map.
Qed.

(** When an executable does not answer, the loop does not end with an
    empty list. *)
Lemma probe_run_missing (w : world) :
  (exists cmd, In cmd ["claude"; "redis-server"; "python3"] /\ probe w cmd <> Ran RunOk) ->
  fst (probe_run w required []) <> Ret [].
Proof.
  intros (cmd & Hin & Hne). cbn [probe_run required].
  destruct (probe w "claude") as [[]|] eqn:H1,
           (probe w "redis-server") as [[]|] eqn:H2,
           (probe w "python3") as [[]|] eqn:H3; cbn; try discriminate.
  destruct Hin as [<-|[<-|[<-|[]]]]; congruence.
Qed.

Lemma main_fatal (w : world) :
  interrupt w = None ->
  (exists cmd, In cmd ["claude"; "redis-server"; "python3"] /\ probe w cmd <> Ran RunOk)
  \/ truthy (environ0 w !! "ANTHROPIC_API_KEY") = false ->
  exists r s,
    main w (init w) = (r, s)
    /\ exit_code r = 1%Z
    /\ mcp_process s = None
    /\ redis_process s = None
    /\ forallb before_any_spawn (trace s) = true.
Proof.
  intros Hi Hmissing. unfold main.
  destruct (argv w) as [|script [|prompt rest]].
  1,2: unfold usage, sys_exit; run; eexists _, _; split; [reflexivity|]; by state_simp.
  unfold main_setup. run.
  set (s0 := log (EvPrint "Checking dependencies...") _).
  assert (H0 : pending s0 = None /\ mcp_process s0 = None /\ redis_process s0 = None
               /\ environ s0 = environ0 w
               /\ forallb before_any_spawn (trace s0) = true).
  { subst s0. state_simp. by cbn. }
  destruct H0 as (Hp0 & Hm0 & Hr0 & He0 & Ht0). clearbody s0.
  pose proof (check_dependencies_quiet w s0 Hp0) as Hcheck.
  pose proof (probe_run_required_events w) as Hev.
  destruct (fst (probe_run w required [])) as [[|m0 m]|e] eqn:Hdeps.
  - (* every executable answers: the credential is missing *)
    destruct Hmissing as [Hprobe|Hkey].
    { exfalso. by apply (probe_run_missing w Hprobe). }
    rewrite (bind_Ret _ _ _ _ _ Hcheck). run.
    erewrite bind_Raise; cycle 1.
    { apply setup_environment_missing_key. state_simp. by rewrite He0. }
    eexists _, _; split; [reflexivity|]. state_simp.
    split_and!; try done.
    rewrite !forallb_app, Ht0, Hev. reflexivity.
  - erewrite bind_Raise by exact Hcheck.
    eexists _, _; split; [reflexivity|]. state_simp.
    split_and!; try done.
    rewrite !forallb_app, Ht0, Hev. reflexivity.
  - (* a probe could not be executed *)
    erewrite bind_Raise by exact Hcheck.
    assert (He : e = OSError).
    { revert Hdeps. cbn [probe_run required].
      destruct (probe w "claude") as [[]|], (probe w "redis-server") as [[]|],
               (probe w "python3") as [[]|]; cbn; congruence. }
    subst e.
    eexists _, _; split; [reflexivity|]. state_simp.
    split_and!; try done.
    rewrite !forallb_app, Ht0, Hev. reflexivity.
Qed.

(** C2.  When a required executable does not answer its version probe
    (it is not found, exits with a non-zero status, or cannot be
    executed), or [ANTHROPIC_API_KEY] is unset or empty, a session that no
    signal interrupts ends with exit code 1 and has spawned no child
    process of its own: no service, no client.  The only commands it has
    run are [--version] probes of [check_dependencies], and the teardown
    finds no handle set. *)
Theorem fatal_setup_error_exits_1 (w : world) :
  interrupt w = None ->
  (exists cmd, In cmd ["claude"; "redis-server"; "python3"] /\ probe w cmd <> Ran RunOk)
  \/ truthy (environ0 w !! "ANTHROPIC_API_KEY") = false ->
  exit_code (fst (session w)) = 1%Z
  /\ List.filter is_spawn (trace (snd (session w))) = []
  /\ forallb before_any_spawn (trace (snd (session w))) = true
  /\ redis_process (snd (session w)) = None.
Proof.
  intros Hi Hmissing. unfold session.
  destruct (main_fatal w Hi Hmissing) as (r & s & -> & Hcode & Hm & Hr & Ht).
  rewrite (cleanup_idle w s Hm Hr). cbn [fst snd].
  assert (Hall : forallb before_any_spawn (trace (log (EvCleanup None None) s)) = true).
  { state_simp. by rewrite forallb_app, Ht. }
  split; [done|]. split; [by apply no_spawn_before|]. split; [done|]. by state_simp.
Qed.

Lemma fatal_setup_error_exits_1_witness :
  exit_code (fst (session world_no_key)) = 1%Z
  /\ List.filter is_spawn (trace (snd (session world_no_key))) = []
  /\ forallb before_any_spawn (trace (snd (session world_no_key))) = true
  /\ redis_process (snd (session world_no_key)) = None.
Proof.
  apply (fatal_setup_error_exits_1 world_no_key).
  - reflexivity.
  - right. reflexivity.
Defined.

(** *** C4: the configuration file *)


Lemma signal_handler_raises w s : fst (signal_handler w s) = Raise (SystemExit 0).
Proof.
  unfold signal_handler. rewrite bind_print.
  destruct (cleanup_returns w (log (EvPrint (nl +:+ "Received interrupt signal, cleaning up...")) s))
    as [s' Hc].
  by rewrite (bind_Ret _ _ _ _ _ Hc).
Qed.





(** The same happens when the [try] statement was entered and the signal
    is delivered in the [finally] clause, before the file is removed: the
    client has run and returned, the handler exits the interpreter from
    within the clause, and the file stays. *)
Example config_file_left_in_finally :
  let s := snd (session world_signal_in_finally) in
  fst (main_setup world_signal_in_finally (init world_signal_in_finally))
  = Ret "/tmp/tmpk3x9.json"
  /\ In (EvLaunchDone (Some 0%Z)) (trace s)
  /\ count_unlink "/tmp/tmpk3x9.json" (trace s) = 0
  /\ is_Some (files s !! "/tmp/tmpk3x9.json")
  /\ fst (session world_signal_in_finally) = Raise (SystemExit 0).
Proof.
  cbv zeta. split_and!.
  - vm_compute. reflexivity.
  - vm_compute. do 27 right. left. reflexivity.
  - vm_compute. reflexivity.
  - vm_compute. eexists. reflexivity.
  - vm_compute. reflexivity.
Qed.



(** ** Further properties of the script *)

(** *** main without a prompt *)

(** X1.  Without a prompt on the command line (fewer than two entries in
    [sys.argv]) the session prints the five lines of the usage text and
    ends with exit code 1.  Nothing else happens, whatever the environment
    holds: no command is run, no file is written, the environment is not
    changed, and the teardown of the exit hook finds no handle. *)
Theorem missing_prompt_prints_usage (w : world) :
  length (argv w) < 2 ->
  exists lines,
    fst (session w) = Raise (SystemExit 1)
    /\ length lines = 5
    /\ trace (snd (session w)) = map EvPrint lines ++ [EvCleanup None None]
    /\ head lines
       = Some "Usage: python run_claude_with_zen.py <prompt> [working_directory]"
    /\ environ (snd (session w)) = environ0 w
    /\ files (snd (session w)) = ∅.
Proof.
  intros Hlen. unfold session, main.
  destruct (argv w) as [|script [|prompt rest]]; [| |simpl in Hlen; lia];
    eexists [_; _; _; _; _]; repeat split.
Qed.

Lemma missing_prompt_prints_usage_witness :
  exists lines,
    fst (session world_no_prompt) = Raise (SystemExit 1)
    /\ length lines = 5
    /\ trace (snd (session world_no_prompt)) = map EvPrint lines ++ [EvCleanup None None]
    /\ head lines
       = Some "Usage: python run_claude_with_zen.py <prompt> [working_directory]"
    /\ environ (snd (session world_no_prompt)) = environ0 world_no_prompt
    /\ files (snd (session world_no_prompt)) = ∅.
Proof.
  apply (missing_prompt_prints_usage world_no_prompt). simpl. lia.
Defined.

(** *** check_dependencies *)

Lemma probe_run_lines (w : world) (l : list (string * string)) (missing : list string) :
  probe_run w l missing
  = ((if some_denied w l then Raise OSError else Ret (missing ++ missing_lines w l)),
     version_probes (probed w l)).
Proof.
  revert missing. induction l as [|[cmd desc] l IH]; intros missing.
  - cbn. by rewrite app_nil_r.
  - cbn [probe_run probed some_denied existsb fst version_probes map].
    unfold missing_lines, probe_ok. cbn [List.filter fst].
    destruct (probe w cmd) as [r|]; [|reflexivity].
    rewrite IH. cbn [fst snd orb]. fold (some_denied w l).
    destruct (some_denied w l); [reflexivity|].
    destruct r; cbn [negb map snd]; unfold missing_lines, probe_ok;
      by rewrite <- ?app_assoc.
Qed.

(** X2.  [check_dependencies], when no signal is pending: the executables
    are probed with [--version] in the order of the dictionary, also after
    one of them has failed; an executable counts as missing when its probe
    exits with a non-zero status as well as when it cannot be found.  A
    probe that cannot be executed for another reason (a file without
    execute permission) ends the function with the error of that probe:
    the executables after it are not probed and nothing is reported.
    Otherwise all three are probed, the report lists one line for each
    missing executable in that order, and the function leaves through
    [sys.exit(1)] exactly when the list is not empty. *)
Theorem check_dependencies_reports_every_missing (w : world) (s : state) :
  pending s = None ->
  exists s',
    check_dependencies w s
    = ((if some_denied w required then Raise OSError
        else match missing_lines w required with
             | [] => Ret tt
             | _ => Raise (SystemExit 1)
             end), s')
    /\ trace s' = trace s
                  ++ version_probes (probed w required)
                  ++ (if some_denied w required then []
                      else match missing_lines w required with
                           | [] => []
                           | m => [EvPrint "Missing dependencies:"; EvPrint (join nl m)]
                           end)
    /\ (some_denied w required = false ->
        version_probes (probed w required)
        = [ EvRun ["claude"; "--version"];
            EvRun ["redis-server"; "--version"];
            EvRun ["python3"; "--version"] ]).
Proof.
  intros Hp. rewrite check_dependencies_quiet by done.
  rewrite probe_run_lines. cbn [fst snd app].
  destruct (some_denied w required) eqn:Hd.
  - eexists; split; [reflexivity|]. state_simp. by rewrite app_nil_r.
  - assert (Hall : probed w required = required).
    { revert Hd. cbn [some_denied required existsb probed fst].
      by destruct (probe w "claude"), (probe w "redis-server"), (probe w "python3"). }
    destruct (missing_lines w required) as [|m0 m]; (eexists; split; [reflexivity|]);
      state_simp; rewrite Hall; cbn [version_probes required map fst];
      by rewrite <- ?app_assoc, ?app_nil_r.
Qed.

Lemma check_dependencies_reports_every_missing_witness :
  exists s',
    check_dependencies world_no_redis_server (init world_no_redis_server)
    = ((if some_denied world_no_redis_server required then Raise OSError
        else match missing_lines world_no_redis_server required with
             | [] => Ret tt
             | _ => Raise (SystemExit 1)
             end), s')
    /\ trace s' = trace (init world_no_redis_server)
                  ++ version_probes (probed world_no_redis_server required)
                  ++ (if some_denied world_no_redis_server required then []
                      else match missing_lines world_no_redis_server required with
                           | [] => []
                           | m => [EvPrint "Missing dependencies:"; EvPrint (join nl m)]
                           end)
    /\ (some_denied world_no_redis_server required = false ->
        version_probes (probed world_no_redis_server required)
        = [ EvRun ["claude"; "--version"];
            EvRun ["redis-server"; "--version"];
            EvRun ["python3"; "--version"] ]).
Proof.
  apply (check_dependencies_reports_every_missing world_no_redis_server). reflexivity.
Defined.

(** What the report is in [world_no_redis_server]. *)
Example missing_redis_server_report :
  missing_lines world_no_redis_server required
  = ["- Redis server (apt-get install redis-server or brew install redis)"]
  /\ fst (session world_no_redis_server) = Raise (SystemExit 1).
Proof. split; reflexivity. Qed.

(** In [world_claude_denied] the first probe cannot be executed: the
    error leaves [check_dependencies] and [main], the other two
    executables are not probed although [redis-server] is missing, no
    report is printed, and the interpreter exits with status 1. *)
Example denied_probe_ends_the_check :
  fst (session world_claude_denied) = Raise OSError
  /\ exit_code (fst (session world_claude_denied)) = 1%Z
  /\ trace (snd (session world_claude_denied))
     = [ EvPrint "=== Claude Code with Zen MCP Server ===";
         EvPrint "";
         EvPrint "Checking dependencies...";
         EvRun ["claude"; "--version"];
         EvCleanup None None ].
Proof. split_and!; reflexivity. Qed.

(** *** setup_environment *)

Lemma setup_environment_eq (w : world) (s : state) :
  truthy (environ s !! "ANTHROPIC_API_KEY") = true ->
  setup_environment w s
  = (Ret [ ("anthropic", environ s !! "ANTHROPIC_API_KEY");
           ("gemini", environ s !! "GEMINI_API_KEY");
           ("openai", environ s !! "OPENAI_API_KEY");
           ("openrouter", environ s !! "OPENROUTER_API_KEY");
           ("workspace", Some (resolved_workspace w (environ s))) ],
     set_environ (<["WORKSPACE_ROOT" := resolved_workspace w (environ s)]> (environ s))
                 (logs (optional_keys_warning (environ s)) s)).
Proof.
  intros Hk. unfold setup_environment, bind at 1. unfold getenv, gets.
  unfold bind at 1. rewrite Hk. cbn [ret]. unfold bind at 1, bind at 1, bind at 1.
  unfold bind at 1. unfold optional_keys_warning.
  destruct (truthy (environ s !! "GEMINI_API_KEY") || truthy (environ s !! "OPENAI_API_KEY")
            || truthy (environ s !! "OPENROUTER_API_KEY")); reflexivity.
Qed.

(** X3.  [setup_environment] with the credential present: it returns, and
    afterwards [WORKSPACE_ROOT] is set in [os.environ], to the value it had
    (an empty string included) or to the home directory when it was unset;
    no other variable is changed; the bundle it returns carries that
    value; and calling it again changes nothing: the same bundle, the same
    environment. *)
Theorem setup_environment_exports_workspace (w : world) (s : state) :
  credential_present (environ s) ->
  exists bundle s',
    setup_environment w s = (Ret bundle, s')
    /\ environ s' !! "WORKSPACE_ROOT"
       = Some (match environ s !! "WORKSPACE_ROOT" with
               | Some v => v
               | None => home w
               end)
    /\ (forall k, k <> "WORKSPACE_ROOT" -> environ s' !! k = environ s !! k)
    /\ In ("workspace", environ s' !! "WORKSPACE_ROOT") bundle
    /\ exists s'', setup_environment w s' = (Ret bundle, s'')
                   /\ environ s'' = environ s'.
Proof.
  intros Hk. unfold credential_present in Hk.
  rewrite (setup_environment_eq w s Hk). eexists _, _. split; [reflexivity|].
  state_simp. rewrite lookup_insert_eq.
  split; [done|]. split; [by intros k Hne; rewrite lookup_insert_ne|].
  split; [cbn [In]; auto 10|].
  set (m' := <["WORKSPACE_ROOT" := _]> _).
  set (s' := set_environ _ _).
  assert (He : environ s' = m') by done.
  assert (Hk' : truthy (environ s' !! "ANTHROPIC_API_KEY") = true).
  { rewrite He. subst m'. by rewrite lookup_insert_ne. }
  rewrite (setup_environment_eq w s' Hk'). eexists. split.
  - f_equal. rewrite He. subst m'. unfold resolved_workspace.
    rewrite lookup_insert_eq, !lookup_insert_ne by done. reflexivity.
  - state_simp. rewrite He. subst m'. unfold resolved_workspace.
    rewrite lookup_insert_eq. cbn [default]. apply insert_insert_eq.
Qed.

Lemma setup_environment_exports_workspace_witness :
  exists bundle s',
    setup_environment world_live (init world_live) = (Ret bundle, s')
    /\ environ s' !! "WORKSPACE_ROOT"
       = Some (match environ (init world_live) !! "WORKSPACE_ROOT" with
               | Some v => v
               | None => home world_live
               end)
    /\ (forall k, k <> "WORKSPACE_ROOT" ->
          environ s' !! k = environ (init world_live) !! k)
    /\ In ("workspace", environ s' !! "WORKSPACE_ROOT") bundle
    /\ exists s'', setup_environment world_live s' = (Ret bundle, s'')
                   /\ environ s'' = environ s'.
Proof.
  apply (setup_environment_exports_workspace world_live). reflexivity.
Defined.

(** *** Sessions without a signal, with the whole state *)

Lemma exited_logs l s : exited (logs l s) = exited s.
Proof. revert s; induction l as [|e l IH]; intros s; simpl; [done|by rewrite IH]. Qed.

(** [main_setup] when nothing is missing and no signal is pending: the
    state it leaves. *)
Lemma main_setup_quiet_state (w : world) (s : state) :
  pending s = None ->
  dependencies_present w -> credential_present (environ s) -> install_succeeds w ->
  exists s1,
    main_setup w s = (Ret (tmp_name w), s1)
    /\ pending s1 = None
    /\ mcp_process s1 = mcp_process s
    /\ redis_process s1 = start_redis_handle w (redis_process s)
    /\ exited s1 = exited s
    /\ environ s1 = <["WORKSPACE_ROOT" := resolved_workspace w (environ s)]> (environ s)
    /\ files s1 = <[tmp_name w := config_from_environment w (environ s)]> (files s)
    /\ trace s1 = trace s ++ setup_prefix w (environ s) ++ start_redis_events w
                  ++ [ EvPrint "Creating MCP configuration...";
                       EvCreate (tmp_name w) (config_from_environment w (environ s)) ].
Proof.
  intros Hp Hdeps Hcred Hpip. unfold main_setup.
  rewrite !bind_print.
  erewrite bind_Ret by (by apply check_dependencies_present).
  rewrite bind_print.
  set (s2 := log (EvPrint "Setting up environment...") _).
  assert (H2 : pending s2 = None /\ mcp_process s2 = mcp_process s
               /\ redis_process s2 = redis_process s /\ exited s2 = exited s
               /\ environ s2 = environ s /\ files s2 = files s
               /\ trace s2 = trace s
                    ++ [ EvPrint "=== Claude Code with Zen MCP Server ==="; EvPrint "";
                         EvPrint "Checking dependencies..." ]
                    ++ version_probes required ++ [EvPrint "Setting up environment..."]).
  { subst s2. state_simp. cbn [log exited]. rewrite exited_logs.
    rewrite <- !app_assoc. done. }
  destruct H2 as (Hp2 & Hm2 & Hr2 & Hx2 & He2 & Hf2 & Ht2). clearbody s2.
  erewrite bind_Ret by (apply setup_environment_eq; by rewrite He2).
  set (s3 := set_environ _ _).
  assert (H3 : pending s3 = None /\ mcp_process s3 = mcp_process s
               /\ redis_process s3 = redis_process s /\ exited s3 = exited s
               /\ environ s3
                  = <["WORKSPACE_ROOT" := resolved_workspace w (environ s)]> (environ s)
               /\ files s3 = files s
               /\ trace s3 = trace s2 ++ optional_keys_warning (environ s)).
  { subst s3. state_simp. cbn [set_environ exited]. rewrite exited_logs.
    by rewrite He2. }
  destruct H3 as (Hp3 & Hm3 & Hr3 & Hx3 & He3 & Hf3 & Ht3). clearbody s3.
  erewrite bind_Ret; cycle 1.
  { rewrite install_dependencies_quiet by done.
    unfold install_succeeds in Hpip.
    destruct (requirements_exists w); [by rewrite Hpip|done]. }
  erewrite bind_Ret; cycle 1.
  { apply start_redis_quiet_frame. by state_simp. }
  rewrite bind_print.
  set (s5 := log (EvPrint "Creating MCP configuration...") _).
  assert (H5 : pending s5 = None /\ mcp_process s5 = mcp_process s
               /\ redis_process s5 = start_redis_handle w (redis_process s)
               /\ exited s5 = exited s
               /\ environ s5
                  = <["WORKSPACE_ROOT" := resolved_workspace w (environ s)]> (environ s)
               /\ files s5 = files s
               /\ trace s5 = trace s3 ++ install_events w ++ start_redis_events w
                             ++ [EvPrint "Creating MCP configuration..."]).
  { subst s5. state_simp. cbn [log set_redis_process exited]. rewrite !exited_logs.
    rewrite Hr3. by rewrite <- !app_assoc. }
  destruct H5 as (Hp5 & Hm5 & Hr5 & Hx5 & He5 & Hf5 & Ht5). clearbody s5.
  erewrite bind_Ret by apply create_mcp_config_eq.
  erewrite bind_Ret by (apply checkpoint_quiet; by state_simp).
  assert (Hc : config_of w (script_dir w) s5 = config_from_environment w (environ s)).
  { unfold config_of, config_from_environment. rewrite He5.
    rewrite lookup_insert_eq, !lookup_insert_ne by done. reflexivity. }
  rewrite Hc.
  eexists. split; [reflexivity|].
  state_simp. cbn [log set_files exited].
  split_and!; try done.
  - by rewrite Hf5.
  - rewrite Ht5, Ht3, Ht2. unfold setup_prefix. by rewrite <- !app_assoc.
Qed.

(** The [try ... finally] of [main] when no signal is pending. *)
Lemma main_launch_quiet (w : world) (prompt working_dir path : string) (s : state)
    (c : mcp_config) :
  pending s = None ->
  files s !! path = Some c ->
  main_launch w prompt working_dir path s
  = (launch_outcome w,
     unlinked path (logs (launch_prints prompt working_dir path ++ launch_end w) s)).
Proof.
  intros Hp Hf. unfold main_launch, try_finally.
  assert (Hb : main_try_body w prompt working_dir path s
               = (launch_outcome w,
                  logs (launch_prints prompt working_dir path ++ launch_end w) s)).
  { rewrite logs_app.
    unfold main_try_body, run_claude_code, subprocess_run_client,
      launch_outcome, launch_end.
    run. destruct (client w) as [rc|].
    - run. erewrite bind_Ret; cycle 1.
      { apply try_except_Ret. apply checkpoint_quiet. by state_simp. }
      run. destruct (rc =? 0)%Z; [reflexivity|]. run. reflexivity.
    - run. reflexivity. }
  rewrite Hb.
  rewrite (remove_config_present w path _ c) by (by rewrite ?pending_logs, ?files_logs).
  reflexivity.
Qed.

(** A whole session without a signal whose setup succeeds. *)
Lemma session_quiet (w : world) (script prompt : string) (rest : list string) :
  interrupt w = None ->
  argv w = script :: prompt :: rest ->
  all_dependencies_answer w ->
  credential_present (environ0 w) ->
  install_succeeds w ->
  exists s,
    session w = (launch_outcome w, s)
    /\ trace s = quiet_trace w prompt
    /\ files s = ∅
    /\ redis_process s = spawned_service w.
Proof.
  intros Hi Ha Hdeps Hcred Hpip. unfold session, main. rewrite Ha.
  destruct (main_setup_quiet_state w (init w))
    as (s1 & Hs & Hp1 & Hm1 & Hr1 & Hx1 & He1 & Hf1 & Ht1);
    [done|by apply dependencies_present_iff|done..|].
  rewrite (bind_Ret _ _ _ _ _ Hs).
  set (wd := match rest with d :: _ => d | [] => getcwd w end).
  assert (Hwd : wd = working_dir_of w).
  { unfold working_dir_of. rewrite Ha. by destruct rest. }
  erewrite main_launch_quiet; [|done|by rewrite Hf1, lookup_insert_eq].
  set (s2 := unlinked _ _).
  assert (H2 : mcp_process s2 = None
               /\ pending s2 = None
               /\ redis_process s2 = spawned_service w
               /\ exited s2 = []
               /\ files s2 = ∅
               /\ trace s2 = trace s1 ++ launch_prints prompt wd (tmp_name w)
                             ++ launch_end w ++ [EvUnlink (tmp_name w)]).
  { subst s2. unfold unlinked. state_simp. cbn [log set_files exited].
    rewrite exited_logs, Hm1, Hr1, Hx1, Hf1.
    split_and!; try done.
    - rewrite delete_insert_eq. apply delete_empty.
    - by rewrite <- !app_assoc. }
  destruct H2 as (Hm2 & Hq2 & Hr2 & Hx2 & Hf2 & Ht2). clearbody s2.
  destruct (cleanup_exit_quiet w s2 Hm2 Hq2) as (s3 & -> & Ht3 & Hf3 & _ & Hr3 & _).
  exists s3. cbn [snd]. split; [done|]. split; [|split; congruence].
  rewrite Ht3, Ht2, Ht1. unfold quiet_trace, redis_teardown, exit_teardown.
  rewrite Hr2, <- Hwd. cbn [init trace app].
  assert (Hw : forall p, wait_times_out w p s2 = negb (graceful w p)).
  { intros p. unfold wait_times_out, has_exited. by rewrite Hx2. }
  destruct (spawned_service w) as [p|]; [rewrite Hw|]; by rewrite <- !app_assoc.
Qed.

(** Reading such a trace through an event class. *)
Section Skeleton.

Context (w : world) (f : event -> bool).
Hypothesis Hf : skips_noise f.

Lemma skips_print l : f (EvPrint l) = false.
Proof using Hf. apply (Hf (EvPrint l)). Qed.

Lemma skips_run c : f (EvRun c) = false.
Proof using Hf. apply (Hf (EvRun c)). Qed.

Lemma filter_setup_prefix m : List.filter f (setup_prefix w m) = [].
Proof using Hf.
  unfold setup_prefix, optional_keys_warning, install_events.
  rewrite !List.filter_app. cbn [List.filter version_probes map required fst].
  rewrite !skips_print, !skips_run.
  destruct (_ || _), (requirements_exists w); cbn [List.filter];
    rewrite ?skips_print, ?skips_run; reflexivity.
Qed.

Lemma filter_start_redis_events :
  List.filter f (start_redis_events w) = List.filter f (service_spawn w).
Proof using Hf.
  unfold start_redis_events, service_spawn, spawned_service, start_redis_handle.
  pose proof (Hf (EvSleep 2)) as Hs. cbn in Hs.
  destruct (ping1 w), (popen_redis w), (ping2 w); cbn [List.filter];
    rewrite ?skips_print, ?skips_run, ?Hs; cbn [List.filter]; rewrite ?skips_print; reflexivity.
Qed.

Lemma filter_launch_end : List.filter f (launch_end w) = [].
Proof using Hf.
  unfold launch_end. destruct (client w) as [rc|]; cbn [List.filter].
  - rewrite (Hf (EvLaunchDone (Some rc))).
    destruct (rc =? 0)%Z; cbn [List.filter]; rewrite ?skips_print; reflexivity.
  - by rewrite (Hf (EvLaunchDone None)).
Qed.

Lemma filter_exit_teardown :
  List.filter f (exit_teardown w) = List.filter f (service_stop w).
Proof using Hf.
  unfold exit_teardown, service_stop. cbn [List.filter].
  rewrite (Hf (EvCleanup None (spawned_service w))).
  destruct (spawned_service w); cbn [List.filter]; rewrite ?skips_print; reflexivity.
Qed.

Lemma filter_quiet_trace prompt :
  List.filter f (quiet_trace w prompt) = List.filter f (quiet_skeleton w prompt).
Proof using Hf.
  unfold quiet_trace, quiet_skeleton, launch_prints.
  rewrite !List.filter_app, filter_setup_prefix, filter_start_redis_events,
    filter_launch_end, filter_exit_teardown.
  cbn [List.filter app]. rewrite !skips_print, (Hf (EvUnlink (tmp_name w))).
  destruct (f (EvCreate _ _)), (f (EvLaunch _ _)); reflexivity.
Qed.

End Skeleton.

Lemma filter_none {A} (f : A -> bool) (l : list A) :
  (forall a, In a l -> f a = false) -> List.filter f l = [].
Proof.
  induction l as [|a l IH]; [done|]. intros H. cbn [List.filter].
  rewrite (H a) by (by left). apply IH. intros b Hb. apply H. by right.
Qed.

(** *** The configuration file of a session *)

(** X4.  In a session whose setup succeeds and that no signal interrupts,
    exactly one file is written: the temporary file, and its content is
    fixed by the environment the session started in.  The zen server is to
    be run with [sys.executable] on [server.py] next to the script; the
    three optional keys are passed as found, an unset one as the empty
    string; [WORKSPACE_ROOT] is the value exported by [setup_environment],
    so the home directory when it was unset; the mandatory credential
    [ANTHROPIC_API_KEY] is not written to the file. *)
Theorem config_file_content (w : world) (script prompt : string) (rest : list string) :
  interrupt w = None ->
  argv w = script :: prompt :: rest ->
  all_dependencies_answer w ->
  credential_present (environ0 w) ->
  install_succeeds w ->
  List.filter is_create (trace (snd (session w)))
  = [ EvCreate (tmp_name w)
        [ ("zen",
           ServerEntry (sys_executable w) [script_dir w +:+ "/server.py"]
             [ ("GEMINI_API_KEY", default "" (environ0 w !! "GEMINI_API_KEY"));
               ("OPENAI_API_KEY", default "" (environ0 w !! "OPENAI_API_KEY"));
               ("OPENROUTER_API_KEY", default "" (environ0 w !! "OPENROUTER_API_KEY"));
               ("WORKSPACE_ROOT", default (home w) (environ0 w !! "WORKSPACE_ROOT"));
               ("REDIS_HOST", "localhost");
               ("REDIS_PORT", "6379") ]) ] ]
  /\ forall path c, In (EvCreate path c) (trace (snd (session w))) ->
       forall name entry, In (name, entry) c ->
         assoc "ANTHROPIC_API_KEY" (env entry) = None.
Proof.
  intros Hi Ha Hdeps Hcred Hpip.
  destruct (session_quiet w script prompt rest) as (s & -> & Ht & _); [done..|].
  cbn [snd]. rewrite Ht.
  assert (Hfil : List.filter is_create (quiet_trace w prompt)
                 = [EvCreate (tmp_name w) (config_from_environment w (environ0 w))]).
  { rewrite filter_quiet_trace by (by intros []).
    unfold quiet_skeleton, service_spawn, service_stop, graceful_then_forced.
    rewrite !List.filter_app.
    destruct (spawned_service w) as [p|]; [destruct (negb (graceful w p))|];
      reflexivity. }
  split; [exact Hfil|].
  intros path c Hin name entry Hentry.
  assert (Hin' : In (EvCreate path c) (List.filter is_create (quiet_trace w prompt))).
  { apply filter_In. by split. }
  rewrite Hfil in Hin'. destruct Hin' as [[= <- <-]|[]].
  destruct Hentry as [[= <- <-]|[]]. reflexivity.
Qed.

Lemma config_file_content_witness :
  List.filter is_create (trace (snd (session world_spawn)))
  = [ EvCreate (tmp_name world_spawn)
        [ ("zen",
           ServerEntry (sys_executable world_spawn) [script_dir world_spawn +:+ "/server.py"]
             [ ("GEMINI_API_KEY", default "" (environ0 world_spawn !! "GEMINI_API_KEY"));
               ("OPENAI_API_KEY", default "" (environ0 world_spawn !! "OPENAI_API_KEY"));
               ("OPENROUTER_API_KEY",
                default "" (environ0 world_spawn !! "OPENROUTER_API_KEY"));
               ("WORKSPACE_ROOT",
                default (home world_spawn) (environ0 world_spawn !! "WORKSPACE_ROOT"));
               ("REDIS_HOST", "localhost");
               ("REDIS_PORT", "6379") ]) ] ]
  /\ forall path c, In (EvCreate path c) (trace (snd (session world_spawn))) ->
       forall name entry, In (name, entry) c ->
         assoc "ANTHROPIC_API_KEY" (env entry) = None.
Proof.
  apply (config_file_content world_spawn "run_claude_with_zen.py"
           "Review this code" ["/proj"]).
  - reflexivity.
  - reflexivity.
  - intros cmd _. reflexivity.
  - reflexivity.
  - intros _. reflexivity.
Defined.

(** *** The children of a session *)

(** X5.  The child processes of a session whose setup succeeds and that no
    signal interrupts are, in this order: the service, when the first
    liveness probe failed and [Popen] succeeded, and then the client,
    once.  The client gets the prompt as the one argument after [-p] and
    the configuration file just written after [--mcp-config]; its working
    directory is the second command-line argument, or the current
    directory of the script when there is none, and it is passed both as
    [--cwd] and as the directory the child is started in (an empty
    directory name is passed as [cwd] only). *)
Theorem children_of_a_session (w : world) (script prompt : string) (rest : list string) :
  interrupt w = None ->
  argv w = script :: prompt :: rest ->
  all_dependencies_answer w ->
  credential_present (environ0 w) ->
  install_succeeds w ->
  let wd := match rest with d :: _ => d | [] => getcwd w end in
  List.filter is_spawn (trace (snd (session w)))
  = match ping1 w, popen_redis w with
    | RunOk, _ | _, None => []
    | _, Some p => [EvPopen ["redis-server"; "--port"; "6379"] p]
    end
    ++ [ EvLaunch ([ "claude"; "-p"; prompt; "--mcp-config"; tmp_name w;
                     "--allowedTools"; allowed_tools ]
                   ++ match wd with
                      | "" => []
                      | _ => ["--cwd"; wd]
                      end)
                  (Some wd) ].
Proof.
  intros Hi Ha Hdeps Hcred Hpip wd.
  destruct (session_quiet w script prompt rest) as (s & -> & Ht & _); [done..|].
  cbn [snd]. rewrite Ht.
  rewrite filter_quiet_trace by (by intros []).
  assert (Hwd : working_dir_of w = wd).
  { unfold working_dir_of. rewrite Ha. by destruct rest. }
  unfold quiet_skeleton, service_spawn, service_stop, spawned_service,
    start_redis_handle, graceful_then_forced.
  rewrite Hwd, !List.filter_app.
  assert (Hcmd : claude_cmd prompt (tmp_name w) (Some wd)
                 = [ "claude"; "-p"; prompt; "--mcp-config"; tmp_name w;
                     "--allowedTools"; allowed_tools ]
                   ++ match wd with "" => [] | _ => ["--cwd"; wd] end).
  { unfold claude_cmd. by destruct wd. }
  rewrite Hcmd.
  destruct (ping1 w), (popen_redis w) as [p|]; try reflexivity;
    destruct (negb (graceful w p)); reflexivity.
Qed.

Lemma children_of_a_session_witness :
  let wd := match @nil string with d :: _ => d | [] => getcwd world_client_missing end in
  List.filter is_spawn (trace (snd (session world_client_missing)))
  = match ping1 world_client_missing, popen_redis world_client_missing with
    | RunOk, _ | _, None => []
    | _, Some p => [EvPopen ["redis-server"; "--port"; "6379"] p]
    end
    ++ [ EvLaunch ([ "claude"; "-p"; "Review this code"; "--mcp-config";
                     tmp_name world_client_missing;
                     "--allowedTools"; allowed_tools ]
                   ++ match wd with
                      | "" => []
                      | _ => ["--cwd"; wd]
                      end)
                  (Some wd) ].
Proof.
  apply (children_of_a_session world_client_missing "run_claude_with_zen.py"
           "Review this code" []).
  - reflexivity.
  - reflexivity.
  - intros cmd _. reflexivity.
  - reflexivity.
  - intros _. reflexivity.
Defined.

(** *** A client that cannot be started *)

(** X6.  When the client cannot be started ([subprocess.run] raises, for
    instance because the working directory does not exist),
    a session whose setup succeeded and that no signal interrupts ends
    with the uncaught exception, so with exit code 1; the [finally] clause
    has removed the configuration file, and the teardown of the exit hook
    follows and stops the service if the session spawned it. *)
Theorem client_spawn_error_cleans_up (w : world) (script prompt : string)
    (rest : list string) :
  interrupt w = None ->
  argv w = script :: prompt :: rest ->
  all_dependencies_answer w ->
  credential_present (environ0 w) ->
  install_succeeds w ->
  client w = ClientSpawnError ->
  fst (session w) = Raise FileNotFoundError
  /\ exit_code (fst (session w)) = 1%Z
  /\ files (snd (session w)) = ∅
  /\ exists pre,
       trace (snd (session w))
       = pre ++ [EvLaunchDone None; EvUnlink (tmp_name w)]
             ++ EvCleanup None (spawned_service w)
             :: match spawned_service w with
                | Some p =>
                    [EvPrint "Stopping Redis..."; EvTerminate p; EvWait p 5]
                    ++ (if graceful w p then [] else [EvKill p])
                | None => []
                end.
Proof.
  intros Hi Ha Hdeps Hcred Hpip Hc.
  destruct (session_quiet w script prompt rest) as (s & -> & Ht & Hf & _); [done..|].
  cbn [fst snd]. unfold launch_outcome. rewrite Hc.
  split; [done|]. split; [done|]. split; [done|].
  rewrite Ht. unfold quiet_trace, launch_end, exit_teardown, graceful_then_forced.
  rewrite Hc. eexists.
  rewrite !app_assoc. rewrite <- (app_assoc _ [EvLaunchDone None]).
  f_equal. f_equal.
  destruct (spawned_service w) as [p|]; [|done].
  by destruct (graceful w p).
Qed.

Lemma client_spawn_error_cleans_up_witness :
  fst (session world_client_missing) = Raise FileNotFoundError
  /\ exit_code (fst (session world_client_missing)) = 1%Z
  /\ files (snd (session world_client_missing)) = ∅
  /\ exists pre,
       trace (snd (session world_client_missing))
       = pre ++ [EvLaunchDone None; EvUnlink (tmp_name world_client_missing)]
             ++ EvCleanup None (spawned_service world_client_missing)
             :: match spawned_service world_client_missing with
                | Some p =>
                    [EvPrint "Stopping Redis..."; EvTerminate p; EvWait p 5]
                    ++ (if graceful world_client_missing p then [] else [EvKill p])
                | None => []
                end.
Proof.
  apply (client_spawn_error_cleans_up world_client_missing "run_claude_with_zen.py"
           "Review this code" []).
  - reflexivity.
  - reflexivity.
  - intros cmd _. reflexivity.
  - reflexivity.
  - intros _. reflexivity.
  - reflexivity.
Defined.

(** *** install_dependencies *)

Lemma main_install_fails (w : world) (script prompt : string) (rest : list string) :
  interrupt w = None ->
  argv w = script :: prompt :: rest ->
  all_dependencies_answer w ->
  credential_present (environ0 w) ->
  requirements_exists w = true ->
  pip_install w <> RunOk ->
  exists s,
    main w (init w) = (Raise (exn_of (pip_install w)), s)
    /\ mcp_process s = None
    /\ redis_process s = None
    /\ files s = ∅
    /\ trace s = setup_prefix w (environ0 w).
Proof.
  intros Hi Ha Hdeps Hcred Hreq Hpip. unfold main. rewrite Ha.
  unfold main_setup. run.
  erewrite bind_Ret; cycle 1.
  { rewrite check_dependencies_quiet by done.
    apply dependencies_present_iff in Hdeps. unfold dependencies_present in Hdeps.
    by rewrite Hdeps. }
  run.
  set (s2 := log (EvPrint "Setting up environment...") _).
  assert (H2 : pending s2 = None /\ mcp_process s2 = None /\ redis_process s2 = None
               /\ environ s2 = environ0 w /\ files s2 = ∅
               /\ trace s2
                  = [ EvPrint "=== Claude Code with Zen MCP Server ==="; EvPrint "";
                      EvPrint "Checking dependencies..." ]
                    ++ version_probes required ++ [EvPrint "Setting up environment..."]).
  { subst s2. state_simp. by rewrite <- !app_assoc. }
  destruct H2 as (Hp2 & Hm2 & Hr2 & He2 & Hf2 & Ht2). clearbody s2.
  erewrite bind_Ret by (apply setup_environment_eq; by rewrite He2).
  set (s3 := set_environ _ _).
  assert (H3 : pending s3 = None /\ mcp_process s3 = None /\ redis_process s3 = None
               /\ files s3 = ∅
               /\ trace s3 = trace s2 ++ optional_keys_warning (environ0 w)).
  { subst s3. state_simp. by rewrite He2. }
  destruct H3 as (Hp3 & Hm3 & Hr3 & Hf3 & Ht3). clearbody s3.
  cbv beta. run.
  erewrite bind_Raise; cycle 1.
  { rewrite install_dependencies_quiet by done. rewrite Hreq.
    instantiate (2 := exn_of (pip_install w)). by destruct (pip_install w). }
  eexists. split; [reflexivity|]. state_simp.
  split_and!; try done.
  rewrite Ht3, Ht2. unfold setup_prefix. by rewrite <- !app_assoc.
Qed.

(** X7.  When [requirements.txt] exists and pip does not succeed, nothing
    catches the exception of [subprocess.run(..., check=True)]: a session
    that no signal interrupts ends with it, so with exit code 1.  This
    happens after the dependency and credential checks and before the
    service is looked at: the trace is that of the setup up to the pip
    command followed by an idle teardown; no service and no client is
    spawned and no configuration file is written. *)
Theorem failed_installation_is_fatal (w : world) (script prompt : string)
    (rest : list string) :
  interrupt w = None ->
  argv w = script :: prompt :: rest ->
  all_dependencies_answer w ->
  credential_present (environ0 w) ->
  requirements_exists w = true ->
  pip_install w <> RunOk ->
  fst (session w)
  = Raise (match pip_install w with
           | RunNotFound => FileNotFoundError
           | _ => CalledProcessError
           end)
  /\ exit_code (fst (session w)) = 1%Z
  /\ (exists pre,
        trace (snd (session w))
        = pre ++ [ EvPrint "Installing Python dependencies...";
                   EvRun [ sys_executable w; "-m"; "pip"; "install"; "-r";
                           script_dir w +:+ "/requirements.txt" ];
                   EvCleanup None None ])
  /\ List.filter is_spawn (trace (snd (session w))) = []
  /\ List.filter is_create (trace (snd (session w))) = []
  /\ files (snd (session w)) = ∅.
Proof.
  intros Hi Ha Hdeps Hcred Hreq Hpip. unfold session.
  destruct (main_install_fails w script prompt rest)
    as (s & -> & Hm & Hr & Hf & Ht); [done..|].
  rewrite (cleanup_idle w s Hm Hr).
  cbn [fst snd]. state_simp. rewrite Ht.
  split; [done|]. split; [by destruct (pip_install w)|].
  split_and!.
  - exists ([ EvPrint "=== Claude Code with Zen MCP Server ==="; EvPrint "";
                EvPrint "Checking dependencies..." ]
            ++ version_probes required ++ [EvPrint "Setting up environment..."]
            ++ optional_keys_warning (environ0 w)).
    unfold setup_prefix, install_events, pip_cmd. rewrite Hreq.
    by rewrite <- !app_assoc.
  - rewrite List.filter_app. by rewrite filter_setup_prefix by (by intros []).
  - rewrite List.filter_app. by rewrite filter_setup_prefix by (by intros []).
  - congruence.
Qed.

Lemma failed_installation_is_fatal_witness :
  fst (session world_pip_fails)
  = Raise (match pip_install world_pip_fails with
           | RunNotFound => FileNotFoundError
           | _ => CalledProcessError
           end)
  /\ exit_code (fst (session world_pip_fails)) = 1%Z
  /\ (exists pre,
        trace (snd (session world_pip_fails))
        = pre ++ [ EvPrint "Installing Python dependencies...";
                   EvRun [ sys_executable world_pip_fails; "-m"; "pip"; "install"; "-r";
                           script_dir world_pip_fails +:+ "/requirements.txt" ];
                   EvCleanup None None ])
  /\ List.filter is_spawn (trace (snd (session world_pip_fails))) = []
  /\ List.filter is_create (trace (snd (session world_pip_fails))) = []
  /\ files (snd (session world_pip_fails)) = ∅.
Proof.
  apply (failed_installation_is_fatal world_pip_fails "run_claude_with_zen.py"
           "Review this code" ["/proj"]).
  - reflexivity.
  - reflexivity.
  - intros cmd _. reflexivity.
  - reflexivity.
  - reflexivity.
  - discriminate.
Defined.

(** *** cleanup, run again *)

(** One run of [cleanup] on the service handle during which no signal is
    delivered. *)
Lemma cleanup_undisturbed (w : world) (s : state) (p : proc) :
  mcp_process s = None ->
  redis_process s = Some p ->
  pending s <> Some 0 ->
  exists s1,
    cleanup w s = (Ret tt, s1)
    /\ mcp_process s1 = None
    /\ redis_process s1 = Some p
    /\ wait_times_out w p s1 = false
    /\ pending s1 = match pending s with Some (S n) => Some n | q => q end
    /\ trace s1 = trace s ++ [EvCleanup None (Some p); EvPrint "Stopping Redis..."]
                  ++ graceful_then_forced p (wait_times_out w p s).
Proof.
  intros Hm Hr Hp. rewrite (cleanup_exit_eq w s Hm), Hr. cbn [stop_handle].
  unfold stop_process, proc_terminate, proc_wait. run. unfold try_except. run.
  set (sa := log (EvWait p 5) _).
  assert (Ha : mcp_process sa = None /\ redis_process sa = Some p
               /\ pending sa = pending s /\ has_exited p sa = has_exited p s
               /\ trace sa = trace s ++ [ EvCleanup None (Some p);
                                          EvPrint "Stopping Redis...";
                                          EvTerminate p; EvWait p 5 ]).
  { subst sa. state_simp. by rewrite <- !app_assoc. }
  destruct Ha as (Hma & Hra & Hpa & Hxa & Hta). clearbody sa.
  assert (Hc : exists sb, checkpoint w sa = (Ret tt, sb)
                 /\ mcp_process sb = None /\ redis_process sb = Some p
                 /\ pending sb = match pending s with Some (S n) => Some n | q => q end
                 /\ exited sb = exited sa /\ trace sb = trace sa).
  { unfold checkpoint. rewrite Hpa. destruct (pending s) as [[|n]|]; [done| |].
    - eexists. split; [reflexivity|]. by state_simp.
    - eexists. split; [reflexivity|]. by state_simp. }
  destruct Hc as (sb & Hc & Hmb & Hrb & Hpb & Hxb & Htb).
  rewrite (bind_Ret _ _ _ _ _ Hc). unfold wait_result, proc_kill.
  assert (Hx : has_exited p sb = has_exited p s).
  { rewrite <- Hxa. unfold has_exited. by rewrite Hxb. }
  rewrite Hx. unfold graceful_then_forced, wait_times_out.
  destruct (has_exited p s || graceful w p) eqn:Hg; cbn [is_TimeoutExpired negb]; run.
  - eexists. split; [reflexivity|]. rewrite has_exited_mark, Nat.eqb_refl. state_simp.
    split_and!; try done. by rewrite Htb, Hta.
  - eexists. split; [reflexivity|]. rewrite has_exited_mark, Nat.eqb_refl. state_simp.
    split_and!; try done. rewrite Htb, Hta. by rewrite <- !app_assoc.
Qed.

(** X8.  [cleanup] does not reset the handles.  When it is run a second
    time with the service handle still set (as the exit hook does after
    the signal handler), and no signal is delivered during the wait of
    either run, it finds the same handle, calls [terminate] and
    [wait(timeout=5)] on it again, and does not kill: the wait returns at
    once, since the first run has seen the process exit or has killed
    it. *)
Theorem cleanup_again_repeats_terminate (w : world) (s : state) (p : proc) :
  mcp_process s = None ->
  redis_process s = Some p ->
  pending s <> Some 0 ->
  pending s <> Some 1 ->
  exists s1 s2,
    cleanup w s = (Ret tt, s1)
    /\ cleanup w s1 = (Ret tt, s2)
    /\ redis_process s1 = Some p
    /\ redis_process s2 = Some p
    /\ trace s1 = trace s
                  ++ [ EvCleanup None (Some p); EvPrint "Stopping Redis...";
                       EvTerminate p; EvWait p 5 ]
                  ++ (if has_exited p s || graceful w p then [] else [EvKill p])
    /\ trace s2 = trace s1
                  ++ [ EvCleanup None (Some p); EvPrint "Stopping Redis...";
                       EvTerminate p; EvWait p 5 ].
Proof.
  intros Hm Hr Hp0 Hp1.
  destruct (cleanup_undisturbed w s p Hm Hr Hp0) as (s1 & Hc1 & Hm1 & Hr1 & Hw1 & Hq1 & Ht1).
  assert (Hp : pending s1 <> Some 0).
  { rewrite Hq1. by destruct (pending s) as [[|[|n]]|]. }
  destruct (cleanup_undisturbed w s1 p Hm1 Hr1 Hp) as (s2 & Hc2 & _ & Hr2 & _ & _ & Ht2).
  exists s1, s2. split_and!; try done.
  - rewrite Ht1. unfold graceful_then_forced, wait_times_out.
    destruct (has_exited p s || graceful w p); cbn [negb app]; by rewrite <- ?app_assoc.
  - rewrite Ht2, Hw1. unfold graceful_then_forced. by rewrite <- ?app_assoc, ?app_nil_r.
Qed.

Lemma cleanup_again_repeats_terminate_witness :
  exists s1 s2,
    cleanup world_no_service (set_redis_process (Some 42) (init world_no_service))
    = (Ret tt, s1)
    /\ cleanup world_no_service s1 = (Ret tt, s2)
    /\ redis_process s1 = Some 42
    /\ redis_process s2 = Some 42
    /\ trace s1 = trace (set_redis_process (Some 42) (init world_no_service))
                  ++ [ EvCleanup None (Some 42); EvPrint "Stopping Redis...";
                       EvTerminate 42; EvWait 42 5 ]
                  ++ (if has_exited 42 (set_redis_process (Some 42) (init world_no_service))
                         || graceful world_no_service 42
                      then [] else [EvKill 42])
    /\ trace s2 = trace s1
                  ++ [ EvCleanup None (Some 42); EvPrint "Stopping Redis...";
                       EvTerminate 42; EvWait 42 5 ].
Proof.
  apply (cleanup_again_repeats_terminate world_no_service);
    [reflexivity|reflexivity|discriminate|discriminate].
Defined.

(** *** The ways out of a session *)

Section Outcome.

Context (w : world).

Lemma calm_log e s : count_signal [e] = 0 -> calm s -> calm (log e s).
Proof.
  unfold calm. cbn [log trace]. rewrite count_signal_app. lia.
Qed.

Lemma outcome_ok_state {A} (good : A -> Prop) (r : result A) s s' :
  (calm s -> calm s') -> outcome_ok w good r s -> outcome_ok w good r s'.
Proof. destruct r; simpl; intuition. Qed.

Lemma safe_ret {A} (good : A -> Prop) (a : A) : good a -> safe w good (ret a).
Proof. by intros Ha s Hs. Qed.

Lemma safe_raise {A} (good : A -> Prop) (e : exn) :
  (forall c, e = SystemExit c -> exit_code_allowed w c) ->
  safe w good (raise e : M A).
Proof. intros He s Hs. split; [by left|done]. Qed.

Lemma safe_gets {A} (f : state -> A) : safe w anything (gets f).
Proof. by intros s Hs. Qed.

Lemma safe_modify (f : state -> state) :
  (forall s, calm s -> calm (f s)) -> safe w anything (modify f).
Proof. intros Hf s Hs. split; [by apply Hf|done]. Qed.

Lemma safe_emit (e : event) : count_signal [e] = 0 -> safe w anything (emit e).
Proof. intros He. apply safe_modify. intros s. by apply calm_log. Qed.

Lemma safe_bind {A B} (g1 : A -> Prop) (g2 : B -> Prop) (m : M A) (k : A -> M B) :
  safe w g1 m -> (forall a, g1 a -> safe w g2 (k a)) -> safe w g2 (bind m k).
Proof.
  intros Hm Hk. eapply hoare_bind; [exact Hm| |].
  - intros a s [Hs Ha]. by apply Hk.
  - by intros e s H.
Qed.

Lemma safe_weaken {A} (g g' : A -> Prop) (m : M A) :
  safe w g m -> (forall a, g a -> g' a) -> safe w g' m.
Proof.
  intros Hm Hg s Hs. specialize (Hm s Hs).
  destruct (m s) as [[a|e] s1]; simpl in *; [|done].
  destruct Hm. split; auto.
Qed.

(** A handler that does not catch the [SystemExit] of the signal handler. *)
Lemma safe_try_except {A} (g : A -> Prop) (body : M A) catches handler :
  catches (SystemExit 0) = false ->
  safe w g body -> (forall e, safe w g (handler e)) ->
  safe w g (try_except body catches handler).
Proof.
  intros Hc Hb Hh s Hs. specialize (Hb s Hs). unfold try_except.
  destruct (body s) as [[a|e] s1]; simpl in *; [done|].
  destruct (catches e) eqn:He; [|done].
  apply Hh. destruct Hb as [[Hcalm| ->] _]; [done|congruence].
Qed.

(** The handler inside [subprocess.run]: the child is killed and the
    exception goes on. *)
Lemma safe_try_reraise {A} (g : A -> Prop) (body : M A) (ev : event) :
  count_signal [ev] = 0 ->
  safe w g body ->
  safe w g (try_except body (fun _ => true) (fun e => emit ev ;; raise e)).
Proof.
  intros Hev Hb s Hs. specialize (Hb s Hs). unfold try_except.
  destruct (body s) as [[a|e] s1]; simpl in *; [done|].
  destruct Hb as [Hb1 Hb2]. split; [|done].
  destruct Hb1; [left; by apply calm_log|by right].
Qed.

(** The [finally] clause of [main]: the outcome of the body stays, unless
    the signal is delivered in the clause; then the [SystemExit] of the
    handler replaces it. *)
Lemma safe_finally_remove {A} (g : A -> Prop) (body : M A) path :
  safe w g body -> safe w g (try_finally body (remove_config w path)).
Proof.
  intros Hb s Hs. specialize (Hb s Hs). unfold try_finally, remove_config.
  destruct (body s) as [r s1]; cbn [fst snd] in *.
  destruct (checkpoint_outcome w s1) as [(s2 & Hc & Ht & _)|(s2 & Hc & _)].
  - rewrite (bind_Ret _ _ _ _ _ Hc). unfold unlink_if_exists.
    assert (H2 : outcome_ok w g r s2).
    { eapply outcome_ok_state; [|exact Hb]. unfold calm. by rewrite Ht. }
    destruct (files s2 !! path); [|done].
    eapply outcome_ok_state; [|exact H2]. intros Hcalm. by apply calm_log.
  - rewrite (bind_Raise _ _ _ _ _ Hc). split; [by right|].
    intros c [= <-]. by left.
Qed.

Lemma safe_checkpoint : safe w anything (checkpoint w).
Proof.
  intros s Hs. unfold checkpoint. destruct (pending s) as [[|n]|]; simpl.
  - pose proof (signal_handler_raises w (log EvSignal (set_pending None s))) as Hr.
    destruct (signal_handler w _) as [r s']. simpl in *. subst r. simpl.
    split; [by right|]. intros c [= <-]. by left.
  - done.
  - done.
Qed.

Lemma safe_sys_exit_1 {A} (g : A -> Prop) : safe w g (sys_exit 1 : M A).
Proof. apply safe_raise. intros c [= <-]. right. by left. Qed.

Lemma safe_raise_exception {A} (g : A -> Prop) (e : exn) :
  is_Exception e = true -> safe w g (raise e : M A).
Proof. intros He. apply safe_raise. intros c ->. discriminate He. Qed.

Ltac safe_step :=
  lazymatch goal with
  | |- safe _ _ (bind _ _) => apply (safe_bind anything); [|intros ? _]
  | |- safe _ _ (ret _) => apply safe_ret; exact I
  | |- safe _ _ (sys_exit 1) => apply safe_sys_exit_1
  | |- safe _ _ (raise _) => apply safe_raise_exception; reflexivity
  | |- safe _ _ (gets _) => apply safe_gets
  | |- safe _ _ (getenv _) => apply safe_gets
  | |- safe _ _ (getenv_default _ _) => apply safe_gets
  | |- safe _ _ (setenv _ _) => apply safe_modify; intros ? Hcalm; exact Hcalm
  | |- safe _ _ (print _) => apply safe_emit; reflexivity
  | |- safe _ _ (emit _) => apply safe_emit; reflexivity
  | |- safe _ _ (checkpoint _) => apply safe_checkpoint
  | |- safe _ _ (try_except _ _ _) => apply safe_try_except; [reflexivity| |intros ?]
  | |- safe _ _ (if ?b then _ else _) => destruct b
  | |- safe _ _ (match ?x with _ => _ end) => destruct x
  end.

Lemma subprocess_run_safe cmd a : safe w anything (subprocess_run w cmd a).
Proof. unfold subprocess_run. destruct a as [[]|]; repeat safe_step. Qed.

Lemma sleep_safe n : safe w anything (sleep w n).
Proof. unfold sleep. repeat safe_step. Qed.

Lemma probe_required_safe l missing : safe w anything (probe_required w l missing).
Proof.
  revert missing. induction l as [|[cmd desc] l IH]; intros missing; simpl.
  - by apply safe_ret.
  - apply (safe_bind anything); [|intros ? _; apply IH].
    apply safe_try_except; [reflexivity| |intros ?; by apply safe_ret].
    apply (safe_bind anything); [apply subprocess_run_safe|intros ? _; by apply safe_ret].
Qed.

Lemma check_dependencies_safe : safe w anything (check_dependencies w).
Proof.
  unfold check_dependencies.
  apply (safe_bind anything); [apply probe_required_safe|intros m _].
  repeat safe_step.
Qed.

Lemma setup_environment_safe : safe w anything (setup_environment w).
Proof. unfold setup_environment. repeat safe_step. Qed.

Lemma install_dependencies_safe : safe w anything (install_dependencies w).
Proof.
  unfold install_dependencies.
  apply (safe_bind anything); [repeat safe_step|intros ? _].
  destruct (requirements_exists w); [apply subprocess_run_safe|repeat safe_step].
Qed.

Lemma popen_safe cmd : safe w anything (popen w cmd).
Proof. unfold popen. repeat safe_step. Qed.

Lemma start_redis_safe : safe w anything (start_redis w).
Proof.
  unfold start_redis.
  apply (safe_bind anything); [|intros running _].
  { apply safe_try_except; [reflexivity| |intros ?; by apply safe_ret].
    apply (safe_bind anything); [apply subprocess_run_safe|intros ? _].
    repeat safe_step. }
  destruct running; [by apply safe_ret|].
  apply (safe_bind anything); [repeat safe_step|intros ? _].
  apply safe_try_except; [reflexivity| |intros ?; repeat safe_step].
  apply (safe_bind anything); [apply popen_safe|intros p _].
  apply (safe_bind anything); [apply safe_checkpoint|intros ? _].
  apply (safe_bind anything); [by apply safe_modify|intros ? _].
  apply (safe_bind anything); [apply sleep_safe|intros ? _].
  apply (safe_bind anything); [apply subprocess_run_safe|intros ? _].
  repeat safe_step.
Qed.

Lemma create_mcp_config_safe path : safe w anything (create_mcp_config w path).
Proof.
  unfold create_mcp_config.
  do 4 (apply (safe_bind anything); [apply safe_gets|intros ? _]).
  apply (safe_bind anything); [by apply safe_modify|intros ? _].
  repeat safe_step.
Qed.

(** What [run_claude_code] returns is the return code of the client. *)
Lemma run_claude_code_safe prompt path working_dir :
  safe w (fun rc => client w = ClientExit rc)
       (run_claude_code w prompt path working_dir).
Proof.
  unfold run_claude_code, subprocess_run_client.
  do 4 (apply (safe_bind anything); [apply safe_emit; reflexivity|intros ? _]).
  destruct (client w) as [rc|].
  - apply (safe_bind anything).
    + apply safe_try_reraise; [reflexivity|apply safe_checkpoint].
    + intros ? _. apply (safe_bind anything); [apply safe_emit; reflexivity|intros ? _].
      by apply safe_ret.
  - apply (safe_bind anything); [apply safe_emit; reflexivity|intros ? _].
    by apply safe_raise_exception.
Qed.

Lemma main_launch_safe prompt working_dir path :
  safe w anything (main_launch w prompt working_dir path).
Proof.
  unfold main_launch, main_try_body. apply safe_finally_remove.
  do 3 (apply (safe_bind anything); [apply safe_emit; reflexivity|intros ? _]).
  eapply safe_bind; [apply run_claude_code_safe|intros rc Hrc].
  destruct (rc =? 0)%Z; [by apply safe_ret|].
  apply (safe_bind anything); [apply safe_emit; reflexivity|intros ? _].
  apply safe_raise. intros c [= <-]. right. by right.
Qed.

Lemma main_setup_safe : safe w anything (main_setup w).
Proof.
  unfold main_setup.
  do 3 (apply (safe_bind anything); [apply safe_emit; reflexivity|intros ? _]).
  apply (safe_bind anything); [apply check_dependencies_safe|intros ? _].
  apply (safe_bind anything); [apply safe_emit; reflexivity|intros ? _].
  apply (safe_bind anything); [apply setup_environment_safe|intros ? _].
  apply (safe_bind anything); [apply install_dependencies_safe|intros ? _].
  apply (safe_bind anything); [apply start_redis_safe|intros ? _].
  apply (safe_bind anything); [apply safe_emit; reflexivity|intros ? _].
  apply (safe_bind anything); [apply create_mcp_config_safe|intros ? _].
  repeat safe_step.
Qed.

Lemma main_safe : safe w anything (main w).
Proof.
  unfold main, usage. destruct (argv w) as [|a [|prompt rest]].
  1,2: repeat safe_step.
  apply (safe_bind anything); [apply main_setup_safe|intros p _].
  apply main_launch_safe.
Qed.

End Outcome.

Lemma count_signal_In (tr : list event) : In EvSignal tr -> count_signal tr <> 0.
Proof.
  induction tr as [|e tr IH]; [done|]. intros [->|Hin]; [done|].
  specialize (IH Hin). unfold count_signal in *. cbn [List.filter].
  destruct e; cbn [length]; lia.
Qed.

Lemma session_outcome (w : world) :
  outcome_ok w anything (fst (main w (init w))) (snd (main w (init w))).
Proof. by apply main_safe. Qed.

(** X9.  A session in which a signal is delivered while [main] runs ends
    through the [sys.exit(0)] of the handler, wherever in [main] the
    signal arrived: during a probe, during the wait for the service,
    while the client ran, or in the [finally] clause.  No [except] clause
    of the script catches that [SystemExit], and the [finally] clause does
    not replace it; the exit code is 0 whatever the client returned or
    would have returned.  (A signal that is delivered later, in the exit
    hook, does not change the exit status: see
    [signal_in_exit_hook_keeps_status].) *)
Theorem interrupted_session_exits_0 (w : world) :
  In EvSignal (trace (snd (main w (init w)))) ->
  fst (session w) = Raise (SystemExit 0)
  /\ exit_code (fst (session w)) = 0%Z.
Proof.
  intros Hin. apply count_signal_In in Hin.
  pose proof (session_outcome w) as Ho. unfold session in *.
  destruct (main w (init w)) as [r s]. cbn [fst snd] in *.
  destruct r as [[]|e]; simpl in Ho.
  - by destruct Ho.
  - destruct Ho as [[Hc| ->] _]; [done|]. by split.
Qed.

Lemma interrupted_session_exits_0_witness :
  fst (session world_signal_in_start) = Raise (SystemExit 0)
  /\ exit_code (fst (session world_signal_in_start)) = 0%Z.
Proof.
  apply (interrupted_session_exits_0 world_signal_in_start).
  vm_compute. do 16 right. by left.
Defined.

(** In [world_signal_in_exit_hook] the client returns 3, [main] leaves
    through [sys.exit(3)], and the signal is delivered during the wait of
    the exit hook: the handler runs, its [SystemExit(0)] leaves the hook,
    and the exit status stays 3. *)
Example signal_in_exit_hook_keeps_status :
  In EvSignal (trace (snd (session world_signal_in_exit_hook)))
  /\ ~ In EvSignal (trace (snd (main world_signal_in_exit_hook
                                   (init world_signal_in_exit_hook))))
  /\ fst (cleanup world_signal_in_exit_hook
            (snd (main world_signal_in_exit_hook (init world_signal_in_exit_hook))))
     = Raise (SystemExit 0)
  /\ fst (session world_signal_in_exit_hook) = Raise (SystemExit 3)
  /\ exit_code (fst (session world_signal_in_exit_hook)) = 3%Z.
Proof.
  split_and!.
  - vm_compute. do 34 right. by left.
  - vm_compute. intuition discriminate.
  - vm_compute. reflexivity.
  - vm_compute. reflexivity.
  - vm_compute. reflexivity.
Qed.

(** X10.  The exit code of every session (the argument of [sys.exit], 0
    after a normal return, 1 after an uncaught exception) is 0, 1, or the
    return code of the client: 0 after a normal return and after an
    interruption, 1 after the [sys.exit(1)] of the argument, dependency
    and credential checks and after an uncaught exception, and otherwise
    the code [run_claude_code] returned, which is the client's. *)
Theorem exit_code_of_a_session (w : world) :
  exit_code (fst (session w)) = 0%Z
  \/ exit_code (fst (session w)) = 1%Z
  \/ client w = ClientExit (exit_code (fst (session w))).
Proof.
  pose proof (session_outcome w) as Ho. unfold session.
  destruct (main w (init w)) as [r s]. cbn [fst snd] in *.
  destruct r as [[]|e]; simpl in *; [by left|].
  destruct Ho as [_ Hc]. destruct e; try (right; by left).
  exact (Hc code eq_refl).
Qed.

(** *** Custody of the service, in every session *)

Lemma spawn_first_app (tr l : list event) :
  spawn_first tr ->
  (forall e p, In e l -> signalled e = Some p -> spawned_in p tr) ->
  spawn_first (tr ++ l).
Proof.
  intros Htr Hl pre e post p Heq Hsig.
  apply app_eq_app in Heq as [m [[Htr' Hm]|[-> ->]]].
  - destruct m as [|e' m].
    + rewrite app_nil_r in Htr'. subst pre. apply (Hl e p); [|done].
      cbn [app] in Hm. rewrite <- Hm. by left.
    + injection Hm as <- ->. by apply (Htr pre e m p).
  - unfold spawned_in. apply in_or_app. left.
    apply (Hl e p); [|done]. apply in_or_app. right. by left.
Qed.

(** The teardown body as the signal handler runs it, with an unset MCP
    handle, as a state. *)
Lemma cleanup_redis_state (w : world) (s : state) :
  mcp_process s = None ->
  cleanup_body w no_delivery s
  = (Ret tt,
     match redis_process s with
     | Some p =>
         mark_exited p
           (logs (EvPrint "Stopping Redis..."
                  :: graceful_then_forced p (wait_times_out w p s))
              (log (EvCleanup None (Some p)) s))
     | None => log (EvCleanup None None) s
     end).
Proof.
  intros Hm. rewrite cleanup_eq, Hm. cbn [stop_handle ret].
  destruct (redis_process s) as [p|]; cbn [stop_handle ret]; [|done].
  by rewrite stop_process_eq.
Qed.

Section CustodyKept.

Context (w : world).

Lemma Custody_extend s s' l :
  Custody w s ->
  mcp_process s' = None ->
  redis_process s' = redis_process s ->
  environ s' = environ s ->
  files s' = files s ->
  trace s' = trace s ++ l ->
  (forall e, In e l ->
     (forall cmd p, e <> EvPopen cmd p)
     /\ forall p, signalled e = Some p -> spawned_in p (trace s)) ->
  Custody w s'.
Proof.
  intros [H1 H2 H3 H4 H5 H6] Hm Hr He Hf Ht Hl. split.
  - done.
  - intros cmd p Hin. rewrite Ht in Hin. rewrite Hr, Ht.
    apply in_app_or in Hin as [Hin|Hin]; [|by destruct (proj1 (Hl _ Hin) cmd p)].
    destruct (H2 cmd p Hin) as (Hc & Hq & Hping & [Hh|(pre & post & Heq)]);
      split_and!; try done; [by left|].
    right. exists pre, (post ++ l). rewrite Heq. by rewrite <- app_assoc.
  - intros p Hp. rewrite Ht. apply in_or_app. left. apply H3. by rewrite <- Hr.
  - rewrite Ht. apply spawn_first_app; [done|].
    intros e p Hin. by apply (Hl e Hin).
  - by rewrite He.
  - by rewrite Hf.
Qed.

Lemma Custody_log e s : harmless e -> Custody w s -> Custody w (log e s).
Proof.
  intros He Hs. apply (Custody_extend s _ [e]); try done.
  - by destruct Hs.
  - intros e' [<-|[]]. split; [by destruct e|by destruct e].
Qed.

Lemma emit_custody e : harmless e -> keeps (Custody w) (emit e).
Proof. intros He. apply keeps_modify. intros s. by apply Custody_log. Qed.

Lemma handler_cleanup_custody : keeps (Custody w) (cleanup_body w no_delivery).
Proof.
  intros s Hs. rewrite (cleanup_redis_state w s (cust_mcp _ _ Hs)). cbn [fst snd].
  destruct (redis_process s) as [p|] eqn:Hr.
  - apply (Custody_extend s _ (EvCleanup None (Some p) :: EvPrint "Stopping Redis..."
                                :: graceful_then_forced p (wait_times_out w p s)));
      [ exact Hs | state_simp; by destruct Hs | by state_simp | by state_simp
      | by state_simp | state_simp; by rewrite <- app_assoc | ].
    pose proof (cust_owned _ _ Hs p Hr) as Hsp.
    unfold graceful_then_forced. intros e Hin.
    assert (Hcases : e = EvCleanup None (Some p) \/ e = EvPrint "Stopping Redis..."
                     \/ e = EvTerminate p \/ e = EvWait p 5 \/ e = EvKill p).
    { destruct (wait_times_out w p s); cbn in Hin; intuition. }
    destruct Hcases as [->|[->|[->|[->| ->]]]];
      (split; [done|]); intros q [=]; by subst.
  - by apply Custody_log.
Qed.

Lemma signal_handler_custody : keeps (Custody w) (signal_handler w).
Proof.
  intros s Hs. unfold signal_handler. rewrite bind_print.
  set (s1 := log _ s).
  assert (Hs1 : Custody w s1) by (subst s1; by apply Custody_log).
  pose proof (handler_cleanup_custody s1 Hs1) as Hc.
  rewrite (cleanup_redis_state w s1 (cust_mcp _ _ Hs1)) in Hc.
  rewrite (bind_Ret _ _ _ _ _ (cleanup_redis_state w s1 (cust_mcp _ _ Hs1))).
  exact Hc.
Qed.

Lemma checkpoint_custody : keeps (Custody w) (checkpoint w).
Proof.
  intros s Hs. unfold checkpoint. destruct (pending s) as [[|n]|] eqn:Hp; cbn [fst snd].
  - apply signal_handler_custody. apply Custody_log; [done|]. by destruct Hs.
  - by destruct Hs.
  - done.
Qed.

(** The teardown of the service handle at the exit, where a signal can be
    delivered during the wait. *)
Lemma stop_process_custody msg p :
  hoare (fun s => Custody w s /\ redis_process s = Some p)
        (stop_process w (checkpoint w) msg p)
        (fun _ s => Custody w s).
Proof.
  intros s [Hs Hr]. unfold stop_process, proc_terminate, proc_wait.
  run. unfold try_except. run.
  set (sa := log (EvWait p 5) _).
  assert (Ha : Custody w sa /\ redis_process sa = Some p).
  { split; [|done]. subst sa.
    apply (Custody_extend s _ [EvPrint msg; EvTerminate p; EvWait p 5]);
      [ exact Hs | state_simp; by destruct Hs | by state_simp | by state_simp
      | by state_simp | state_simp; by rewrite <- ?app_assoc | ].
    pose proof (cust_owned _ _ Hs p Hr) as Hsp.
    intros e [<-|[<-|[<-|[]]]]; (split; [done|]); intros q [=]; by subst. }
  destruct Ha as [Hsa Hra]. clearbody sa.
  pose proof (checkpoint_custody sa Hsa) as Hc.
  destruct (checkpoint_spec w sa (cust_mcp _ _ Hsa))
    as (r & sb & l & Hck & _ & _ & _ & Hrb & Hcase).
  rewrite Hck in Hc. cbn [snd] in Hc.
  destruct Hcase as [(-> & _)|(-> & _)].
  - rewrite (bind_Ret _ _ _ _ _ Hck). unfold wait_result, proc_kill.
    destruct (has_exited p sb || graceful w p); cbn [is_TimeoutExpired]; run.
    + apply (Custody_extend sb _ []);
        [ exact Hc | by destruct Hc | done | done | done | by rewrite app_nil_r | ].
      by intros e [].
    + apply (Custody_extend sb _ [EvKill p]);
        [ exact Hc | by destruct Hc | done | done | done | done | ].
      intros e [<-|[]]. split; [done|]. intros q [= <-].
      apply (cust_owned _ _ Hc). by rewrite Hrb.
  - rewrite (bind_Raise _ _ _ _ _ Hck). exact Hc.
Qed.

Lemma cleanup_custody : keeps (Custody w) (cleanup w).
Proof.
  intros s Hs. rewrite (cleanup_exit_eq w s (cust_mcp _ _ Hs)).
  destruct (redis_process s) as [p|] eqn:Hr; cbn [stop_handle].
  - apply stop_process_custody. split; [by apply Custody_log|done].
  - by apply Custody_log.
Qed.

Ltac custody_step :=
  lazymatch goal with
  | |- keeps _ (bind _ _) => apply keeps_bind; [|intros ?]
  | |- keeps _ (ret _) => apply keeps_ret
  | |- keeps _ (raise _) => apply keeps_raise
  | |- keeps _ (sys_exit _) => apply keeps_raise
  | |- keeps _ (gets _) => apply keeps_gets
  | |- keeps _ (getenv _) => apply keeps_gets
  | |- keeps _ (getenv_default _ _) => apply keeps_gets
  | |- keeps _ (print _) => apply emit_custody; exact I
  | |- keeps _ (emit _) => apply emit_custody; exact I
  | |- keeps _ (checkpoint _) => apply checkpoint_custody
  | |- keeps _ (try_except _ _ _) => apply keeps_try_except; [|intros ?]
  | |- keeps _ (if ?b then _ else _) => destruct b
  | |- keeps _ (match ?x with _ => _ end) => destruct x
  end.

Lemma subprocess_run_custody cmd a : keeps (Custody w) (subprocess_run w cmd a).
Proof. unfold subprocess_run. destruct a as [[]|]; repeat custody_step. Qed.

Lemma sleep_custody n : keeps (Custody w) (sleep w n).
Proof. unfold sleep. repeat custody_step. Qed.

Lemma probe_required_custody l missing : keeps (Custody w) (probe_required w l missing).
Proof.
  revert missing. induction l as [|[cmd desc] l IH]; intros missing; simpl.
  - apply keeps_ret.
  - apply keeps_bind; [|intros ?; apply IH].
    apply keeps_try_except; [|intros ?; apply keeps_ret].
    apply keeps_bind; [apply subprocess_run_custody|intros ?; apply keeps_ret].
Qed.

Lemma check_dependencies_custody : keeps (Custody w) (check_dependencies w).
Proof.
  unfold check_dependencies.
  apply keeps_bind; [apply probe_required_custody|intros m].
  repeat custody_step.
Qed.

(** Only [WORKSPACE_ROOT] is assigned. *)
Lemma setenv_workspace_custody v : keeps (Custody w) (setenv "WORKSPACE_ROOT" v).
Proof.
  apply keeps_modify. intros s [H1 H2 H3 H4 H5 H6]. split; try done.
  intros k Hk. cbn [set_environ environ]. rewrite lookup_insert_ne by done. by apply H5.
Qed.

Lemma setup_environment_custody : keeps (Custody w) (setup_environment w).
Proof.
  unfold setup_environment.
  do 7 (apply keeps_bind; [repeat custody_step|intros ?]).
  apply keeps_bind; [apply setenv_workspace_custody|intros ?]. apply keeps_ret.
Qed.

Lemma install_dependencies_custody : keeps (Custody w) (install_dependencies w).
Proof.
  unfold install_dependencies.
  apply keeps_bind; [repeat custody_step|intros ?].
  destruct (requirements_exists w); [apply subprocess_run_custody|repeat custody_step].
Qed.

(** A signal is the only way out of a checkpoint other than returning. *)
Lemma checkpoint_raises s e s' :
  checkpoint w s = (Raise e, s') -> e = SystemExit 0.
Proof.
  unfold checkpoint. destruct (pending s) as [[|n]|]; [|done..].
  intros H. pose proof (signal_handler_raises w (log EvSignal (set_pending None s))) as Hr.
  rewrite H in Hr. by injection Hr.
Qed.

(** The first probe of [start_redis] reports the service as not running
    only when the probe itself failed. *)
Lemma first_probe_custody :
  hoare (Custody w)
    (try_except
       (subprocess_run w ["redis-cli"; "ping"] (Ran (ping1 w)) ;;
        print "Redis is already running" ;; ret true)
       is_probe_failure (fun _ => ret false))
    (fun r s => Custody w s /\ (r = Ret false -> ping1 w <> RunOk)).
Proof.
  intros s Hs. split.
  - revert s Hs. apply keeps_try_except; [|intros ?; apply keeps_ret].
    apply keeps_bind; [apply subprocess_run_custody|intros ?]. repeat custody_step.
  - unfold try_except, subprocess_run. run.
    destruct (checkpoint w (log (EvRun ["redis-cli"; "ping"]) s)) as [[[]|e] s1] eqn:Hc.
    + rewrite (bind_Ret _ _ _ _ _ Hc).
      destruct (ping1 w); cbn; [discriminate|done..].
    + rewrite (bind_Raise _ _ _ _ _ Hc).
      apply checkpoint_raises in Hc as ->. cbn. discriminate.
Qed.

(** [Popen] and the assignment of line 124, when no signal is delivered
    between them. *)
Lemma spawn_custody s s' p :
  ping1 w <> RunOk ->
  popen_redis w = Some p ->
  Custody w s ->
  mcp_process s' = None ->
  redis_process s' = Some p ->
  environ s' = environ s ->
  files s' = files s ->
  trace s' = trace s ++ [EvPopen redis_server_cmd p] ->
  Custody w s'.
Proof.
  intros Hping Hpopen [H1 H2 H3 H4 H5 H6] Hm Hr He Hf Ht. split.
  - done.
  - intros cmd q Hin. rewrite Ht in Hin. rewrite Hr.
    apply in_app_or in Hin as [Hin|[[= <- <-]|[]]].
    + destruct (H2 cmd q Hin) as (-> & Hq & _). split_and!; try done.
      left. congruence.
    + split_and!; try done. by left.
  - intros q Hq. rewrite Hr in Hq. injection Hq as <-.
    unfold spawned_in. rewrite Ht. apply in_or_app. right. by left.
  - rewrite Ht. apply spawn_first_app; [done|]. by intros e q [<-|[]].
  - intros k Hk. rewrite He. by apply H5.
  - intros path Hp. rewrite Hf. by apply H6.
Qed.

(** [Popen] has returned and the signal is delivered before the
    assignment of line 124: the handle is not stored. *)
Lemma spawn_signal_custody s p :
  ping1 w <> RunOk ->
  popen_redis w = Some p ->
  Custody w s ->
  Custody w (log EvSignal (set_pending None (log (EvPopen redis_server_cmd p) s))).
Proof.
  intros Hping Hpopen [H1 H2 H3 H4 H5 H6]. split; try done.
  - intros cmd q Hin. cbn [log set_pending trace redis_process] in *.
    rewrite <- app_assoc in Hin.
    apply in_app_or in Hin as [Hin|[[= <- <-]|[Hd|[]]]]; [| |discriminate Hd].
    + destruct (H2 cmd q Hin) as (Hc & Hq & Hp' & [Hh|(pre & post & Heq)]);
        split_and!; try done; [by left|].
      right. exists pre, (post ++ [EvPopen redis_server_cmd p; EvSignal]).
      rewrite Heq. by rewrite <- !app_assoc.
    + split_and!; try done. right. exists (trace s), []. by rewrite <- app_assoc.
  - intros q Hq. unfold spawned_in. cbn [log set_pending trace redis_process] in *.
    apply in_or_app. left. apply in_or_app. left. by apply H3.
  - cbn [log set_pending trace]. rewrite <- app_assoc.
    apply spawn_first_app; [done|]. by intros e q [<-|[<-|[]]].
Qed.

Lemma start_redis_custody : keeps (Custody w) (start_redis w).
Proof.
  unfold start_redis.
  eapply hoare_bind; [apply first_probe_custody| |by intros e s [? _]].
  intros running s [Hs Hrun].
  destruct running; [exact Hs|]. specialize (Hrun eq_refl).
  revert s Hs. apply keeps_bind; [repeat custody_step|intros _].
  apply keeps_try_except; [|intros e; repeat custody_step].
  intros s Hs. unfold popen.
  destruct (popen_redis w) as [p|] eqn:Hpopen; [|exact Hs].
  run.
  assert (K : keeps (Custody w)
                (sleep w 2 ;; subprocess_run w ["redis-cli"; "ping"] (Ran (ping2 w)) ;;
                 print "Redis started successfully")%py).
  { apply keeps_bind; [apply sleep_custody|intros _].
    apply keeps_bind; [apply subprocess_run_custody|intros _]. repeat custody_step. }
  set (sa := log (EvPopen redis_server_cmd p) s).
  destruct (pending sa) as [[|n]|] eqn:Hp.
  - (* the signal arrives before the handle is stored *)
    pose proof (signal_handler_custody _ (spawn_signal_custody s p Hrun Hpopen Hs)) as Hh.
    pose proof (signal_handler_raises w (log EvSignal (set_pending None sa))) as Hr.
    assert (Hc : checkpoint w sa = signal_handler w (log EvSignal (set_pending None sa))).
    { unfold checkpoint. by rewrite Hp. }
    fold sa in Hh.
    destruct (signal_handler w (log EvSignal (set_pending None sa))) as [r s1].
    cbn [fst snd] in *. subst r.
    by rewrite (bind_Raise _ _ _ _ _ Hc).
  - assert (Hc : checkpoint w sa = (Ret tt, set_pending (Some n) sa)).
    { unfold checkpoint. by rewrite Hp. }
    rewrite (bind_Ret _ _ _ _ _ Hc). run.
    apply K. subst sa. apply (spawn_custody s _ p); try done; by destruct Hs.
  - assert (Hc : checkpoint w sa = (Ret tt, sa)).
    { unfold checkpoint. by rewrite Hp. }
    rewrite (bind_Ret _ _ _ _ _ Hc). run.
    apply K. subst sa. apply (spawn_custody s _ p); try done; by destruct Hs.
Qed.

Lemma create_mcp_config_custody path : keeps (Custody w) (create_mcp_config w path).
Proof.
  unfold create_mcp_config.
  do 4 (apply keeps_bind; [apply keeps_gets|intros ?]).
  apply keeps_bind; [|intros _; repeat custody_step].
  apply keeps_modify. intros s [H1 H2 H3 H4 H5 H6]. split; try done.
  intros p Hp. cbn [set_files files]. rewrite lookup_insert_ne by done. by apply H6.
Qed.

Lemma run_claude_code_custody prompt path working_dir :
  keeps (Custody w) (run_claude_code w prompt path working_dir).
Proof.
  unfold run_claude_code, subprocess_run_client.
  do 4 (apply keeps_bind; [apply emit_custody; exact I|intros _]).
  destruct (client w); repeat custody_step.
Qed.

Lemma remove_config_custody path : keeps (Custody w) (remove_config w path).
Proof.
  unfold remove_config. apply keeps_bind; [apply checkpoint_custody|intros _].
  intros s Hs. unfold unlink_if_exists. destruct (files s !! path) eqn:Hf; [|done].
  cbn [fst snd]. apply Custody_log; [done|].
  destruct Hs as [H1 H2 H3 H4 H5 H6]. split; try done.
  intros p Hp. cbn [set_files files].
  destruct (decide (p = path)) as [->|Hne]; [apply lookup_delete_eq|].
  rewrite lookup_delete_ne by done. by apply H6.
Qed.

Lemma main_launch_custody prompt working_dir path :
  keeps (Custody w) (main_launch w prompt working_dir path).
Proof.
  unfold main_launch, main_try_body.
  apply keeps_try_finally; [|apply remove_config_custody].
  do 3 (apply keeps_bind; [apply emit_custody; exact I|intros _]).
  apply keeps_bind; [apply run_claude_code_custody|intros rc].
  repeat custody_step.
Qed.

Lemma main_setup_custody : keeps (Custody w) (main_setup w).
Proof.
  unfold main_setup.
  do 3 (apply keeps_bind; [apply emit_custody; exact I|intros _]).
  apply keeps_bind; [apply check_dependencies_custody|intros _].
  apply keeps_bind; [apply emit_custody; exact I|intros _].
  apply keeps_bind; [apply setup_environment_custody|intros _].
  apply keeps_bind; [apply install_dependencies_custody|intros _].
  apply keeps_bind; [apply start_redis_custody|intros _].
  apply keeps_bind; [apply emit_custody; exact I|intros _].
  apply keeps_bind; [apply create_mcp_config_custody|intros p].
  repeat custody_step.
Qed.

Lemma main_custody : keeps (Custody w) (main w).
Proof.
  unfold main, usage. destruct (argv w) as [|a [|prompt rest]].
  1,2: repeat custody_step.
  apply keeps_bind; [apply main_setup_custody|intros p]. apply main_launch_custody.
Qed.

Lemma init_custody : Custody w (init w).
Proof.
  split; try done.
  intros pre e post p Heq. by destruct pre.
Qed.

Lemma main_end_custody : Custody w (snd (main w (init w))).
Proof. apply main_custody, init_custody. Qed.

Lemma session_custody : Custody w (snd (session w)).
Proof.
  unfold session. pose proof main_end_custody as Hm.
  destruct (main w (init w)) as [r s]. cbn [fst snd] in *.
  by apply cleanup_custody.
Qed.

End CustodyKept.

(** X11.  In every session, whatever fails and whenever a signal arrives,
    a process is sent SIGTERM, waited for or killed only after this
    session has spawned it: each [terminate], [wait] and [kill] in the
    trace is preceded by the [Popen] of [redis-server] that returned the
    same process. *)
Theorem signals_only_after_spawn (w : world) (pre post : list event) (e : event)
    (p : proc) :
  trace (snd (session w)) = pre ++ e :: post ->
  signalled e = Some p ->
  In (EvPopen ["redis-server"; "--port"; "6379"] p) pre.
Proof.
  intros Heq Hsig. exact (cust_first _ _ (session_custody w) pre e post p Heq Hsig).
Qed.

Lemma signals_only_after_spawn_witness :
  In (EvPopen ["redis-server"; "--port"; "6379"] 42)
     (firstn 31 (trace (snd (session world_spawn)))).
Proof.
  apply (signals_only_after_spawn world_spawn
           (firstn 31 (trace (snd (session world_spawn))))
           (skipn 32 (trace (snd (session world_spawn))))
           (EvTerminate 42) 42).
  - vm_compute. reflexivity.
  - reflexivity.
Defined.

(** X12.  When the first liveness probe of [start_redis] succeeds, the
    service the script found is left alone for the whole session: nothing
    is spawned in its place, no process is sent SIGTERM, waited for or
    killed, at the exit or by the signal handler, and [redis_process] is
    still [None] when the interpreter exits. *)
Theorem live_service_is_left_alone (w : world) :
  ping1 w = RunOk ->
  redis_process (snd (session w)) = None
  /\ forall e, In e (trace (snd (session w))) ->
       signalled e = None /\ forall cmd p, e <> EvPopen cmd p.
Proof.
  intros Hping. pose proof (session_custody w) as Hc.
  assert (Hno : forall cmd p, ~ In (EvPopen cmd p) (trace (snd (session w)))).
  { intros cmd p Hin. by destruct (cust_spawned _ _ Hc cmd p Hin) as (_ & _ & Hne & _). }
  split.
  - destruct (redis_process (snd (session w))) as [p|] eqn:Hr; [|done].
    destruct (Hno _ _ (cust_owned _ _ Hc p Hr)).
  - intros e Hin. split.
    + destruct (signalled e) as [p|] eqn:Hsig; [|done].
      apply in_split in Hin as (pre & post & Heq).
      pose proof (cust_first _ _ Hc pre e post p Heq Hsig) as Hsp.
      destruct (Hno redis_server_cmd p). rewrite Heq. apply in_or_app. by left.
    + intros cmd p ->. by destruct (Hno cmd p).
Qed.

Lemma live_service_is_left_alone_witness :
  redis_process (snd (session world_live)) = None
  /\ forall e, In e (trace (snd (session world_live))) ->
       signalled e = None /\ forall cmd p, e <> EvPopen cmd p.
Proof.
  apply (live_service_is_left_alone world_live). reflexivity.
Defined.

(** The exit hook on a stored service handle: SIGTERM and the wait; then
    nothing more, the kill, or (a signal during the wait) the run of the
    handler, which sends SIGTERM again. *)
Lemma cleanup_exit_service (w : world) (s : state) :
  mcp_process s = None ->
  redis_process (snd (cleanup w s)) = redis_process s
  /\ forall p, redis_process s = Some p ->
       exists tail,
         trace (snd (cleanup w s))
         = trace s ++ [ EvCleanup None (Some p); EvPrint "Stopping Redis...";
                        EvTerminate p; EvWait p 5 ] ++ tail
         /\ (tail = [] \/ tail = [EvKill p]
             \/ exists tail', tail = EvSignal :: tail' /\ In (EvTerminate p) tail').
Proof.
  intros Hm. rewrite (cleanup_exit_eq w s Hm).
  destruct (redis_process s) as [p|] eqn:Hr; cbn [stop_handle ret]; [|by split].
  unfold stop_process, proc_terminate, proc_wait. run. unfold try_except. run.
  set (sa := log (EvWait p 5) _).
  assert (Ha : mcp_process sa = None /\ redis_process sa = Some p
               /\ trace sa = trace s ++ [ EvCleanup None (Some p);
                                          EvPrint "Stopping Redis...";
                                          EvTerminate p; EvWait p 5 ]).
  { subst sa. state_simp. by rewrite <- !app_assoc. }
  destruct Ha as (Hma & Hra & Hta). clearbody sa.
  destruct (checkpoint_spec w sa Hma) as (r & s1 & l & Hc & Ht1 & _ & _ & Hr1 & Hcase).
  destruct Hcase as [(-> & -> & _)|(-> & -> & _)].
  - rewrite (bind_Ret _ _ _ _ _ Hc). unfold wait_result, proc_kill.
    destruct (has_exited p s1 || graceful w p); cbn [is_TimeoutExpired]; run;
      unfold modify; cbn [snd]; state_simp; rewrite Hr1, Hra, Ht1, Hta, app_nil_r;
      (split; [done|]); intros q [= <-].
    + exists []. rewrite app_nil_r. auto.
    + exists [EvKill p]. rewrite <- app_assoc. auto.
  - rewrite (bind_Raise _ _ _ _ _ Hc). cbn [is_TimeoutExpired snd].
    rewrite Hr1, Hra, Ht1, Hta. split; [done|]. intros q [= <-].
    exists (interrupted_events w sa). rewrite <- app_assoc. split; [done|].
    right. right. eexists. split; [reflexivity|].
    unfold redis_teardown, graceful_then_forced. rewrite Hra.
    cbn [In app]. do 3 right. by left.
Qed.

(** X13.  A service whose handle the session has stored is not left
    behind: whatever fails afterwards and whenever a signal arrives, the
    run of the teardown body at the exit of the interpreter finds the
    handle, sends SIGTERM and waits up to 5 seconds; after that the
    session ends, or the process is killed, or (a signal during that
    wait) the handler runs and sends SIGTERM once more.  The one way the
    [Popen] of the service can be in the trace without its handle being
    stored is a signal that is delivered after [Popen] has returned and
    before the assignment to [redis_process]; nothing is promised about
    that service (see [spawned_service_left_behind]). *)
Theorem spawned_service_is_stopped_at_exit (w : world) (cmd : list string) (p : proc) :
  In (EvPopen cmd p) (trace (snd (session w))) ->
  (redis_process (snd (session w)) = Some p
   /\ exists pre tail,
        trace (snd (session w))
        = pre ++ [ EvCleanup None (Some p); EvPrint "Stopping Redis...";
                   EvTerminate p; EvWait p 5 ] ++ tail
        /\ In (EvPopen cmd p) pre
        /\ (tail = [] \/ tail = [EvKill p]
            \/ exists tail', tail = EvSignal :: tail' /\ In (EvTerminate p) tail'))
  \/ (redis_process (snd (session w)) <> Some p
      /\ exists pre post,
           trace (snd (session w)) = pre ++ EvPopen cmd p :: EvSignal :: post).
Proof.
  intros Hin. pose proof (session_custody w) as Hc.
  destruct (cust_spawned _ _ Hc cmd p Hin) as (-> & _ & _ & Hd).
  destruct (decide (redis_process (snd (session w)) = Some p)) as [Hr|Hr].
  - left. split; [done|]. clear Hd Hc Hin. unfold session in *.
    pose proof (main_end_custody w) as Hm.
    destruct (main w (init w)) as [r s]. cbn [fst snd] in *.
    destruct (cleanup_exit_service w s (cust_mcp _ _ Hm)) as [Hsame Htail].
    rewrite Hsame in Hr. destruct (Htail p Hr) as (tail & Ht & Hcases).
    exists (trace s), tail. split; [done|]. split; [|done].
    exact (cust_owned _ _ Hm p Hr).
  - right. split; [done|]. by destruct Hd.
Qed.

Lemma spawned_service_is_stopped_at_exit_witness :
  (redis_process (snd (session world_spawn)) = Some 42
   /\ exists pre tail,
        trace (snd (session world_spawn))
        = pre ++ [ EvCleanup None (Some 42); EvPrint "Stopping Redis...";
                   EvTerminate 42; EvWait 42 5 ] ++ tail
        /\ In (EvPopen redis_server_cmd 42) pre
        /\ (tail = [] \/ tail = [EvKill 42]
            \/ exists tail', tail = EvSignal :: tail' /\ In (EvTerminate 42) tail'))
  \/ (redis_process (snd (session world_spawn)) <> Some 42
      /\ exists pre post,
           trace (snd (session world_spawn))
           = pre ++ EvPopen redis_server_cmd 42 :: EvSignal :: post).
Proof.
  apply (spawned_service_is_stopped_at_exit world_spawn redis_server_cmd 42).
  vm_compute. do 14 right. by left.
Defined.

(** In [world_signal_after_popen] the signal is delivered when [Popen]
    has returned and the handle is not stored yet: the handler and the
    exit hook find no handle, no process is sent SIGTERM, waited for or
    killed, and the service the session has spawned is left running. *)
Example spawned_service_left_behind :
  let s := snd (session world_signal_after_popen) in
  In (EvPopen redis_server_cmd 42) (trace s)
  /\ redis_process s = None
  /\ List.filter (fun e => bool_decide (is_Some (signalled e))) (trace s) = []
  /\ fst (session world_signal_after_popen) = Raise (SystemExit 0).
Proof.
  cbv zeta. split_and!.
  - vm_compute. do 14 right. by left.
  - vm_compute. reflexivity.
  - vm_compute. reflexivity.
  - vm_compute. reflexivity.
Qed.

(** X14.  The footprint of a session: of the environment variables only
    [WORKSPACE_ROOT] is ever assigned, every other variable has at the
    exit the value it had at the start; and the only file the script
    writes is the temporary configuration file. *)
Theorem session_footprint (w : world) :
  (forall k, k <> "WORKSPACE_ROOT" ->
     environ (snd (session w)) !! k = environ0 w !! k)
  /\ (forall path, path <> tmp_name w -> files (snd (session w)) !! path = None)
  /\ (forall path c, In (EvCreate path c) (trace (snd (session w))) ->
        path = tmp_name w).
Proof.
  pose proof (session_custody w) as Hc. split; [|split].
  - apply (cust_environ _ _ Hc).
  - apply (cust_files _ _ Hc).
  - intros path c Hin. exact (proj1 (session_event_ok w _ Hin)).
Qed.
